(** * The A2A task protocol of the example agents

    A shallow embedding of [examples/a2a/simple-server.js] (the math agent),
    of the polling client [A2AClient] of the simple client example and of
    [BlogClient] of the blog example, with the properties of the protocol
    description checked against them; then the other methods of the
    client, the client and the server together, and the research and
    outline functions of the blog example.

    The embedding follows the JavaScript as written:
    - JSON data is a [value]; numbers are the integers of magnitude below
      2^53, on which the arithmetic and the printing of doubles are those
      of [Z] ([safe] says that a value holds no other number, and the
      properties that depend on a sum or on the digits of a number of the
      request assume it); [VNaN] is the result of arithmetic on
      non-numbers; fractions are outside the embedding;
    - an operator that can throw returns a [Completion];
    - the [tasks] Map is a [gmap] from task id to [TaskData];
    - an [async] function is a finite coroutine ([Async]): calling it runs
      its body up to the first [await] at once, and the rest runs from the
      microtask queue or from a timer, as the event loop does;
    - [uuidv4()] and [new Date()] are read from the environment: every
      event carries the id drawn and the clock reading. *)

From Stdlib Require Import ZArith String List Lia.
From stdpp Require Import base option list strings pretty gmap.

Open Scope string_scope.
Open Scope list_scope.
Open Scope Z_scope.

(** ** JSON values and the JavaScript operators the program applies to them *)

#[warnings="-register-all"]
Inductive value : Type :=
| VUndef
| VNull
| VBool (b : bool)
| VNum (n : Z)
| VNaN
| VStr (s : string)
| VArr (elems : list value)
| VObj (fields : list (string * value)).

(** An exception value; [err_message] is [error.message]. The wording is
    the one V8 gives. *)
Inductive Error : Type :=
| TypeError (msg : string)      (* thrown by the engine *)
| JsError (msg : string).       (* [new Error(msg)] *)

Definition err_message (e : Error) : string :=
  match e with
  | TypeError msg | JsError msg => msg
  end.

(** The result of running a piece of code that can throw. *)
Inductive Completion (A : Type) : Type :=
| Normal (a : A)
| Abrupt (e : Error).
Arguments Normal {A} a.
Arguments Abrupt {A} e.

(** [!v] is [negb (truthy v)]. *)
Definition truthy (v : value) : bool :=
  match v with
  | VUndef | VNull | VNaN => false
  | VBool b => b
  | VNum n => negb (n =? 0)
  | VStr s => negb (String.eqb s EmptyString)
  | VArr _ | VObj _ => true
  end.

Definition nullish (v : value) : bool :=
  match v with
  | VUndef | VNull => true
  | _ => false
  end.

Fixpoint assoc (k : string) (fields : list (string * value)) : option value :=
  match fields with
  | [] => None
  | (k', v) :: rest => if String.eqb k k' then Some v else assoc k rest
  end.

(** [v.k] for a [v] that is neither [null] nor [undefined], and for the
    property names this program reads (none of them is [length] or an
    index, so arrays and primitives have none of them). *)
Definition get_prop (v : value) (k : string) : value :=
  match v with
  | VObj fields => default VUndef (assoc k fields)
  | _ => VUndef
  end.

(** [v === 'lit'] *)
Definition is_string (lit : string) (v : value) : bool :=
  match v with
  | VStr s => String.eqb s lit
  | _ => false
  end.

(** [a || b] *)
Definition js_or (a b : value) : value := if truthy a then a else b.

(** The integers a double holds exactly, each with its own digits. *)
Definition safe_integer (n : Z) : bool := (- 2 ^ 53 <? n) && (n <? 2 ^ 53).

(** [v] holds no number outside that range. *)
Fixpoint safe (v : value) : bool :=
  match v with
  | VNum n => safe_integer n
  | VArr elems =>
      (fix each (l : list value) : bool :=
         match l with
         | [] => true
         | x :: rest => safe x && each rest
         end) elems
  | VObj fields =>
      (fix each (l : list (string * value)) : bool :=
         match l with
         | [] => true
         | (_, x) :: rest => safe x && each rest
         end) fields
  | _ => true
  end.

(** What the engine throws when an object has no usable [toString] and
    [valueOf]. *)
Definition not_primitive : Error :=
  TypeError "Cannot convert object to primitive value".

(** [`${v}`], that is [ToString(v)]. An array joins the strings of its
    elements, the empty string for [null] and [undefined]. An object
    parsed from JSON prints through [Object.prototype.toString], unless
    it has a property [toString] of its own: that property hides the
    method and is not callable, the inherited [valueOf] returns the
    object itself, and the conversion throws. *)
Fixpoint to_string (v : value) : Completion string :=
  match v with
  | VUndef => Normal "undefined"
  | VNull => Normal "null"
  | VBool true => Normal "true"
  | VBool false => Normal "false"
  | VNum n => Normal (pretty n)
  | VNaN => Normal "NaN"
  | VStr s => Normal s
  | VArr elems =>
      (fix join (l : list value) : Completion string :=
         match l with
         | [] => Normal EmptyString
         | x :: rest =>
             match (if nullish x then Normal EmptyString else to_string x) with
             | Abrupt e => Abrupt e
             | Normal first =>
                 match rest with
                 | [] => Normal first
                 | _ :: _ =>
                     match join rest with
                     | Abrupt e => Abrupt e
                     | Normal others => Normal (first +:+ "," +:+ others)
                     end
                 end
             end
         end) elems
  | VObj fields =>
      match assoc "toString" fields with
      | Some _ => Abrupt not_primitive
      | None => Normal "[object Object]"
      end
  end.

(** [ToPrimitive]: arrays and objects turn into their strings, if they
    have one. *)
Definition to_primitive (v : value) : Completion value :=
  match v with
  | VArr _ | VObj _ =>
      match to_string v with
      | Normal s => Normal (VStr s)
      | Abrupt e => Abrupt e
      end
  | _ => Normal v
  end.

(** [ToNumber] of a primitive that is not a string; [None] is [NaN]. *)
Definition to_number (v : value) : option Z :=
  match v with
  | VNull => Some 0
  | VBool true => Some 1
  | VBool false => Some 0
  | VNum n => Some n
  | _ => None
  end.

(** [a + b]: both operands are made primitive, the left one first; with
    a string among them the two strings are joined, otherwise the two
    numbers are added. *)
Definition js_add (a b : value) : Completion value :=
  match to_primitive a with
  | Abrupt e => Abrupt e
  | Normal pa =>
      match to_primitive b with
      | Abrupt e => Abrupt e
      | Normal pb =>
          match pa, pb with
          | VStr _, _ | _, VStr _ =>
              match to_string pa, to_string pb with
              | Normal x, Normal y => Normal (VStr (x +:+ y))
              | Abrupt e, _ | _, Abrupt e => Abrupt e
              end
          | _, _ =>
              match to_number pa, to_number pb with
              | Some x, Some y => Normal (VNum (x + y))
              | _, _ => Normal VNaN
              end
          end
      end
  end.

(** Object and message literals of the source. *)
Definition text_part (text : string) : value :=
  VObj [("type", VStr "text"); ("text", VStr text)].

Definition data_part (data : value) : value :=
  VObj [("type", VStr "data"); ("data", data)].

Definition agent_message (text : string) : value :=
  VObj [("role", VStr "agent"); ("parts", VArr [text_part text])].

(** ** The Task Record and the task map (simple-server.js, lines 10-11, 171-185) *)

Record Status : Type := {
  state : string;
  timestamp : Z;                 (* the clock reading behind [toISOString()] *)
  message : option value          (* absent until the first update with a message *)
}.

Record Task : Type := {
  id : string;
  status : Status;
  artifacts : list value
}.

Record TaskData : Type := {
  task : Task;
  history : list value
}.

(** The argument of [updateCallback]: each of the three properties may be
    absent. *)
Record Update : Type := {
  upd_state : option string;
  upd_message : option value;
  upd_artifacts : option (list value)
}.

(** [if (update.state)]: present and not the empty string. *)
Definition state_given (u : Update) : option string :=
  match upd_state u with
  | Some s => if String.eqb s EmptyString then None else Some s
  | None => None
  end.

(** [if (update.message)] *)
Definition message_given (u : Update) : option value :=
  match upd_message u with
  | Some m => if truthy m then Some m else None
  | None => None
  end.

(** The body of [updateCallback] below its guard (lines 129-144): the
    three assignments to the record found, in their order. *)
Definition merge_update (now : Z) (update : Update) (taskData : TaskData) : TaskData :=
  let st0 := status (task taskData) in
  let st1 :=
    match state_given update with
    | Some s => {| state := s; timestamp := now; message := message st0 |}
    | None => st0
    end in
  let '(hist, st2) :=
    match message_given update with
    | Some m =>
        (history taskData ++ [m],
         {| state := state st1; timestamp := timestamp st1; message := Some m |})
    | None => (history taskData, st1)
    end in
  let arts :=
    match upd_artifacts update with
    | Some new => artifacts (task taskData) ++ new
    | None => artifacts (task taskData)
    end in
  {| task := {| id := id (task taskData); status := st2; artifacts := arts |};
     history := hist |}.

(** [updateCallback] (lines 125-145) for the task [taskId] it closes over.
    The function has no [await]: a call runs the whole body at once. It
    returns [undefined] on both paths; the second component is the task
    map after the in-place mutation of the record. The sink of the blog
    example (lines 225-242 there) is the same function. *)
Definition updateCallback (taskId : string) (now : Z) (update : Update)
    (tasks : gmap string TaskData) : Completion value * gmap string TaskData :=
  match tasks !! taskId with
  | None => (Normal VUndef, tasks)
  | Some taskData => (Normal VUndef, <[taskId := merge_update now update taskData]> tasks)
  end.

(** ** Coroutines

    The body of an [async] function, cut at its suspension points. *)
Inductive Async : Type :=
| Done                                      (* the function returns *)
| Throw (e : Error)                         (* the function throws *)
| CallUpdate (update : Update) (k : Async)  (* [updateCallback(update)], run at once *)
| Await (k : Async)                         (* [await] of a settled promise: the rest is a microtask *)
| Sleep (ms : Z) (k : Async).               (* [await new Promise(r => setTimeout(r, ms))] *)

(** ** handleTask (lines 63-110) *)

(** [userMessage.parts.find(p => p.type === 'data')] *)
Fixpoint find_data (parts : list value) : Completion value :=
  match parts with
  | [] => Normal VUndef
  | p :: rest =>
      match p with
      | VUndef => Abrupt (TypeError "Cannot read properties of undefined (reading 'type')")
      | VNull => Abrupt (TypeError "Cannot read properties of null (reading 'type')")
      | _ => if is_string "data" (get_prop p "type") then Normal p else find_data rest
      end
  end.

Definition find_data_part (userMessage : value) : Completion value :=
  match userMessage with
  | VUndef => Abrupt (TypeError "Cannot read properties of undefined (reading 'parts')")
  | VNull => Abrupt (TypeError "Cannot read properties of null (reading 'parts')")
  | _ =>
      match get_prop userMessage "parts" with
      | VArr parts => find_data parts
      | VUndef => Abrupt (TypeError "Cannot read properties of undefined (reading 'find')")
      | VNull => Abrupt (TypeError "Cannot read properties of null (reading 'find')")
      | _ => Abrupt (TypeError "userMessage.parts.find is not a function")
      end
  end.

(** [dataPart?.data || {}] *)
Definition params_of (dataPart : value) : value :=
  js_or (if nullish dataPart then VUndef else get_prop dataPart "data") (VObj []).

Definition working_update : Update :=
  {| upd_state := Some "working";
     upd_message := Some (agent_message "Calculating sum...");
     upd_artifacts := None |}.

(** The artifact of the sum [result] (lines 94-97). *)
Definition sum_artifact (result : value) : value :=
  VObj [("name", VStr "calculation_result");
        ("parts", VArr [data_part (VObj [("result", result)])])].

(** The update of lines 88-98; [text] is what the template literal made
    of [result]. *)
Definition completed_update (result : value) (text : string) : Update :=
  {| upd_state := Some "completed";
     upd_message := Some (agent_message ("The sum is " +:+ text));
     upd_artifacts := Some [sum_artifact result] |}.

(** The update of lines 102-108; [text] is what the template literal
    made of [skillId]. *)
Definition unknown_skill_update (text : string) : Update :=
  {| upd_state := Some "failed";
     upd_message := Some (agent_message ("Unknown skill: " +:+ text));
     upd_artifacts := None |}.

(** Lines 88-99: the argument of the sink is built, then the sink is
    called. *)
Definition report (result : value) : Async :=
  match to_string result with
  | Abrupt e => Throw e
  | Normal text => CallUpdate (completed_update result text) (Await Done)
  end.

(** Lines 84-99, the [add] branch once its timer has fired: the sum
    throws when an operand has no primitive value. *)
Definition report_sum (params : value) : Async :=
  match js_add (get_prop params "a") (get_prop params "b") with
  | Abrupt e => Throw e
  | Normal result => report result
  end.

Definition handleTask (skillId userMessage : value) : Async :=
  match find_data_part userMessage with
  | Abrupt e => Throw e
  | Normal dataPart =>
      let params := params_of dataPart in
      if is_string "add" skillId then
        CallUpdate working_update (Await (Sleep 1000 (report_sum params)))
      else
        match to_string skillId with
        | Abrupt e => Throw e
        | Normal text => CallUpdate (unknown_skill_update text) (Await Done)
        end
  end.

(** ** executeTask (lines 113-159) *)

Definition error_update (error : Error) : Update :=
  {| upd_state := Some "failed";
     upd_message := Some (agent_message ("Error: " +:+ err_message error));
     upd_artifacts := None |}.

(** [try { await h } catch (error) { await updateCallback(...) }]: the
    caller is suspended for as long as [h] runs; a [throw] in [h] rejects
    its promise, and the [catch] block runs when the [await] resumes. *)
Fixpoint try_await (h : Async) : Async :=
  match h with
  | Done => Await Done
  | Throw error => Await (CallUpdate (error_update error) (Await Done))
  | CallUpdate u k => CallUpdate u (try_await k)
  | Await k => Await (try_await k)
  | Sleep ms k => Sleep ms (try_await k)
  end.

Definition executeTask (skill message : value) : Async :=
  try_await (handleTask skill message).


(** ** The event loop *)

(** Where a coroutine stops. *)
Inductive Suspended : Type :=
| Finished
| Rejected (e : Error)
| OnMicrotask (k : Async)
| OnTimer (ms : Z) (k : Async).

(** A call of the coroutine of task [taskId]: everything up to the first
    [await] happens before the caller goes on. *)
Fixpoint run_sync (taskId : string) (now : Z) (p : Async)
    (tasks : gmap string TaskData) : gmap string TaskData * Suspended :=
  match p with
  | Done => (tasks, Finished)
  | Throw e => (tasks, Rejected e)
  | CallUpdate u k => run_sync taskId now k (updateCallback taskId now u tasks).2
  | Await k => (tasks, OnMicrotask k)
  | Sleep ms k => (tasks, OnTimer ms k)
  end.

(** Draining the microtask queue once the running callback has returned:
    the coroutine goes on until it waits for a timer or ends. *)
Fixpoint run_micro (taskId : string) (now : Z) (p : Async)
    (tasks : gmap string TaskData) : gmap string TaskData * Suspended :=
  match p with
  | Done => (tasks, Finished)
  | Throw e => (tasks, Rejected e)
  | CallUpdate u k => run_micro taskId now k (updateCallback taskId now u tasks).2
  | Await k => run_micro taskId now k tasks
  | Sleep ms k => (tasks, OnTimer ms k)
  end.

(** A pending [setTimeout]: the task whose coroutine waits, the delay and
    the rest of the coroutine. *)
Record PendingTimer : Type := {
  timer_task : string;
  timer_ms : Z;
  timer_rest : Async
}.

Record Server : Type := {
  tasks : gmap string TaskData;
  timers : list PendingTimer
}.

Definition park (taskId : string) (s : Suspended) (timers : list PendingTimer)
    : list PendingTimer :=
  match s with
  | OnTimer ms k => timers ++ [{| timer_task := taskId; timer_ms := ms; timer_rest := k |}]
  | _ => timers
  end.

(** The microtasks left by a callback, for the coroutine of [taskId]. *)
Definition drain (taskId : string) (now : Z) (s : Suspended) (srv : Server) : Server :=
  match s with
  | OnMicrotask k =>
      let '(tasks', s') := run_micro taskId now k (tasks srv) in
      {| tasks := tasks'; timers := park taskId s' (timers srv) |}
  | _ => {| tasks := tasks srv; timers := park taskId s (timers srv) |}
  end.

(** ** Requests and responses (lines 44-60, 161-248) *)

(** [req.headers] has lower-case names, as Node delivers them; [body] is
    what [express.json()] left in [req.body]. *)
Record Request : Type := {
  headers : gmap string string;
  body : value
}.

(** [result] carries the task's own properties, and [history] when the
    handler added it; [error] carries [code], [message] and, for an
    internal error, [data]. *)
Inductive Payload : Type :=
| Result (t : Task) (hist : option (list value))
| RpcError (code : Z) (msg : string) (data : option string).

(** [rpc_id = VUndef] is an envelope without [id]. *)
Record Response : Type := {
  http_status : Z;
  jsonrpc : string;
  payload : Payload;
  rpc_id : value
}.

(** The ids of [agentCard.skills] (lines 19-33). *)
Definition agentCard_skills : list string := ["add"].

Definition registered (skill : value) : bool :=
  existsb (fun s => is_string s skill) agentCard_skills.

(** [!apiKey || apiKey !== 'test-api-key'] *)
Definition key_refused (apiKey : option string) : bool :=
  match apiKey with
  | None => true
  | Some k => String.eqb k EmptyString || negb (String.eqb k "test-api-key")
  end.

(** [authenticateApiKey]: [Some] is the response sent instead of calling
    [next()]. *)
Definition authenticateApiKey (req : Request) : option Response :=
  let apiKey := headers req !! "x-api-key" in
  if key_refused apiKey then
    Some {| http_status := 401;
            jsonrpc := "2.0";
            payload := RpcError (-32001) "Authentication failed" None;
            rpc_id := js_or (if nullish (body req) then VUndef else get_prop (body req) "id")
                            VNull |}
  else None.

Definition initial_task (taskId : string) (now : Z) : Task :=
  {| id := taskId;
     status := {| state := "submitted"; timestamp := now; message := None |};
     artifacts := [] |}.

(** [tasks.get(key)]: the keys of the map are strings. *)
Definition tasks_get (key : value) (tasks : gmap string TaskData) : option TaskData :=
  match key with
  | VStr k => tasks !! k
  | _ => None
  end.

Definition internal_error (msg : string) (rid : value) : Response :=
  {| http_status := 500;
     jsonrpc := "2.0";
     payload := RpcError (-32603) "Internal error" (Some msg);
     rpc_id := rid |}.

(** The text of the fault of [const { prop } = v] for a [v] that is
    [null] or [undefined]. *)
Definition destructure_error (prop what : string) (v : value) : string :=
  "Cannot destructure property '" +:+ prop +:+ "' of '" +:+ what +:+ "' as it is "
  +:+ (match v with VNull => "null" | _ => "undefined" end) +:+ ".".

(** The route [app.post('/api', authenticateApiKey, handler)]. [uuid] is
    what [uuidv4()] returns if the handler calls it, [now] the clock.
    The response is [None] when the handler throws before its [try]
    (a request without a body): no envelope is written.

    In [tasks/send] the object [task] put in the map is the object handed
    to [res.json]: the response shows the record as the part of
    [executeTask] that runs before its first [await] has left it. *)
Definition post_api (req : Request) (uuid : string) (now : Z) (srv : Server)
    : option Response * Server :=
  match authenticateApiKey req with
  | Some refused => (Some refused, srv)
  | None =>
      if nullish (body req) then (None, srv)
      else
        let method := get_prop (body req) "method" in
        let params := get_prop (body req) "params" in
        let rid := get_prop (body req) "id" in
        if is_string "tasks/send" method then
          if nullish params then
            (Some (internal_error (destructure_error "skill" "params" params) rid), srv)
          else
            let taskId := uuid in
            let skill := get_prop params "skill" in
            let message := get_prop params "message" in
            let task0 := initial_task taskId now in
            let tasks1 := <[taskId := {| task := task0; history := [message] |}]> (tasks srv) in
            let '(tasks2, susp) := run_sync taskId now (executeTask skill message) tasks1 in
            let shown := from_option task task0 (tasks2 !! taskId) in
            (Some {| http_status := 200; jsonrpc := "2.0";
                     payload := Result shown None; rpc_id := rid |},
             drain taskId now susp {| tasks := tasks2; timers := timers srv |})
        else if is_string "tasks/get" method then
          if nullish params then
            (Some (internal_error (destructure_error "taskId" "params" params) rid), srv)
          else
            let taskId := get_prop params "taskId" in
            let includeHistory := get_prop params "includeHistory" in
            match tasks_get taskId (tasks srv) with
            | None =>
                (Some {| http_status := 404; jsonrpc := "2.0";
                         payload := RpcError (-32002) "Task not found" None;
                         rpc_id := rid |}, srv)
            | Some taskData =>
                (Some {| http_status := 200; jsonrpc := "2.0";
                         payload := Result (task taskData)
                                      (if truthy includeHistory then Some (history taskData)
                                       else None);
                         rpc_id := rid |}, srv)
            end
        else
          (Some {| http_status := 404; jsonrpc := "2.0";
                   payload := RpcError (-32601) "Method not found" None;
                   rpc_id := rid |}, srv)
  end.

(** The [n]-th pending timer fires: the coroutine that waited goes on. *)
Definition fire (n : nat) (now : Z) (srv : Server) : Server :=
  match timers srv !! n with
  | None => srv
  | Some t =>
      let '(tasks', s') := run_micro (timer_task t) now (timer_rest t) (tasks srv) in
      {| tasks := tasks'; timers := park (timer_task t) s' (delete n (timers srv)) |}
  end.

(** What the event loop runs: a request to [/api], or a timer. Timers may
    fire in any order here; the program only ever sets the one delay. *)
Inductive Event : Type :=
| Post (req : Request) (uuid : string) (now : Z)
| Fire (n : nat) (now : Z).

Definition step (e : Event) (srv : Server) : option Response * Server :=
  match e with
  | Post req uuid now => post_api req uuid now srv
  | Fire n now => (None, fire n now srv)
  end.

Definition run (events : list Event) (srv : Server) : Server :=
  fold_left (fun s e => (step e s).2) events srv.

Definition initial : Server := {| tasks := ∅; timers := [] |}.

(** The requests whose handling calls [uuidv4()]. *)
Definition draws_uuid (req : Request) : bool :=
  match authenticateApiKey req with
  | Some _ => false
  | None => negb (nullish (body req)) && is_string "tasks/send" (get_prop (body req) "method")
  end.

(** [uuidv4()] draws an id that no earlier task has. *)
Definition fresh (e : Event) (srv : Server) : Prop :=
  match e with
  | Post req uuid _ => draws_uuid req = true -> tasks srv !! uuid = None
  | Fire _ _ => True
  end.

Fixpoint fresh_run (events : list Event) (srv : Server) : Prop :=
  match events with
  | [] => True
  | e :: rest => fresh e srv /\ fresh_run rest (step e srv).2
  end.

Definition state_of (taskId : string) (srv : Server) : option string :=
  (fun td => state (status (task td))) <$> tasks srv !! taskId.

(** ** The polling clients *)

(** [sendRequest] once the agent has answered: [result.error] makes it
    throw, otherwise it returns [result.result]. *)
Definition sendRequest (answer : Response) : Completion (Task * option (list value)) :=
  match payload answer with
  | RpcError _ msg _ => Abrupt (JsError ("RPC Error: " +:+ msg))
  | Result t hist => Normal (t, hist)
  end.

(** [parts[0]] *)
Definition first_of (parts : value) : Completion value :=
  match parts with
  | VUndef => Abrupt (TypeError "Cannot read properties of undefined (reading '0')")
  | VNull => Abrupt (TypeError "Cannot read properties of null (reading '0')")
  | VArr elems => Normal (hd VUndef elems)
  | VStr (String c _) => Normal (VStr (String c EmptyString))
  | VObj fields => Normal (default VUndef (assoc "0" fields))
  | _ => Normal VUndef
  end.

(** [task.status.message?.parts[0]?.text] *)
Definition status_text (t : Task) : Completion value :=
  match message (status t) with
  | None => Normal VUndef
  | Some m =>
      if nullish m then Normal VUndef
      else
        match first_of (get_prop m "parts") with
        | Abrupt e => Abrupt e
        | Normal part => Normal (if nullish part then VUndef else get_prop part "text")
        end
  end.

(** What a call of [waitForCompletion] comes to, given the polls the
    environment lets it make: [Polling] when it is still in its loop after
    the last of them. *)
Inductive Outcome : Type :=
| Returned (t : Task) (hist : option (list value))
| Thrown (e : Error)
| Polling.

Module A2AClient.

Definition terminalStates : list string := ["completed"; "failed"; "canceled"; "rejected"].

(** [waitForCompletion] (lines 91-117 of the simple client). Each turn
    of the loop reads the clock and then polls: [polls] lists the clock
    readings and the answers to [tasks/get], in order. *)
Fixpoint waitForCompletion (taskId : string) (maxWaitMs : Z) (startTime : Z)
    (polls : list (Z * Response)) : Outcome :=
  match polls with
  | [] => Polling
  | (now, answer) :: rest =>
      if now - startTime >? maxWaitMs then
        Thrown (JsError ("Task " +:+ taskId +:+ " did not complete within "
                         +:+ pretty maxWaitMs +:+ "ms"))
      else
        match sendRequest answer with
        | Abrupt e => Thrown e
        | Normal (t, hist) =>
            let st := state (status t) in
            if existsb (String.eqb st) terminalStates then
              if String.eqb st "failed" || String.eqb st "rejected" then
                match status_text t with
                | Abrupt e => Thrown e
                | Normal text =>
                    match to_string (js_or text (VStr "Unknown error")) with
                    | Abrupt e => Thrown e
                    | Normal shown => Thrown (JsError ("Task failed: " +:+ shown))
                    end
                end
              else Returned t hist
            else waitForCompletion taskId maxWaitMs startTime rest
        end
  end.

End A2AClient.

Module BlogClient.

Definition terminalStates : list string := ["completed"; "failed"; "canceled"].

(** [waitForCompletion] (lines 370-391 of the blog example). The log
    line of every turn reads the text of the status message and prints
    it, or the empty string in its place. *)
Fixpoint waitForCompletion (taskId : string) (maxWaitMs : Z) (startTime : Z)
    (polls : list (Z * Response)) : Outcome :=
  match polls with
  | [] => Polling
  | (now, answer) :: rest =>
      if now - startTime >? maxWaitMs then
        Thrown (JsError ("Task timeout after " +:+ pretty maxWaitMs +:+ "ms"))
      else
        match sendRequest answer with
        | Abrupt e => Thrown e
        | Normal (t, hist) =>
            match status_text t with
            | Abrupt e => Thrown e
            | Normal text =>
                match to_string (js_or text (VStr EmptyString)) with
                | Abrupt e => Thrown e
                | Normal _ =>
                    let st := state (status t) in
                    if existsb (String.eqb st) terminalStates then
                      if String.eqb st "failed" then
                        match to_string text with
                        | Abrupt e => Thrown e
                        | Normal shown => Thrown (JsError ("Task failed: " +:+ shown))
                        end
                      else Returned t hist
                    else waitForCompletion taskId maxWaitMs startTime rest
                end
            end
        end
  end.

End BlogClient.

(** ** Notions the properties are stated with *)

(** The calls of the update sink a coroutine makes when it runs to its
    end, in order. *)
Fixpoint updates_of (p : Async) : list Update :=
  match p with
  | Done | Throw _ => []
  | CallUpdate u k => u :: updates_of k
  | Await k | Sleep _ k => updates_of k
  end.

(** The timers a coroutine waits for when it runs to its end. *)
Fixpoint sleeps_of (p : Async) : list Z :=
  match p with
  | Done | Throw _ => []
  | CallUpdate _ k | Await k => sleeps_of k
  | Sleep ms k => ms :: sleeps_of k
  end.

Definition terminal (st : string) : bool :=
  existsb (String.eqb st) ["completed"; "failed"; "canceled"; "rejected"].

(** The state graph of the protocol description (section 4.4), as it is
    drawn there. *)
Inductive spec_transition : string -> string -> Prop :=
| begin_execution : spec_transition "submitted" "working"
| progress : spec_transition "working" "working"
| success : spec_transition "working" "completed"
| failure : spec_transition "working" "failed"
| precondition : spec_transition "submitted" "failed"
| cancellation st : terminal st = false -> spec_transition st "canceled".

(** A caller of the sink can tell that something went wrong: the call
    does not return the plain [undefined] of a successful update. *)
Definition signals (c : Completion value) : Prop :=
  match c with
  | Normal v => v <> VUndef
  | Abrupt _ => True
  end.

(** [text] contains [word]. *)
Definition mentions (word text : string) : bool :=
  match String.index 0 word text with
  | Some _ => true
  | None => false
  end.

(** The text of the first part of a message. *)
Definition message_text (m : value) : value :=
  match get_prop m "parts" with
  | VArr (part :: _) => get_prop part "text"
  | _ => VUndef
  end.

(** *** The shapes of a task and of its answers *)

(** What is left of the [add] coroutine once its timer is set, for the
    sum [result]. *)
Definition after_sleep (result : value) : Async := try_await (report result).

(** What [handleTask] throws before its first [await], if it does: the
    fault of reading the parts of the message, or that of printing a
    skill that is not [add]. *)
Definition early_fault (skill message : value) : option Error :=
  match find_data_part message with
  | Abrupt e => Some e
  | Normal _ =>
      if is_string "add" skill then None
      else match to_string skill with
           | Abrupt e => Some e
           | Normal _ => None
           end
  end.

(** [executeTask] has one of three shapes. *)
Inductive TaskShape (skill message : value) : Async -> Prop :=
| shape_fault e :
    early_fault skill message = Some e ->
    TaskShape skill message (Await (CallUpdate (error_update e) (Await Done)))
| shape_add dataPart :
    find_data_part message = Normal dataPart ->
    is_string "add" skill = true ->
    TaskShape skill message
      (CallUpdate working_update
         (Await (Sleep 1000 (try_await (report_sum (params_of dataPart))))))
| shape_unknown dataPart text :
    find_data_part message = Normal dataPart ->
    is_string "add" skill = false ->
    to_string skill = Normal text ->
    TaskShape skill message (CallUpdate (unknown_skill_update text) (Await (Await Done))).

(** The one update a coroutine that waits for the timer of an [add] task
    has left to make: the sum, or the fault of computing it. *)
Inductive Reports : Async -> Update -> Prop :=
| reports_sum result text :
    Reports (CallUpdate (completed_update result text) (Await (Await Done)))
            (completed_update result text)
| reports_fault e :
    Reports (Await (CallUpdate (error_update e) (Await Done))) (error_update e).

Definition submitted_data (taskId : string) (now : Z) (message : value) : TaskData :=
  {| task := initial_task taskId now; history := [message] |}.

Definition sent (t : Task) (rid : value) : Response :=
  {| http_status := 200; jsonrpc := "2.0"; payload := Result t None; rpc_id := rid |}.

(** *** What one turn of the event loop does to the server *)

(** Either nothing; or a new record that has already failed; or a new
    record at work, with its timer; or the end of a pending timer, whose
    coroutine reports the sum or a fault. [drawn_fresh] stands for the
    assumption on [uuidv4()] under which the id of a new record is not in
    the map. *)
Inductive Effect (drawn_fresh : Prop) (srv : Server) : Server -> Prop :=
| effect_none : Effect drawn_fresh srv srv
| effect_fail uuid now message u :
    (drawn_fresh -> tasks srv !! uuid = None) ->
    upd_state u = Some "failed" ->
    Effect drawn_fresh srv
      {| tasks := <[uuid := merge_update now u (submitted_data uuid now message)]> (tasks srv);
         timers := timers srv |}
| effect_start uuid now message rest u :
    (drawn_fresh -> tasks srv !! uuid = None) ->
    Reports rest u ->
    Effect drawn_fresh srv
      {| tasks := <[uuid := merge_update now working_update (submitted_data uuid now message)]>
                    (tasks srv);
         timers := timers srv ++ [{| timer_task := uuid; timer_ms := 1000;
                                     timer_rest := rest |}] |}
| effect_complete before t after now u :
    timers srv = before ++ t :: after ->
    Reports (timer_rest t) u ->
    Effect drawn_fresh srv
      {| tasks := (updateCallback (timer_task t) now u (tasks srv)).2;
         timers := before ++ after |}.

(** Every pending timer belongs to an [add] coroutine that has its one
    report left to make. *)
Definition timers_report (srv : Server) : Prop :=
  forall t, t ∈ timers srv -> exists u, Reports (timer_rest t) u.


(** The tasks with a pending timer are distinct and at work. *)
Definition timers_at_work (srv : Server) : Prop :=
  NoDup (timer_task <$> timers srv)
  /\ forall t, t ∈ timers srv -> state_of (timer_task t) srv = Some "working".

(** [a] is [b], or the graph leads from [a] to [b]. *)
Definition advances : string -> string -> Prop := rtc spec_transition.

(** *** The calls of the sink in a turn of the event loop *)

(** The calls of the sink a coroutine makes until it waits for a timer
    or ends. *)
Fixpoint updates_until_sleep (p : Async) : list Update :=
  match p with
  | Done | Throw _ | Sleep _ _ => []
  | CallUpdate u k => u :: updates_until_sleep k
  | Await k => updates_until_sleep k
  end.

(** The coroutine a turn runs, with its task and the clock: the call of
    [executeTask] by an accepted [tasks/send] with [params], or what is
    left of the coroutine whose timer fires. *)
Definition turn_coroutine (e : Event) (srv : Server) : option (string * Z * Async) :=
  match e with
  | Post req uuid now =>
      let params := get_prop (body req) "params" in
      if draws_uuid req && negb (nullish params) then
        Some (uuid, now, executeTask (get_prop params "skill") (get_prop params "message"))
      else None
  | Fire n now => (fun t => (timer_task t, now, timer_rest t)) <$> timers srv !! n
  end.

(** The task map that coroutine starts from: [tasks/send] has stored the
    new record by then (lines 182-185). *)
Definition turn_start (e : Event) (srv : Server) : gmap string TaskData :=
  match e with
  | Post req uuid now =>
      let params := get_prop (body req) "params" in
      if draws_uuid req && negb (nullish params) then
        <[uuid := submitted_data uuid now (get_prop params "message")]> (tasks srv)
      else tasks srv
  | Fire _ _ => tasks srv
  end.

(** Calls of the sink of [taskId], one after the other. *)
Definition apply_updates (taskId : string) (now : Z) (updates : list Update)
    (tasks : gmap string TaskData) : gmap string TaskData :=
  fold_left (fun m u => (updateCallback taskId now u m).2) updates tasks.

Definition state_in (taskId : string) (tasks : gmap string TaskData) : option string :=
  (fun td => state (status (task td))) <$> tasks !! taskId.

(** *** The task that adds 5 and 3 *)

Definition at_work (t : Task) : Prop :=
  state (status t) = "working" /\ artifacts t = [].

(** Completed, with the one artifact whose one part is the data
    [{result: 8}]. *)
Definition sum_done (t : Task) : Prop :=
  state (status t) = "completed"
  /\ artifacts t
     = [VObj [("name", VStr "calculation_result");
              ("parts", VArr [VObj [("type", VStr "data");
                                    ("data", VObj [("result", VNum 8)])]])]].

(** The record of [taskId] is at work with its timer pending, or it is
    completed with the one artifact; a timer of the task reports 8. *)
Definition adding (taskId : string) (srv : Server) : Prop :=
  exists taskData,
    tasks srv !! taskId = Some taskData
    /\ (forall pt, pt ∈ timers srv -> timer_task pt = taskId ->
                   timer_rest pt = after_sleep (VNum 8))
    /\ ((at_work (task taskData)
         /\ exists pt, pt ∈ timers srv /\ timer_task pt = taskId)
        \/ sum_done (task taskData)).

(** ** Requests and tasks used as examples *)

Definition api_key_header (key : string) : gmap string string :=
  {[ "x-api-key" := key ]}.

Definition envelope (method : string) (params rid : value) : value :=
  VObj [("jsonrpc", VStr "2.0"); ("method", VStr method); ("params", params); ("id", rid)].

(** The message [sendTask] of the simple client builds. *)
Definition user_message (skillId : string) (data : value) : value :=
  VObj [("role", VStr "user");
        ("parts", VArr [text_part ("Please execute skill: " +:+ skillId); data_part data])].

Definition send_request (skillId : string) (data rid : value) : Request :=
  {| headers := api_key_header "test-api-key";
     body := envelope "tasks/send"
               (VObj [("skill", VStr skillId); ("message", user_message skillId data)]) rid |}.

Definition get_request (taskId : value) (includeHistory : bool) (rid : value) : Request :=
  {| headers := api_key_header "test-api-key";
     body := envelope "tasks/get"
               (VObj [("taskId", taskId); ("includeHistory", VBool includeHistory)]) rid |}.

(** [{a: 5, b: 3}] *)
Definition five_and_three : value := VObj [("a", VNum 5); ("b", VNum 3)].

(** Records a client may be shown. *)
Definition failed_sum : Task :=
  {| id := "t1";
     status := {| state := "failed"; timestamp := 100;
                  message := Some (agent_message "Unknown skill: subtract") |};
     artifacts := [] |}.

Definition canceled_sum : Task :=
  {| id := "t1";
     status := {| state := "canceled"; timestamp := 100;
                  message := Some (agent_message "Stopped by the operator") |};
     artifacts := [] |}.

(** ** More notions: what the handlers report, and what a turn changes *)

(** An update as the handlers of this agent make them: a state and an
    agent message. *)
Definition agent_update (u : Update) : Prop :=
  exists st text,
    upd_state u = Some st /\ st <> EmptyString
    /\ upd_message u = Some (agent_message text).

(** A turn of the event loop leaves the task map as it was, or puts in a
    new record that an agent update has already reached, or applies an
    agent update through the sink. *)
Inductive Change (srv : Server) : Server -> Prop :=
| change_none : Change srv srv
| change_create uuid now message u timers' :
    agent_update u ->
    Change srv
      {| tasks := <[uuid := merge_update now u (submitted_data uuid now message)]> (tasks srv);
         timers := timers' |}
| change_update taskId now u timers' :
    agent_update u ->
    Change srv
      {| tasks := (updateCallback taskId now u (tasks srv)).2; timers := timers' |}.


(** What every stored record satisfies: its [id] is its key, its status
    message is the last entry of its history, and the history holds the
    message of the request and at least one answer. *)
Definition well_kept (key : string) (taskData : TaskData) : Prop :=
  id (task taskData) = key
  /\ (exists m, message (status (task taskData)) = Some m
                /\ last (history taskData) = Some m)
  /\ (2 <= length (history taskData))%nat.

(** The pairs of error code and HTTP status the server answers with. *)
Definition error_statuses : list (Z * Z) :=
  [(-32001, 401); (-32002, 404); (-32601, 404); (-32603, 500)].

(** ** The blog assistant: research and outline (blog example, lines 69-113) *)

Module BlogAssistant.

(** The double quote around the resource titles. *)
Definition quote_mark : string := String (Ascii.ascii_of_nat 34) EmptyString.

(** [researchTopic] (lines 70-86): the object its promise resolves to,
    or the fault it is rejected with. Every template literal prints the
    same [topic]: the first of them throws if any does. *)
Definition researchTopic (topic audience : value) : Completion value :=
  match to_string topic with
  | Abrupt e => Abrupt e
  | Normal text =>
      let keyPoints :=
        VArr [VStr ("Definition and importance of " +:+ text);
              VStr ("Current trends in " +:+ text);
              VStr ("Best practices for " +:+ text);
              VStr ("Common challenges with " +:+ text);
              VStr ("Future of " +:+ text)] in
      let resources :=
        VArr [VObj [("title", VStr (quote_mark +:+ text +:+ " Fundamentals" +:+ quote_mark));
                    ("url", VStr "https://example.com/1")];
              VObj [("title", VStr (quote_mark +:+ "Advanced " +:+ text
                                    +:+ " Techniques" +:+ quote_mark));
                    ("url", VStr "https://example.com/2")]] in
      Normal (VObj [("keyPoints", keyPoints);
                    ("resources", resources);
                    ("audience", js_or audience (VStr "general readers"))])
  end.

Definition outline_section (heading : value) (wordsPerSection : Z) (notes : string) : value :=
  VObj [("heading", heading); ("word_count", VNum wordsPerSection); ("notes", VStr notes)].

(** [generateOutline] (lines 89-113), for [keyPoints] an array and
    [wordCount] a number. For a [wordCount] of magnitude below 2^53 the
    [Math.floor] of the quotient by the positive number of sections is
    the quotient of [Z]: the double nearest to the exact quotient lies on
    the same side of every integer, those included. The properties of
    the outline assume that range. *)
Definition generateOutline (topic : value) (keyPoints : list value) (wordCount : Z)
    : Completion value :=
  let wordsPerSection := wordCount / (Z.of_nat (length keyPoints) + 2) in
  match to_string topic with
  | Abrupt e => Abrupt e
  | Normal text =>
      Normal
        (VObj [("title", VStr ("The Complete Guide to " +:+ text));
               ("target_word_count", VNum wordCount);
               ("sections",
                VArr (outline_section (VStr "Introduction") wordsPerSection
                        "Hook the reader, introduce the topic, preview main points"
                      :: map (fun point =>
                                outline_section point wordsPerSection
                                  "Expand on this key point with examples and explanations")
                           keyPoints
                      ++ [outline_section (VStr "Conclusion") wordsPerSection
                            "Summarize key points, call to action"]))])
  end.

End BlogAssistant.

(** [outline.sections], [section.heading] and [section.word_count], as
    [createBlogPost] reads them (lines 425-433). *)
Definition sections_of (outline : value) : list value :=
  match get_prop outline "sections" with
  | VArr sections => sections
  | _ => []
  end.

Definition heading_of (section : value) : value := get_prop section "heading".

Definition word_count_of (section : value) : Z :=
  match get_prop section "word_count" with
  | VNum n => n
  | _ => 0
  end.

Definition total_words (outline : value) : Z :=
  foldr Z.add 0 (word_count_of <$> sections_of outline).

(** ** JSON on the wire *)

(** [JSON.parse(JSON.stringify(v))] for a [v] inside a body: a property
    whose value is [undefined] is left out, [undefined] in an array and
    [NaN] become [null]. *)
Fixpoint wire (v : value) : value :=
  match v with
  | VNaN => VNull
  | VArr elems =>
      VArr ((fix each (l : list value) : list value :=
               match l with
               | [] => []
               | x :: rest =>
                   match x with
                   | VUndef => VNull
                   | _ => wire x
                   end :: each rest
               end) elems)
  | VObj fields =>
      VObj ((fix each (l : list (string * value)) : list (string * value) :=
               match l with
               | [] => []
               | (k, x) :: rest =>
                   match x with
                   | VUndef => each rest
                   | _ => (k, wire x) :: each rest
                   end
               end) fields)
  | _ => v
  end.

Definition wire_array (elems : list value) : list value :=
  match wire (VArr elems) with
  | VArr elems' => elems'
  | _ => []
  end.

(** A task as the client reads it from the body of the response. *)
Definition wire_task (t : Task) : Task :=
  {| id := id t;
     status := {| state := state (status t);
                  timestamp := timestamp (status t);
                  message := match message (status t) with
                             | Some VUndef | None => None
                             | Some m => Some (wire m)
                             end |};
     artifacts := wire_array (artifacts t) |}.

(** The envelope [res.json] writes, as [response.json()] reads it. *)
Definition on_wire (r : Response) : Response :=
  {| http_status := http_status r;
     jsonrpc := jsonrpc r;
     payload := match payload r with
                | Result t hist => Result (wire_task t) (wire_array <$> hist)
                | RpcError code msg data => RpcError code msg data
                end;
     rpc_id := wire (rpc_id r) |}.

(** ** The agent card (simple-server.js, lines 13-42) *)

Definition agentCard : value :=
  VObj [("url", VStr "https://example.com");
        ("name", VStr "Simple Math Agent");
        ("description", VStr "A basic agent that can perform math operations");
        ("version", VStr "1.0.0");
        ("skills",
         VArr [VObj [("id", VStr "add");
                     ("name", VStr "Addition");
                     ("description", VStr "Adds two numbers together");
                     ("parameters",
                      VObj [("type", VStr "object");
                            ("properties",
                             VObj [("a", VObj [("type", VStr "number")]);
                                   ("b", VObj [("type", VStr "number")])]);
                            ("required", VArr [VStr "a"; VStr "b"])])]]);
        ("authentication",
         VArr [VObj [("type", VStr "bearer"); ("schemes", VArr [VStr "ApiKey"])]])].

(** ** The other methods of the client (simple client, lines 5-88) *)

(** What [fetch] of the agent card resolves to: [response.ok],
    [response.statusText] and [await response.json()]. *)
Record CardResponse : Type := {
  ok : bool;
  statusText : string;
  card : value
}.

(** The agent the client talks to, as a state [Net] that answers the two
    requests of the client. [post_api_json] gives the envelope that
    [response.json()] yields, [None] when no envelope comes back. *)
Record Transport (Net : Type) : Type := {
  get_agent_json : string -> Net -> CardResponse * Net;
  post_api_json : string -> Request -> Net -> option Response * Net
}.
Arguments get_agent_json {Net} _ _ _.
Arguments post_api_json {Net} _ _ _ _.

(** The character [/]. *)
Definition slash : Ascii.ascii := Ascii.ascii_of_nat 47.

(** [agentUrl.replace(/\/$/, '')]: one slash at the end is removed. *)
Fixpoint strip_slash (agentUrl : string) : string :=
  match agentUrl with
  | EmptyString => EmptyString
  | String c rest =>
      match rest with
      | EmptyString => if Ascii.eqb c slash then EmptyString else agentUrl
      | String _ _ => String c (strip_slash rest)
      end
  end.

(** [a === b] for JSON values: two objects or arrays that were parsed
    apart are never the same object. *)
Definition strict_eq (a b : value) : bool :=
  match a, b with
  | VUndef, VUndef | VNull, VNull => true
  | VBool x, VBool y => Bool.eqb x y
  | VNum x, VNum y => x =? y
  | VStr x, VStr y => String.eqb x y
  | _, _ => false
  end.

(** [skills.map(s => s.id)] *)
Fixpoint ids_of (skills : list value) : Completion (list value) :=
  match skills with
  | [] => Normal []
  | s :: rest =>
      match s with
      | VUndef => Abrupt (TypeError "Cannot read properties of undefined (reading 'id')")
      | VNull => Abrupt (TypeError "Cannot read properties of null (reading 'id')")
      | _ =>
          match ids_of rest with
          | Normal ids => Normal (get_prop s "id" :: ids)
          | Abrupt e => Abrupt e
          end
      end
  end.

(** [skills.find(s => s.id === skillId)] *)
Fixpoint find_id (skills : list value) (skillId : value) : Completion value :=
  match skills with
  | [] => Normal VUndef
  | s :: rest =>
      match s with
      | VUndef => Abrupt (TypeError "Cannot read properties of undefined (reading 'id')")
      | VNull => Abrupt (TypeError "Cannot read properties of null (reading 'id')")
      | _ => if strict_eq (get_prop s "id") skillId then Normal s else find_id rest skillId
      end
  end.

Module A2A.

(** The fields of an [A2AClient]. [apiKey] is a key as a header carries
    it, without white space around it. *)
Record Client : Type := {
  agentUrl : string;
  apiKey : string;
  agentCard : value
}.

(** [constructor] (lines 6-10) *)
Definition new (url key : string) : Client :=
  {| agentUrl := strip_slash url; apiKey := key; agentCard := VNull |}.

(** The two log lines of [discover] (lines 20-21): the first prints the
    name of the card, the second lists the ids of its skills. *)
Definition log_card (card : value) : Completion (list value) :=
  match card with
  | VUndef => Abrupt (TypeError "Cannot read properties of undefined (reading 'name')")
  | VNull => Abrupt (TypeError "Cannot read properties of null (reading 'name')")
  | _ =>
      match to_string (get_prop card "name") with
      | Abrupt e => Abrupt e
      | Normal _ =>
          match get_prop card "skills" with
          | VArr skills => ids_of skills
          | VUndef => Abrupt (TypeError "Cannot read properties of undefined (reading 'map')")
          | VNull => Abrupt (TypeError "Cannot read properties of null (reading 'map')")
          | _ => Abrupt (TypeError "this.agentCard.skills.map is not a function")
          end
      end
  end.

(** [discover] (lines 13-24) *)
Definition discover {Net} (agent : Transport Net) (this : Client) (net : Net)
    : Completion value * Client * Net :=
  let '(response, net') :=
    get_agent_json agent (agentUrl this +:+ "/.well-known/agent.json") net in
  if negb (ok response) then
    (Abrupt (JsError ("Failed to fetch agent card: " +:+ statusText response)), this, net')
  else
    let this' := {| agentUrl := agentUrl this; apiKey := apiKey this;
                    agentCard := card response |} in
    match log_card (agentCard this') with
    | Abrupt e => (Abrupt e, this', net')
    | Normal _ => (Normal (agentCard this'), this', net')
    end.

(** The request of [sendRequest] (lines 28-40), with the header names as
    the server finds them; [now] is [Date.now()]. *)
Definition rpc_request (this : Client) (method : string) (params : value) (now : Z)
    : Request :=
  {| headers := <["content-type" := "application/json"]> {[ "x-api-key" := apiKey this ]};
     body := wire (VObj [("jsonrpc", VStr "2.0"); ("method", VStr method);
                         ("params", params); ("id", VStr (pretty now))]) |}.

(** [sendRequest] (lines 27-49); [None] when no envelope comes back. *)
Definition sendRequest {Net} (agent : Transport Net) (method : string) (params : value)
    (now : Z) (this : Client) (net : Net)
    : option (Completion (Task * option (list value))) * Net :=
  let '(answer, net') :=
    post_api_json agent (agentUrl this +:+ "/api") (rpc_request this method params now) net in
  (sendRequest <$> answer, net').

(** [this.agentCard.skills.find(s => s.id === skillId)] *)
Definition find_skill (card skillId : value) : Completion value :=
  match card with
  | VUndef => Abrupt (TypeError "Cannot read properties of undefined (reading 'skills')")
  | VNull => Abrupt (TypeError "Cannot read properties of null (reading 'skills')")
  | _ =>
      match get_prop card "skills" with
      | VArr skills => find_id skills skillId
      | VUndef => Abrupt (TypeError "Cannot read properties of undefined (reading 'find')")
      | VNull => Abrupt (TypeError "Cannot read properties of null (reading 'find')")
      | _ => Abrupt (TypeError "this.agentCard.skills.find is not a function")
      end
  end.

(** The message of [sendTask] (lines 64-70); [text] is what the template
    literal made of [skillId]. *)
Definition task_message (text : string) (data : value) : value :=
  VObj [("role", VStr "user");
        ("parts", VArr [text_part ("Please execute skill: " +:+ text);
                        VObj [("type", VStr "data"); ("data", data)]])].

(** [sendTask] (lines 52-80); [now] is the [Date.now()] of its request.
    The text of the error and the text of the message both print
    [skillId]. *)
Definition sendTask {Net} (agent : Transport Net) (skillId data : value) (now : Z)
    (this : Client) (net : Net)
    : option (Completion (Task * option (list value))) * Client * Net :=
  let '(discovered, this1, net1) :=
    if truthy (agentCard this) then (Normal VUndef, this, net)
    else discover agent this net in
  match discovered with
  | Abrupt e => (Some (Abrupt e), this1, net1)
  | Normal _ =>
      match find_skill (agentCard this1) skillId with
      | Abrupt e => (Some (Abrupt e), this1, net1)
      | Normal skill =>
          if negb (truthy skill) then
            match to_string skillId with
            | Abrupt e => (Some (Abrupt e), this1, net1)
            | Normal text =>
                (Some (Abrupt (JsError ("Unknown skill: " +:+ text))), this1, net1)
            end
          else
            match to_string skillId with
            | Abrupt e => (Some (Abrupt e), this1, net1)
            | Normal text =>
                let params := VObj [("skill", skillId); ("message", task_message text data)] in
                let '(task, net2) := sendRequest agent "tasks/send" params now this1 net1 in
                (task, this1, net2)
            end
      end
  end.

(** [getTask] (lines 83-88); an [includeHistory] that is [undefined]
    takes the default [false]. *)
Definition getTask {Net} (agent : Transport Net) (taskId includeHistory : value) (now : Z)
    (this : Client) (net : Net)
    : option (Completion (Task * option (list value))) * Net :=
  let includeHistory := match includeHistory with VUndef => VBool false | v => v end in
  sendRequest agent "tasks/get"
    (VObj [("taskId", taskId); ("includeHistory", includeHistory)]) now this net.

End A2A.

(** ** The client and the simple server together *)

(** The simple server as the agent of a client: [uuid] and [now] are what
    [uuidv4()] and the clock of the server give while it handles the
    request. *)
Definition simple_server (uuid : string) (now : Z) : Transport Server :=
  {| get_agent_json := fun _ srv =>
       ({| ok := true; statusText := "OK"; card := wire agentCard |}, srv);
     post_api_json := fun _ req srv =>
       let '(answer, srv') := post_api req uuid now srv in
       (on_wire <$> answer, srv') |}.

(** One turn of the loop of [waitForCompletion] as the environment shapes
    it: the events the server runs first, the clock the loop reads, and
    the clock, the [uuidv4()] and the server clock of its request. *)
Record PollTurn : Type := {
  turn_events : list Event;
  turn_clock : Z;
  turn_request_clock : Z;
  turn_uuid : string;
  turn_server_clock : Z
}.

(** The polls [waitForCompletion(taskId)] makes of the simple server. *)
Fixpoint polls_of (this : A2A.Client) (taskId : value) (turns : list PollTurn)
    (srv : Server) : list (Z * Response) :=
  match turns with
  | [] => []
  | turn :: rest =>
      let srv1 := run (turn_events turn) srv in
      let '(answer, srv2) :=
        post_api_json (simple_server (turn_uuid turn) (turn_server_clock turn))
          (A2A.agentUrl this +:+ "/api")
          (A2A.rpc_request this "tasks/get"
             (VObj [("taskId", taskId); ("includeHistory", VBool false)])
             (turn_request_clock turn)) srv1 in
      match answer with
      | Some r => (turn_clock turn, r) :: polls_of this taskId rest srv2
      | None => []
      end
  end.

(** The data part the server finds in the message of [sendTask]. *)
Definition received_part (data : value) : value :=
  match data with
  | VUndef => VObj [("type", VStr "data")]
  | _ => data_part (wire data)
  end.

(** A client that has not fetched the card yet, or holds the card of the
    simple server. *)
Definition knows_simple_server (this : A2A.Client) : Prop :=
  A2A.agentCard this = VNull \/ A2A.agentCard this = agentCard.

Definition with_card (this : A2A.Client) : A2A.Client :=
  {| A2A.agentUrl := A2A.agentUrl this; A2A.apiKey := A2A.apiKey this;
     A2A.agentCard := agentCard |}.

(** The turns of a short run: a poll at once, then the timer and a poll. *)
Definition example_turns : list PollTurn :=
  [{| turn_events := []; turn_clock := 100; turn_request_clock := 101;
      turn_uuid := "u1"; turn_server_clock := 102 |};
   {| turn_events := [Fire 0 1090]; turn_clock := 1100; turn_request_clock := 1101;
      turn_uuid := "u2"; turn_server_clock := 1102 |}].

(** * Properties *)

Example js_add_5_3 : js_add (VNum 5) (VNum 3) = Normal (VNum 8).
Proof. reflexivity. Qed.

Example js_add_string : js_add (VStr "5") (VNum 3) = Normal (VStr "53").
Proof. vm_compute. reflexivity. Qed.

Example js_add_missing : js_add VUndef VUndef = Normal VNaN.
Proof. reflexivity. Qed.

Example js_add_objects : js_add (VObj []) (VArr []) = Normal (VStr "[object Object]").
Proof. vm_compute. reflexivity. Qed.

(** An object with a property [toString] of its own has no primitive
    value: the sum throws, also when the object is deep in an array. *)
Example js_add_throws :
  js_add (VObj [("toString", VNum 1)]) (VNum 3) = Abrupt not_primitive
  /\ js_add (VNum 3) (VArr [VArr [VObj [("toString", VNull)]]]) = Abrupt not_primitive.
Proof. split; reflexivity. Qed.

Example to_string_array :
  to_string (VArr [VNum 1; VNull; VStr "x"]) = Normal "1,,x".
Proof. vm_compute. reflexivity. Qed.

(** A primitive value always has a string. *)
Lemma to_string_primitive v :
  match v with VArr _ | VObj _ => False | _ => True end ->
  exists text, to_string v = Normal text.
Proof. destruct v as [| |[|]| | | | |]; intros H; try contradiction; eexists; reflexivity. Qed.

(** A sum is a primitive value. *)
Lemma js_add_primitive a b result :
  js_add a b = Normal result ->
  match result with VArr _ | VObj _ => False | _ => True end.
Proof.
  unfold js_add. intros H.
  destruct (to_primitive a) as [pa|]; [|discriminate].
  destruct (to_primitive b) as [pb|]; [|discriminate].
  destruct pa, pb; simpl in H;
    repeat (case_match; try discriminate); simplify_eq; exact I.
Qed.

(** ** The update sink *)

Lemma updateCallback_found taskId now update tasks taskData :
  tasks !! taskId = Some taskData ->
  updateCallback taskId now update tasks
  = (Normal VUndef, <[taskId := merge_update now update taskData]> tasks).
Proof. intros H. unfold updateCallback. rewrite H. reflexivity. Qed.

Lemma updateCallback_returns taskId now update tasks :
  (updateCallback taskId now update tasks).1 = Normal VUndef.
Proof. unfold updateCallback. destruct (tasks !! taskId); reflexivity. Qed.

Lemma updateCallback_other taskId now update tasks k :
  k <> taskId ->
  (updateCallback taskId now update tasks).2 !! k = tasks !! k.
Proof.
  intros Hne. unfold updateCallback.
  destruct (tasks !! taskId); simpl; [|reflexivity].
  apply lookup_insert_ne. congruence.
Qed.

(** C3, as the code has it: an update for an id that is not in the task
    map leaves the map as it is and returns [undefined], which is what an
    update of a known id returns too; nothing is signalled. *)
Theorem updateCallback_unknown_id taskId now update tasks :
  tasks !! taskId = None ->
  updateCallback taskId now update tasks = (Normal VUndef, tasks)
  /\ forall tasks', (updateCallback taskId now update tasks').1
                    = (updateCallback taskId now update tasks).1.
Proof.
  intros Hnone. split.
  - unfold updateCallback. rewrite Hnone. reflexivity.
  - intros tasks'. rewrite !updateCallback_returns. reflexivity.
Qed.

Lemma updateCallback_unknown_id_witness :
  (∅ : gmap string TaskData) !! "t1" = None
  /\ updateCallback "t1" 0 working_update ∅ = (Normal VUndef, ∅).
Proof.
  split; [reflexivity|].
  apply (updateCallback_unknown_id "t1" 0 working_update ∅). reflexivity.
Defined.

(** C3 as stated fails: for an id that is not in the map the sink signals
    nothing to its caller. *)
Lemma updateCallback_unknown_id_silent :
  (∅ : gmap string TaskData) !! "t1" = None
  /\ ~ signals (updateCallback "t1" 0 working_update ∅).1.
Proof.
  split; [reflexivity|].
  rewrite updateCallback_returns. simpl. intros H. apply H. reflexivity.
Qed.

(** ** Authentication (lines 44-60) *)

Lemma key_refused_iff apiKey :
  key_refused apiKey = true <-> apiKey <> Some "test-api-key".
Proof.
  unfold key_refused. destruct apiKey as [k|]; [|split; [discriminate|reflexivity]].
  destruct (String.eqb_spec k "test-api-key") as [->|Hne]; simpl.
  - split; [discriminate|]. intros H. contradiction H. reflexivity.
  - rewrite orb_true_r. split; [|reflexivity]. intros _ [= ->]. contradiction Hne. reflexivity.
Qed.

Lemma accepted_request req :
  authenticateApiKey req = None <-> headers req !! "x-api-key" = Some "test-api-key".
Proof.
  unfold authenticateApiKey.
  destruct (key_refused (headers req !! "x-api-key")) eqn:Hk.
  - apply key_refused_iff in Hk. split; [discriminate|]. intros H. contradiction.
  - split; [|reflexivity]. intros _.
    destruct (decide (headers req !! "x-api-key" = Some "test-api-key")) as [H|H]; [exact H|].
    apply key_refused_iff in H. congruence.
Qed.

(** C8: a request whose [x-api-key] header is missing or is not the shared
    secret is answered by the middleware with the authentication error
    (401, code -32001); the route handler is not entered, and the server
    (task map and pending timers) is left as it was. *)
Theorem refused_request_no_effect req uuid now srv :
  headers req !! "x-api-key" <> Some "test-api-key" ->
  exists refused,
    authenticateApiKey req = Some refused
    /\ post_api req uuid now srv = (Some refused, srv)
    /\ http_status refused = 401
    /\ payload refused = RpcError (-32001) "Authentication failed" None.
Proof.
  intros Hkey. apply key_refused_iff in Hkey.
  unfold post_api, authenticateApiKey. rewrite Hkey.
  eexists. repeat split.
Qed.

Lemma refused_request_no_effect_witness :
  let req := {| headers := api_key_header "guess";
                body := envelope "tasks/send"
                          (VObj [("skill", VStr "add");
                                 ("message", user_message "add" five_and_three)])
                          (VStr "7") |} in
  headers req !! "x-api-key" <> Some "test-api-key"
  /\ exists refused,
       authenticateApiKey req = Some refused
       /\ post_api req "t1" 0 initial = (Some refused, initial)
       /\ http_status refused = 401
       /\ payload refused = RpcError (-32001) "Authentication failed" None.
Proof.
  assert (H : api_key_header "guess" !! "x-api-key" <> Some "test-api-key").
  { unfold api_key_header. rewrite lookup_singleton_eq. discriminate. }
  split; [exact H|].
  exact (refused_request_no_effect
           {| headers := api_key_header "guess";
              body := envelope "tasks/send"
                        (VObj [("skill", VStr "add");
                               ("message", user_message "add" five_and_three)])
                        (VStr "7") |} "t1" 0 initial H).
Defined.

(** ** The id of the response (lines 55, 163, 191-246) *)

(** Past the middleware every envelope carries the [id] of the request. *)
Lemma accepted_request_echoes_id req uuid now srv :
  authenticateApiKey req = None ->
  nullish (body req) = false ->
  exists r, (post_api req uuid now srv).1 = Some r
            /\ rpc_id r = get_prop (body req) "id".
Proof.
  intros Hauth Hbody. unfold post_api. rewrite Hauth, Hbody.
  destruct (is_string "tasks/send" _).
  - destruct (nullish (get_prop (body req) "params")).
    + eexists. split; reflexivity.
    + destruct (run_sync _ _ _ _) as [tasks2 susp]. eexists. split; reflexivity.
  - destruct (is_string "tasks/get" _).
    + destruct (nullish (get_prop (body req) "params")).
      * eexists. split; reflexivity.
      * destruct (tasks_get _ _); eexists; split; reflexivity.
    + eexists. split; reflexivity.
Qed.

(** The middleware echoes an [id] that is truthy. *)
Lemma refused_request_echoes_truthy_id req uuid now srv :
  headers req !! "x-api-key" <> Some "test-api-key" ->
  nullish (body req) = false ->
  truthy (get_prop (body req) "id") = true ->
  exists r, (post_api req uuid now srv).1 = Some r
            /\ rpc_id r = get_prop (body req) "id".
Proof.
  intros Hkey Hbody Hid. apply key_refused_iff in Hkey.
  unfold post_api, authenticateApiKey. rewrite Hkey. simpl.
  eexists. split; [reflexivity|]. simpl.
  rewrite Hbody. unfold js_or. rewrite Hid. reflexivity.
Qed.

(** C4 at a request the middleware refuses: the request has the id [0],
    the response has the id [null]. *)
Theorem refused_request_id_zero :
  let req := {| headers := api_key_header "guess";
                body := envelope "tasks/get" (VObj [("taskId", VStr "t1")]) (VNum 0) |} in
  get_prop (body req) "id" = VNum 0
  /\ exists r, (post_api req "t2" 0 initial).1 = Some r
               /\ rpc_id r = VNull
               /\ rpc_id r <> get_prop (body req) "id".
Proof.
  simpl. split; [reflexivity|].
  eexists. split; [vm_compute; reflexivity|]. simpl. split; [reflexivity|discriminate].
Qed.

(** ** tasks/get (lines 199-225) *)

(** C7: an accepted [tasks/get] request whose [taskId] is not a key of
    the task map is answered with the error "Task not found" (404, code
    -32002) and the id of the request; the server is left as it was. *)
Theorem get_unknown_task req uuid now srv :
  authenticateApiKey req = None ->
  is_string "tasks/get" (get_prop (body req) "method") = true ->
  nullish (get_prop (body req) "params") = false ->
  tasks_get (get_prop (get_prop (body req) "params") "taskId") (tasks srv) = None ->
  post_api req uuid now srv
  = (Some {| http_status := 404; jsonrpc := "2.0";
             payload := RpcError (-32002) "Task not found" None;
             rpc_id := get_prop (body req) "id" |}, srv).
Proof.
  intros Hauth Hget Hparams Hnone. unfold post_api.
  assert (Hbody : nullish (body req) = false).
  { destruct (body req); try reflexivity; discriminate. }
  rewrite Hauth, Hbody.
  destruct (get_prop (body req) "method") as [| | | | |m| |]; try discriminate.
  simpl in Hget. apply String.eqb_eq in Hget. subst m. simpl.
  rewrite Hparams, Hnone. reflexivity.
Qed.

Lemma get_unknown_task_witness :
  let req := get_request (VStr "t9") false (VStr "42") in
  authenticateApiKey req = None
  /\ post_api req "t1" 0 initial
     = (Some {| http_status := 404; jsonrpc := "2.0";
                payload := RpcError (-32002) "Task not found" None;
                rpc_id := VStr "42" |}, initial).
Proof.
  assert (Hauth : authenticateApiKey (get_request (VStr "t9") false (VStr "42")) = None).
  { apply accepted_request. apply lookup_singleton_eq. }
  split; [exact Hauth|].
  exact (get_unknown_task (get_request (VStr "t9") false (VStr "42")) "t1" 0 initial
           Hauth eq_refl eq_refl eq_refl).
Defined.

(** A [tasks/get] request without [params] never gets a result either:
    the destructuring throws and the handler answers "Internal error". *)
Lemma get_without_params req uuid now srv :
  authenticateApiKey req = None ->
  nullish (body req) = false ->
  is_string "tasks/get" (get_prop (body req) "method") = true ->
  nullish (get_prop (body req) "params") = true ->
  exists msg,
    post_api req uuid now srv
    = (Some {| http_status := 500; jsonrpc := "2.0";
               payload := RpcError (-32603) "Internal error" (Some msg);
               rpc_id := get_prop (body req) "id" |}, srv).
Proof.
  intros Hauth Hbody Hget Hparams. unfold post_api.
  rewrite Hauth, Hbody.
  destruct (get_prop (body req) "method") as [| | | | |m| |]; try discriminate.
  simpl in Hget. apply String.eqb_eq in Hget. subst m. simpl.
  rewrite Hparams. eexists. reflexivity.
Qed.

(** ** The coroutine of a task (lines 63-159) *)

Lemma executeTask_shape skill message :
  TaskShape skill message (executeTask skill message).
Proof.
  unfold executeTask, handleTask.
  destruct (find_data_part message) as [dataPart|e] eqn:Hfind.
  - destruct (is_string "add" skill) eqn:Hadd; simpl.
    + exact (shape_add skill message dataPart Hfind Hadd).
    + destruct (to_string skill) as [text|e] eqn:Htext; simpl.
      * exact (shape_unknown skill message dataPart text Hfind Hadd Htext).
      * apply shape_fault. unfold early_fault. rewrite Hfind, Hadd, Htext. reflexivity.
  - simpl. apply shape_fault. unfold early_fault. rewrite Hfind. reflexivity.
Qed.

Lemma registered_add skill : registered skill = is_string "add" skill.
Proof. unfold registered. simpl. apply orb_false_r. Qed.

(** [executeTask] catches what [handleTask] throws. *)
Lemma try_await_never_throws h tasks taskId now e :
  (run_micro taskId now (try_await h) tasks).2 <> Rejected e.
Proof.
  revert tasks. induction h as [|e'|u k IH|k IH|ms k IH]; intros tasks; simpl;
    try discriminate; auto.
Qed.

(** Once the timer of an [add] task has fired, the coroutine makes one
    report: the sum, or the fault of the addition. *)
Lemma report_sum_reports params :
  exists u, Reports (try_await (report_sum params)) u.
Proof.
  unfold report_sum, report.
  destruct (js_add _ _) as [result|e]; simpl; [|eexists; apply reports_fault].
  destruct (to_string result) as [text|e]; simpl; eexists; constructor.
Qed.

Lemma reports_state_given rest u :
  Reports rest u -> state_given u = Some "completed" \/ state_given u = Some "failed".
Proof. intros [result text|e]; [left|right]; reflexivity. Qed.

Lemma reports_until_sleep rest u :
  Reports rest u -> updates_until_sleep rest = [u].
Proof. intros [result text|e]; reflexivity. Qed.

(** The sum of an [add] task throws exactly when an operand has no
    primitive value. *)
Example report_sum_fault :
  try_await (report_sum (VObj [("a", VObj [("toString", VNum 1)]); ("b", VNum 3)]))
  = Await (CallUpdate (error_update not_primitive) (Await Done)).
Proof. reflexivity. Qed.

(** ** tasks/send (lines 167-197) *)

(** The outcomes of an accepted [tasks/send] with [params]. *)
Lemma post_send req uuid now srv :
  draws_uuid req = true ->
  nullish (get_prop (body req) "params") = false ->
  let params := get_prop (body req) "params" in
  let skill := get_prop params "skill" in
  let message := get_prop params "message" in
  let rid := get_prop (body req) "id" in
  let td0 := submitted_data uuid now message in
  let faulted e :=
    (Some (sent (task td0) rid),
     {| tasks := <[uuid := merge_update now (error_update e) td0]> (tasks srv);
        timers := timers srv |}) in
  match find_data_part message with
  | Abrupt e => post_api req uuid now srv = faulted e
  | Normal dataPart =>
      if is_string "add" skill then
        post_api req uuid now srv
        = (Some (sent (task (merge_update now working_update td0)) rid),
           {| tasks := <[uuid := merge_update now working_update td0]> (tasks srv);
              timers := timers srv
                        ++ [{| timer_task := uuid; timer_ms := 1000;
                               timer_rest := try_await (report_sum (params_of dataPart)) |}] |})
      else
        match to_string skill with
        | Abrupt e => post_api req uuid now srv = faulted e
        | Normal text =>
            post_api req uuid now srv
            = (Some (sent (task (merge_update now (unknown_skill_update text) td0)) rid),
               {| tasks := <[uuid := merge_update now (unknown_skill_update text) td0]>
                             (tasks srv);
                  timers := timers srv |})
        end
  end.
Proof.
  intros Hdraw Hparams. unfold draws_uuid in Hdraw. unfold post_api.
  destruct (authenticateApiKey req); [discriminate|].
  apply andb_true_iff in Hdraw as [Hbody Hsend]. apply negb_true_iff in Hbody.
  rewrite Hbody, Hsend, Hparams. cbv zeta.
  destruct (executeTask_shape (get_prop (get_prop (body req) "params") "skill")
              (get_prop (get_prop (body req) "params") "message"))
    as [e Hfault|dataPart Hfind Hadd|dataPart text Hfind Hadd Htext].
  - assert (Hgoal :
      (let '(tasks2, susp) :=
         run_sync uuid now (Await (CallUpdate (error_update e) (Await Done)))
           (<[uuid := {| task := initial_task uuid now;
                         history := [get_prop (get_prop (body req) "params") "message"] |}]>
              (tasks srv)) in
       (Some {| http_status := 200; jsonrpc := "2.0";
                payload := Result (from_option task (initial_task uuid now) (tasks2 !! uuid))
                             None;
                rpc_id := get_prop (body req) "id" |},
        drain uuid now susp {| tasks := tasks2; timers := timers srv |}))
      = (Some (sent (task (submitted_data uuid now
                             (get_prop (get_prop (body req) "params") "message")))
                 (get_prop (body req) "id")),
         {| tasks := <[uuid := merge_update now (error_update e)
                                 (submitted_data uuid now
                                    (get_prop (get_prop (body req) "params") "message"))]>
                       (tasks srv);
            timers := timers srv |})).
    { cbn [run_sync drain run_micro tasks timers]. rewrite lookup_insert_eq.
      rewrite (updateCallback_found _ _ _ _ _ (lookup_insert_eq _ _ _)).
      cbn [snd park from_option]. rewrite insert_insert_eq. reflexivity. }
    unfold early_fault in Hfault.
    destruct (find_data_part _) as [dataPart|e']; [|injection Hfault as ->; exact Hgoal].
    destruct (is_string "add" _); [discriminate|].
    destruct (to_string _) as [text|e']; [discriminate|]. injection Hfault as ->. exact Hgoal.
  - rewrite Hfind, Hadd.
    cbn [run_sync]. rewrite (updateCallback_found _ _ _ _ _ (lookup_insert_eq _ _ _)).
    cbn [snd drain run_micro park tasks timers]. rewrite insert_insert_eq, lookup_insert_eq.
    reflexivity.
  - rewrite Hfind, Hadd, Htext.
    cbn [run_sync]. rewrite (updateCallback_found _ _ _ _ _ (lookup_insert_eq _ _ _)).
    cbn [snd drain run_micro park tasks timers]. rewrite insert_insert_eq, lookup_insert_eq.
    reflexivity.
Qed.

(** A request that is not an accepted [tasks/send] with [params] leaves
    the server as it was. *)
Lemma post_without_send req uuid now srv :
  draws_uuid req = false \/ nullish (get_prop (body req) "params") = true ->
  (post_api req uuid now srv).2 = srv.
Proof.
  unfold draws_uuid, post_api. intros H.
  destruct (authenticateApiKey req); [reflexivity|].
  destruct (nullish (body req)); [reflexivity|].
  destruct (is_string "tasks/send" _) eqn:Hsend.
  - destruct H as [H|H]; [discriminate|]. rewrite H. reflexivity.
  - destruct (is_string "tasks/get" _); [|reflexivity].
    destruct (nullish _); [reflexivity|]. destruct (tasks_get _ _); reflexivity.
Qed.

(** ** Timers *)

Lemma fire_nothing n now srv :
  timers srv !! n = None -> fire n now srv = srv.
Proof. intros H. unfold fire. rewrite H. reflexivity. Qed.

Lemma fire_reports n now srv t u :
  timers srv !! n = Some t ->
  Reports (timer_rest t) u ->
  fire n now srv
  = {| tasks := (updateCallback (timer_task t) now u (tasks srv)).2;
       timers := delete n (timers srv) |}.
Proof.
  intros Hn Hrest. unfold fire. rewrite Hn.
  remember (timer_rest t) as rest eqn:Heq. clear Heq. destruct Hrest; reflexivity.
Qed.

(** ** One turn of the event loop *)

Lemma step_effect e srv :
  timers_report srv -> Effect (fresh e srv) srv (step e srv).2.
Proof.
  intros Hreports. destruct e as [req uuid now|n now]; simpl.
  - destruct (draws_uuid req) eqn:Hdraw.
    2:{ rewrite post_without_send by (left; exact Hdraw). constructor. }
    destruct (nullish (get_prop (body req) "params")) eqn:Hparams.
    1:{ rewrite post_without_send by (right; exact Hparams). constructor. }
    pose proof (post_send req uuid now srv Hdraw Hparams) as Hpost. cbv zeta in Hpost.
    destruct (find_data_part _) as [dataPart|err].
    + destruct (is_string "add" _).
      * rewrite Hpost; simpl.
        destruct (report_sum_reports (params_of dataPart)) as [u Hu].
        apply (effect_start _ _ _ _ _ _ u); [intros Hf; exact (Hf eq_refl)|exact Hu].
      * destruct (to_string _) as [text|err]; rewrite Hpost; simpl;
          (apply effect_fail; [intros Hf; exact (Hf eq_refl)|reflexivity]).
    + rewrite Hpost. simpl.
      apply effect_fail; [intros Hf; exact (Hf eq_refl)|reflexivity].
  - destruct (timers srv !! n) as [t|] eqn:Hn.
    2:{ rewrite fire_nothing by exact Hn. constructor. }
    destruct (Hreports t) as [u Hrest].
    { apply list_elem_of_lookup. exists n. exact Hn. }
    rewrite (fire_reports n now srv t u Hn Hrest), delete_take_drop.
    apply effect_complete; [|exact Hrest].
    symmetry. apply take_drop_middle. exact Hn.
Qed.

Lemma effect_timers_report f srv srv' :
  Effect f srv srv' -> timers_report srv -> timers_report srv'.
Proof.
  intros Heff Hreports.
  destruct Heff as [|uuid now message u _ _|uuid now message rest u _ Hrest
                    |before t after now u Htimers _];
    unfold timers_report in *; simpl; [exact Hreports|exact Hreports| |].
  - intros t [Ht|Ht]%elem_of_app; [exact (Hreports t Ht)|].
    apply list_elem_of_singleton in Ht. subst t. exists u. exact Hrest.
  - intros t' Ht'. apply Hreports. rewrite Htimers.
    apply elem_of_app in Ht' as [Ht'|Ht']; apply elem_of_app; [left; exact Ht'|].
    right. apply elem_of_cons. right. exact Ht'.
Qed.

Lemma run_snoc events e srv :
  run (events ++ [e]) srv = (step e (run events srv)).2.
Proof. unfold run. rewrite fold_left_app. reflexivity. Qed.

Lemma run_app events more srv :
  run (events ++ more) srv = run more (run events srv).
Proof. unfold run. apply fold_left_app. Qed.

Lemma run_timers_report events :
  timers_report (run events initial).
Proof.
  induction events as [|e events IH] using rev_ind.
  - intros t Ht. simpl in Ht. apply elem_of_nil in Ht. contradiction.
  - rewrite run_snoc.
    exact (effect_timers_report _ _ _ (step_effect e _ IH) IH).
Qed.

(** ** The state of a record *)

Lemma merge_update_state now u taskData :
  state (status (task (merge_update now u taskData)))
  = default (state (status (task taskData))) (state_given u).
Proof.
  unfold merge_update. destruct (state_given u), (message_given u); reflexivity.
Qed.

Lemma state_of_insert taskId k taskData tasks0 timers0 :
  state_of taskId {| tasks := <[k := taskData]> tasks0; timers := timers0 |}
  = if decide (k = taskId) then Some (state (status (task taskData)))
    else state_of taskId {| tasks := tasks0; timers := timers0 |}.
Proof.
  unfold state_of. simpl. rewrite lookup_insert. destruct (decide (k = taskId)); reflexivity.
Qed.

Lemma state_of_update taskId k now u tasks0 timers0 timers1 :
  state_of taskId {| tasks := (updateCallback k now u tasks0).2; timers := timers1 |}
  = if decide (k = taskId)
    then (fun st => default st (state_given u))
           <$> state_of taskId {| tasks := tasks0; timers := timers0 |}
    else state_of taskId {| tasks := tasks0; timers := timers0 |}.
Proof.
  unfold state_of. simpl. destruct (decide (k = taskId)) as [->|Hne].
  - unfold updateCallback. destruct (tasks0 !! taskId) as [taskData|] eqn:Hk; simpl.
    + rewrite lookup_insert_eq. simpl. rewrite merge_update_state. reflexivity.
    + rewrite Hk. reflexivity.
  - rewrite updateCallback_other by congruence. reflexivity.
Qed.

Lemma state_of_timers taskId tasks0 timers0 timers1 :
  state_of taskId {| tasks := tasks0; timers := timers0 |}
  = state_of taskId {| tasks := tasks0; timers := timers1 |}.
Proof. reflexivity. Qed.

Lemma state_of_eta taskId srv :
  state_of taskId srv = state_of taskId {| tasks := tasks srv; timers := timers srv |}.
Proof. reflexivity. Qed.

(** What a turn of the event loop does to the state of a record that is
    there: nothing, or it ends the work of the task. A new record has an
    id of its own when [uuidv4()] draws fresh ids. *)
Lemma effect_state f srv srv' taskId st :
  Effect f srv srv' -> f ->
  timers_at_work srv ->
  state_of taskId srv = Some st ->
  state_of taskId srv' = Some st
  \/ (st = "working"
      /\ (state_of taskId srv' = Some "completed" \/ state_of taskId srv' = Some "failed")).
Proof.
  intros Heff Hf [Hdistinct Hwork] Hst.
  destruct Heff as [|uuid now message u Hnew _|uuid now message rest u Hnew _
                    |before t after now u Htimers Hrest].
  - left. exact Hst.
  - left. rewrite state_of_insert. destruct (decide (uuid = taskId)) as [->|_]; [|exact Hst].
    unfold state_of in Hst. rewrite (Hnew Hf) in Hst. discriminate.
  - left. rewrite state_of_insert. destruct (decide (uuid = taskId)) as [->|_]; [|exact Hst].
    unfold state_of in Hst. rewrite (Hnew Hf) in Hst. discriminate.
  - rewrite (state_of_update _ _ _ _ _ (timers srv)), <- state_of_eta.
    destruct (decide (timer_task t = taskId)) as [<-|_]; [|left; exact Hst].
    right. assert (Ht : state_of (timer_task t) srv = Some "working").
    { apply Hwork. rewrite Htimers. apply elem_of_app. right. apply elem_of_cons. left.
      reflexivity. }
    rewrite Ht in Hst. injection Hst as <-. rewrite Ht. split; [reflexivity|].
    destruct (reports_state_given _ _ Hrest) as [-> | ->]; [left|right]; reflexivity.
Qed.

Lemma NoDup_middle {A} (l1 l2 : list A) (x : A) :
  NoDup (l1 ++ x :: l2) -> (x ∉ l1 ++ l2) /\ NoDup (l1 ++ l2).
Proof.
  intros H. rewrite <- Permutation_middle in H. apply NoDup_cons in H. exact H.
Qed.

Lemma effect_timers_at_work f srv srv' :
  Effect f srv srv' -> f -> timers_at_work srv -> timers_at_work srv'.
Proof.
  intros Heff Hf Hinv. pose proof Hinv as [Hdistinct Hwork].
  destruct Heff as [|uuid now message u Hnew Hfailed|uuid now message rest u Hnew _
                    |before t after now u Htimers Hrest].
  - exact Hinv.
  - split; [exact Hdistinct|]. simpl. intros t Ht.
    rewrite state_of_insert. destruct (decide (uuid = timer_task t)) as [Heq|_].
    + specialize (Hwork t Ht). unfold state_of in Hwork.
      rewrite <- Heq, (Hnew Hf) in Hwork. discriminate.
    + exact (Hwork t Ht).
  - assert (Hfresh : forall t, t ∈ timers srv -> timer_task t <> uuid).
    { intros t Ht Heq. specialize (Hwork t Ht). unfold state_of in Hwork.
      rewrite Heq, (Hnew Hf) in Hwork. discriminate. }
    split; simpl.
    + rewrite fmap_app. apply NoDup_app. split; [exact Hdistinct|]. split.
      * intros k Hk Hin. simpl in Hin. apply list_elem_of_singleton in Hin. subst k.
        apply list_elem_of_fmap in Hk as (t & Heq & Ht). exact (Hfresh t Ht (eq_sym Heq)).
      * simpl. apply NoDup_singleton.
    + intros t [Ht|Ht]%elem_of_app; rewrite state_of_insert.
      * destruct (decide (uuid = timer_task t)) as [Heq|_].
        { contradiction (Hfresh t Ht). symmetry. exact Heq. }
        exact (Hwork t Ht).
      * apply list_elem_of_singleton in Ht. subst t. simpl.
        destruct (decide (uuid = uuid)); [|contradiction]. reflexivity.
  - rewrite Htimers, fmap_app, fmap_cons in Hdistinct.
    apply NoDup_middle in Hdistinct as [Hnotin Hdistinct]. rewrite <- fmap_app in *.
    split; simpl; [exact Hdistinct|].
    intros t' Ht'.
    rewrite (state_of_update _ _ _ _ _ (timers srv)), <- state_of_eta.
    destruct (decide (timer_task t = timer_task t')) as [Heq|_].
    + contradiction Hnotin. rewrite Heq. apply list_elem_of_fmap_2. exact Ht'.
    + apply Hwork. rewrite Htimers.
      apply elem_of_app in Ht' as [Ht'|Ht']; apply elem_of_app; [left; exact Ht'|].
      right. apply elem_of_cons. right. exact Ht'.
Qed.

Lemma fresh_run_app events more srv :
  fresh_run (events ++ more) srv <-> fresh_run events srv /\ fresh_run more (run events srv).
Proof.
  revert srv. induction events as [|e events IH]; intros srv; simpl.
  - tauto.
  - rewrite IH. unfold run. simpl. tauto.
Qed.

Lemma run_timers_at_work events :
  fresh_run events initial -> timers_at_work (run events initial).
Proof.
  induction events as [|e events IH] using rev_ind; intros Hfresh.
  - split; simpl; [apply NoDup_nil_2|].
    intros t Ht. apply elem_of_nil in Ht. contradiction.
  - apply fresh_run_app in Hfresh as [Hevents [He _]]. rewrite run_snoc.
    exact (effect_timers_at_work _ _ _
             (step_effect e _ (run_timers_report events)) He (IH Hevents)).
Qed.

(** ** The calls of the sink, turn by turn *)

Lemma run_micro_tasks taskId now p m :
  (run_micro taskId now p m).1 = apply_updates taskId now (updates_until_sleep p) m.
Proof. revert m. induction p as [|e|u k IH|k IH|ms k IH]; intros m; simpl; auto. Qed.

(** What runs before the first [await] and what the microtasks add make
    up the calls of the coroutine until it sleeps. *)
Lemma run_sync_drain taskId now p m ts :
  tasks (drain taskId now (run_sync taskId now p m).2
           {| tasks := (run_sync taskId now p m).1; timers := ts |})
  = (run_micro taskId now p m).1.
Proof.
  revert m. induction p as [|e|u k IH|k IH|ms k IH]; intros m; simpl; auto.
  destruct (run_micro taskId now k m) as [tasks' s']. reflexivity.
Qed.

(** The task map after a turn is the one the turn starts from, with the
    calls of the sink of its coroutine applied in their order. *)
Lemma step_tasks e srv :
  tasks (step e srv).2
  = match turn_coroutine e srv with
    | Some (taskId, now, p) =>
        apply_updates taskId now (updates_until_sleep p) (turn_start e srv)
    | None => tasks srv
    end.
Proof.
  destruct e as [req uuid now|n now]; simpl.
  - destruct (draws_uuid req) eqn:Hdraw; simpl.
    2:{ rewrite post_without_send by (left; exact Hdraw). reflexivity. }
    destruct (nullish (get_prop (body req) "params")) eqn:Hparams; simpl.
    1:{ rewrite post_without_send by (right; exact Hparams). reflexivity. }
    unfold draws_uuid in Hdraw. unfold post_api.
    destruct (authenticateApiKey req); [discriminate|].
    apply andb_true_iff in Hdraw as [Hbody Hsend]. apply negb_true_iff in Hbody.
    rewrite Hbody, Hsend, Hparams. cbv zeta.
    rewrite <- run_micro_tasks, <- (run_sync_drain _ _ _ _ (timers srv)).
    destruct (run_sync _ _ _ _) as [tasks2 susp]. reflexivity.
  - unfold fire. destruct (timers srv !! n) as [t|]; simpl; [|reflexivity].
    rewrite <- run_micro_tasks. destruct (run_micro _ _ _ _) as [tasks' s']. reflexivity.
Qed.

Lemma state_in_update taskId now u m st :
  state_in taskId m = Some st ->
  state_in taskId (updateCallback taskId now u m).2 = Some (default st (state_given u)).
Proof.
  unfold state_in, updateCallback. intros H.
  destruct (m !! taskId) as [taskData|]; [|discriminate]. simpl in *.
  rewrite lookup_insert_eq. simpl. rewrite merge_update_state. congruence.
Qed.

(** Every call of the sink in a turn finds its record in a state that is
    not terminal, and moves it along an edge of the graph. *)
Lemma turn_follows_graph e srv taskId now p before u after :
  timers_report srv ->
  timers_at_work srv ->
  turn_coroutine e srv = Some (taskId, now, p) ->
  updates_until_sleep p = before ++ u :: after ->
  exists st st',
    state_in taskId (apply_updates taskId now before (turn_start e srv)) = Some st
    /\ terminal st = false
    /\ state_in taskId (apply_updates taskId now (before ++ [u]) (turn_start e srv))
       = Some st'
    /\ spec_transition st st'.
Proof.
  intros Hreports [_ Hwork] Hturn Hsplit.
  assert (Hone : forall u0 st st',
            updates_until_sleep p = [u0] ->
            state_in taskId (turn_start e srv) = Some st ->
            terminal st = false ->
            state_given u0 = Some st' ->
            spec_transition st st' ->
            exists st st',
              state_in taskId (apply_updates taskId now before (turn_start e srv)) = Some st
              /\ terminal st = false
              /\ state_in taskId (apply_updates taskId now (before ++ [u]) (turn_start e srv))
                 = Some st'
              /\ spec_transition st st').
  { intros u0 st st' Hupdates Hst Hterminal Hgiven Hedge.
    rewrite Hupdates in Hsplit.
    destruct before as [|u1 [|u2 before]]; simplify_eq/=.
    exists st, st'. split; [exact Hst|]. split; [exact Hterminal|]. split; [|exact Hedge].
    rewrite (state_in_update _ _ _ _ _ Hst), Hgiven. reflexivity. }
  destruct e as [req uuid now0|n now0]; simpl in Hturn.
  - destruct (draws_uuid req && negb (nullish (get_prop (body req) "params"))) eqn:Hsend;
      [|discriminate].
    injection Hturn as <- <- <-.
    assert (Hst : state_in uuid (turn_start (Post req uuid now0) srv) = Some "submitted").
    { simpl. rewrite Hsend. unfold state_in. rewrite lookup_insert_eq. reflexivity. }
    destruct (executeTask_shape (get_prop (get_prop (body req) "params") "skill")
                (get_prop (get_prop (body req) "params") "message"))
      as [err Hfault|dataPart Hfind Hadd|dataPart text Hfind Hadd Htext].
    + apply (Hone (error_update err) "submitted" "failed"); try reflexivity;
        [exact Hst|apply precondition].
    + apply (Hone working_update "submitted" "working"); try reflexivity;
        [exact Hst|apply begin_execution].
    + apply (Hone (unknown_skill_update text) "submitted" "failed"); try reflexivity;
        [exact Hst|apply precondition].
  - destruct (timers srv !! n) as [t|] eqn:Hn; [|discriminate].
    injection Hturn as <- <- <-.
    assert (Ht : t ∈ timers srv) by (apply list_elem_of_lookup; exists n; exact Hn).
    destruct (Hreports t Ht) as [u0 Hrest].
    specialize (Hwork t Ht).
    destruct (reports_state_given _ _ Hrest) as [Hgiven|Hgiven].
    + apply (Hone u0 "working" "completed"); try reflexivity;
        [exact (reports_until_sleep _ _ Hrest)|exact Hwork|exact Hgiven|apply success].
    + apply (Hone u0 "working" "failed"); try reflexivity;
        [exact (reports_until_sleep _ _ Hrest)|exact Hwork|exact Hgiven|apply failure].
Qed.

(** ** Terminal states *)

(** C5: along every run of the server in which [uuidv4()] draws fresh
    ids, a record seen in the state [st] is later seen in a state that the
    graph of section 4.4 reaches from [st], and a record seen in a
    terminal state keeps that state. Inside every turn of the run, the
    task map after the turn is the map the turn starts from with the
    calls of the update sink applied in their order, and each of these
    calls finds its record in a state that is not terminal and moves it
    along an edge of the graph: no call of the sink ever reaches a record
    that is in a terminal state. *)
Theorem terminal_state_is_final events more :
  fresh_run (events ++ more) initial ->
  (forall taskId st,
     state_of taskId (run events initial) = Some st ->
     exists st',
       state_of taskId (run (events ++ more) initial) = Some st'
       /\ advances st st'
       /\ (terminal st = true -> st' = st))
  /\ (forall earlier e later,
        more = earlier ++ e :: later ->
        let srv := run (events ++ earlier) initial in
        match turn_coroutine e srv with
        | None => tasks (step e srv).2 = tasks srv
        | Some (taskId, now, p) =>
            tasks (step e srv).2
            = apply_updates taskId now (updates_until_sleep p) (turn_start e srv)
            /\ forall before u after,
                 updates_until_sleep p = before ++ u :: after ->
                 exists st st',
                   state_in taskId (apply_updates taskId now before (turn_start e srv))
                   = Some st
                   /\ terminal st = false
                   /\ state_in taskId
                        (apply_updates taskId now (before ++ [u]) (turn_start e srv))
                      = Some st'
                   /\ spec_transition st st'
        end).
Proof.
  intros Hfresh. split.
  - intros taskId st. revert Hfresh.
    induction more as [|e more IH] using rev_ind; intros Hfresh Hst.
    + rewrite app_nil_r. exists st. split; [exact Hst|]. split; [apply rtc_refl|reflexivity].
    + rewrite app_assoc in Hfresh |- *.
      pose proof Hfresh as [Hbefore [He _]]%fresh_run_app.
      destruct (IH Hbefore Hst) as (st1 & Hst1 & Hadv & Hterm).
      rewrite run_snoc.
      destruct (effect_state _ _ _ taskId st1
                  (step_effect e _ (run_timers_report (events ++ more))) He
                  (run_timers_at_work _ Hbefore) Hst1) as [Hsame|[-> [Hdone|Hdone]]].
      * exists st1. split; [exact Hsame|]. split; [exact Hadv|exact Hterm].
      * exists "completed". split; [exact Hdone|]. split.
        { eapply rtc_r; [exact Hadv|apply success]. }
        intros Ht. specialize (Hterm Ht). subst st. discriminate.
      * exists "failed". split; [exact Hdone|]. split.
        { eapply rtc_r; [exact Hadv|apply failure]. }
        intros Ht. specialize (Hterm Ht). subst st. discriminate.
  - intros earlier e later -> srv.
    pose proof (step_tasks e srv) as Hstep.
    destruct (turn_coroutine e srv) as [[[taskId now] p]|] eqn:Hturn; [|exact Hstep].
    split; [exact Hstep|]. intros before u after Hsplit.
    rewrite app_assoc in Hfresh. apply fresh_run_app in Hfresh as [Hearlier _].
    exact (turn_follows_graph e srv taskId now p before u after
             (run_timers_report _) (run_timers_at_work _ Hearlier) Hturn Hsplit).
Qed.

Lemma terminal_state_is_final_witness :
  let events := [Post (send_request "add" five_and_three (VStr "1")) "t1" 100; Fire 0 1100] in
  let more := [Post (send_request "add" five_and_three (VStr "2")) "t2" 1200;
               Post (send_request "subtract" five_and_three (VStr "3")) "t3" 1300;
               Fire 0 2200] in
  fresh_run (events ++ more) initial
  /\ state_of "t1" (run events initial) = Some "completed"
  /\ exists st',
       state_of "t1" (run (events ++ more) initial) = Some st'
       /\ advances "completed" st'
       /\ (terminal "completed" = true -> st' = "completed").
Proof.
  assert (Hfresh :
    fresh_run ([Post (send_request "add" five_and_three (VStr "1")) "t1" 100; Fire 0 1100]
               ++ [Post (send_request "add" five_and_three (VStr "2")) "t2" 1200;
                   Post (send_request "subtract" five_and_three (VStr "3")) "t3" 1300;
                   Fire 0 2200]) initial).
  { simpl. repeat split; intros _; vm_compute; reflexivity. }
  assert (Hst :
    state_of "t1"
      (run [Post (send_request "add" five_and_three (VStr "1")) "t1" 100; Fire 0 1100]
         initial) = Some "completed").
  { vm_compute. reflexivity. }
  split; [exact Hfresh|]. split; [exact Hst|].
  exact (proj1 (terminal_state_is_final _ _ Hfresh) "t1" "completed" Hst).
Defined.

(** A task coroutine makes no update after one with a terminal state. *)
Lemma terminal_update_is_last skill message before u after st :
  updates_of (executeTask skill message) = before ++ u :: after ->
  upd_state u = Some st ->
  terminal st = true ->
  after = [].
Proof.
  intros Hupdates Hu Hterminal.
  destruct (executeTask_shape skill message) as [e _|dataPart _ _|dataPart text _ _ _].
  - simpl in Hupdates. destruct before as [|u1 [|u2 before]]; simplify_eq/=. reflexivity.
  - destruct (report_sum_reports (params_of dataPart)) as [u0 Hrest].
    assert (Htwo : updates_of (CallUpdate working_update
                      (Await (Sleep 1000 (try_await (report_sum (params_of dataPart))))))
                   = [working_update; u0]).
    { simpl. f_equal. destruct Hrest; reflexivity. }
    rewrite Htwo in Hupdates.
    destruct before as [|u1 [|u2 [|u3 before]]]; simplify_eq/=; reflexivity.
  - simpl in Hupdates. destruct before as [|u1 [|u2 before]]; simplify_eq/=. reflexivity.
Qed.

(** A task that adds an object without a primitive value goes from
    [working] to [failed] when its timer fires. *)
Example add_fails_after_working :
  let data := VObj [("a", VObj [("toString", VNum 1)]); ("b", VNum 3)] in
  let s1 := (post_api (send_request "add" data (VStr "1")) "t1" 100 initial).2 in
  let s2 := fire 0 1100 s1 in
  state_of "t1" s1 = Some "working"
  /\ state_of "t1" s2 = Some "failed"
  /\ (message <$> (status <$> (task <$> tasks s2 !! "t1")))
     = Some (Some (agent_message "Error: Cannot convert object to primitive value")).
Proof. repeat split; vm_compute; reflexivity. Qed.

(** The sink itself has no guard: the rule is kept by the handlers, which
    end after their terminal update. *)
Lemma updateCallback_overwrites_terminal :
  let done := {| task := {| id := "t1";
                            status := {| state := "completed"; timestamp := 0;
                                         message := None |};
                            artifacts := [] |};
                 history := [] |} in
  state <$> (status <$> (task <$> (updateCallback "t1" 1 working_update {[ "t1" := done ]}).2
                                     !! "t1"))
  = Some "working".
Proof. vm_compute. reflexivity. Qed.

(** ** Cancellation *)




(** ** The sum of 5 and 3 (lines 70-99) *)

Lemma merge_update_artifacts now u taskData :
  artifacts (task (merge_update now u taskData))
  = artifacts (task taskData) ++ default [] (upd_artifacts u).
Proof.
  unfold merge_update. destruct (state_given u), (message_given u), (upd_artifacts u); simpl;
    try reflexivity; symmetry; apply app_nil_r.
Qed.

Lemma send_request_accepted skillId data rid :
  authenticateApiKey (send_request skillId data rid) = None.
Proof. apply accepted_request. apply lookup_singleton_eq. Qed.

Lemma get_request_accepted taskId includeHistory rid :
  authenticateApiKey (get_request taskId includeHistory rid) = None.
Proof. apply accepted_request. apply lookup_singleton_eq. Qed.

(** The request of the scenario starts the work and sets the timer; the
    answer shows the record at work. *)
Lemma send_five_three rid uuid now srv :
  let working := merge_update now working_update
                   (submitted_data uuid now (user_message "add" five_and_three)) in
  post_api (send_request "add" five_and_three rid) uuid now srv
  = (Some (sent (task working) rid),
     {| tasks := <[uuid := working]> (tasks srv);
        timers := timers srv ++ [{| timer_task := uuid; timer_ms := 1000;
                                    timer_rest := after_sleep (VNum 8) |}] |}).
Proof.
  assert (Hdraw : draws_uuid (send_request "add" five_and_three rid) = true).
  { unfold draws_uuid. rewrite send_request_accepted. reflexivity. }
  pose proof (post_send _ uuid now srv Hdraw eq_refl) as Hpost.
  cbn in Hpost. rewrite Hpost. reflexivity.
Qed.

Lemma send_five_three_adding rid uuid now srv :
  tasks srv !! uuid = None ->
  timers_at_work srv ->
  adding uuid (post_api (send_request "add" five_and_three rid) uuid now srv).2.
Proof.
  intros Hnew [_ Hwork]. rewrite send_five_three. eexists. simpl.
  split; [apply lookup_insert_eq|]. split.
  - intros pt [Hpt|Hpt]%elem_of_app Htask.
    + specialize (Hwork pt Hpt). unfold state_of in Hwork. rewrite Htask, Hnew in Hwork.
      discriminate.
    + apply list_elem_of_singleton in Hpt. subst pt. reflexivity.
  - left. split; [split; reflexivity|].
    eexists. split; [apply elem_of_app; right; apply list_elem_of_singleton; reflexivity|].
    reflexivity.
Qed.

(** The one report of the coroutine that has the sum 8 to report. *)
Lemma reports_eight u :
  Reports (after_sleep (VNum 8)) u -> u = completed_update (VNum 8) "8".
Proof.
  change (after_sleep (VNum 8))
    with (CallUpdate (completed_update (VNum 8) "8") (Await (Await Done))).
  intros H. inversion H; simplify_eq/=; reflexivity.
Qed.

Lemma effect_adding f srv srv' taskId :
  Effect f srv srv' -> f -> timers_at_work srv -> adding taskId srv -> adding taskId srv'.
Proof.
  intros Heff Hf [_ Hwork] (taskData & Hlook & Hreport & Hstate).
  destruct Heff as [|uuid now message u Hnew _|uuid now message rest u Hnew _
                    |before t after now u Htimers Hrest].
  - exists taskData. auto.
  - assert (uuid <> taskId) by (intros ->; rewrite (Hnew Hf) in Hlook; discriminate).
    exists taskData. simpl. rewrite lookup_insert_ne by assumption. auto.
  - assert (uuid <> taskId) by (intros ->; rewrite (Hnew Hf) in Hlook; discriminate).
    exists taskData. simpl. rewrite lookup_insert_ne by assumption.
    split; [exact Hlook|]. split.
    + intros pt [Hpt|Hpt]%elem_of_app Htask; [exact (Hreport pt Hpt Htask)|].
      apply list_elem_of_singleton in Hpt. subst pt. contradiction.
    + destruct Hstate as [[Hat (pt & Hpt & Htask)]|Hdone]; [left|right; exact Hdone].
      split; [exact Hat|]. exists pt. split; [apply elem_of_app; left; exact Hpt|exact Htask].
  - assert (Ht : t ∈ timers srv).
    { rewrite Htimers. apply elem_of_app. right. apply elem_of_cons. left. reflexivity. }
    assert (Hsub : forall pt, pt ∈ before ++ after -> pt ∈ timers srv).
    { intros pt Hpt. rewrite Htimers.
      apply elem_of_app in Hpt as [Hpt|Hpt]; apply elem_of_app; [left; exact Hpt|].
      right. apply elem_of_cons. right. exact Hpt. }
    unfold adding. cbn [tasks timers].
    destruct (decide (timer_task t = taskId)) as [Heq|Hne].
    + rewrite Heq. rewrite (updateCallback_found _ _ _ _ _ Hlook). cbn [snd].
      eexists. split; [apply lookup_insert_eq|].
      split; [intros pt Hpt; exact (Hreport pt (Hsub pt Hpt))|].
      right. rewrite (Hreport t Ht Heq) in Hrest. apply reports_eight in Hrest as ->.
      destruct Hstate as [[[_ Harts] _]|[Hcompleted _]].
      * split; [reflexivity|]. rewrite merge_update_artifacts, Harts. reflexivity.
      * specialize (Hwork t Ht). unfold state_of in Hwork. rewrite Heq, Hlook in Hwork.
        simpl in Hwork. congruence.
    + exists taskData. rewrite updateCallback_other by congruence.
      split; [exact Hlook|]. split; [intros pt Hpt; exact (Hreport pt (Hsub pt Hpt))|].
      destruct Hstate as [[Hat (pt & Hpt & Htask)]|Hdone]; [left|right; exact Hdone].
      split; [exact Hat|]. exists pt. split; [|exact Htask].
      rewrite Htimers in Hpt.
      apply elem_of_app in Hpt as [Hpt|Hpt]; apply elem_of_app; [left; exact Hpt|].
      apply elem_of_cons in Hpt as [->|Hpt]; [contradiction|right; exact Hpt].
Qed.

(** When the timer of the task fires, the task is completed. *)
Lemma adding_fire taskId srv n pt now :
  adding taskId srv ->
  timers_at_work srv ->
  timers srv !! n = Some pt ->
  timer_task pt = taskId ->
  exists taskData,
    tasks (fire n now srv) !! taskId = Some taskData /\ sum_done (task taskData).
Proof.
  intros (taskData & Hlook & Hreport & Hstate) [_ Hwork] Hn Htask.
  assert (Hpt : pt ∈ timers srv) by (apply list_elem_of_lookup; exists n; exact Hn).
  assert (Hrest : Reports (timer_rest pt) (completed_update (VNum 8) "8")).
  { rewrite (Hreport pt Hpt Htask). exact (reports_sum (VNum 8) "8"). }
  rewrite (fire_reports n now srv pt _ Hn Hrest). simpl.
  rewrite Htask, (updateCallback_found _ _ _ _ _ Hlook). simpl.
  eexists. split; [apply lookup_insert_eq|].
  destruct Hstate as [[[_ Harts] _]|[Hcompleted _]].
  - split; [reflexivity|]. rewrite merge_update_artifacts, Harts. reflexivity.
  - specialize (Hwork pt Hpt). unfold state_of in Hwork. rewrite Htask, Hlook in Hwork.
    simpl in Hwork. congruence.
Qed.

Lemma get_known_task taskId includeHistory rid uuid now srv taskData :
  tasks srv !! taskId = Some taskData ->
  post_api (get_request (VStr taskId) includeHistory rid) uuid now srv
  = (Some {| http_status := 200; jsonrpc := "2.0";
             payload := Result (task taskData)
                          (if includeHistory then Some (history taskData) else None);
             rpc_id := rid |}, srv).
Proof.
  intros Hlook. unfold post_api. rewrite get_request_accepted. cbn. rewrite Hlook.
  reflexivity.
Qed.

(** The invariant of the scenario along a run. *)
Lemma sent_run_adding events rid uuid now more :
  fresh_run (events ++ Post (send_request "add" five_and_three rid) uuid now :: more) initial ->
  let srv := run (events ++ Post (send_request "add" five_and_three rid) uuid now :: more)
               initial in
  adding uuid srv /\ timers_at_work srv.
Proof.
  intros Hfresh srv. subst srv. split; [|exact (run_timers_at_work _ Hfresh)].
  induction more as [|e more IH] using rev_ind.
  - pose proof Hfresh as [Hevents [Hsend _]]%fresh_run_app.
    rewrite run_snoc. simpl.
    apply send_five_three_adding; [|exact (run_timers_at_work _ Hevents)].
    apply Hsend. unfold draws_uuid. rewrite send_request_accepted. reflexivity.
  - rewrite app_comm_cons, app_assoc in Hfresh |- *.
    pose proof Hfresh as [Hbefore [He _]]%fresh_run_app.
    rewrite run_snoc.
    exact (effect_adding _ _ _ uuid
             (step_effect e _ (run_timers_report _)) He
             (run_timers_at_work _ Hbefore) (IH Hbefore)).
Qed.

(** C9: after [tasks/send] of the skill [add] with the data part
    [{a: 5, b: 3}], in every run with fresh ids, every poll of the task is
    answered with its record. The record is [working] without artifacts,
    with the timer of the task pending, and the task is done when that
    timer fires; or it is done: its state is [completed] and it has
    exactly one artifact, [calculation_result], whose single part is the
    data part [{result: 8}]. *)
Theorem add_five_and_three events rid uuid now more :
  fresh_run (events ++ Post (send_request "add" five_and_three rid) uuid now :: more) initial ->
  let srv := run (events ++ Post (send_request "add" five_and_three rid) uuid now :: more)
               initial in
  let done (t : Task) :=
    state (status t) = "completed"
    /\ artifacts t
       = [VObj [("name", VStr "calculation_result");
                ("parts", VArr [VObj [("type", VStr "data");
                                      ("data", VObj [("result", VNum 8)])]])]] in
  exists taskData,
    (forall includeHistory poll_id uuid' now',
        post_api (get_request (VStr uuid) includeHistory poll_id) uuid' now' srv
        = (Some {| http_status := 200; jsonrpc := "2.0";
                   payload := Result (task taskData)
                                (if includeHistory then Some (history taskData) else None);
                   rpc_id := poll_id |}, srv))
    /\ ((state (status (task taskData)) = "working"
         /\ artifacts (task taskData) = []
         /\ (exists n pt, timers srv !! n = Some pt /\ timer_task pt = uuid)
         /\ (forall n pt now', timers srv !! n = Some pt -> timer_task pt = uuid ->
               exists after, tasks (fire n now' srv) !! uuid = Some after
                             /\ done (task after)))
        \/ done (task taskData)).
Proof.
  intros Hfresh srv done.
  destruct (sent_run_adding events rid uuid now more Hfresh) as [Hadding Hwork].
  change (adding uuid srv) in Hadding. change (timers_at_work srv) in Hwork.
  pose proof Hadding as (taskData & Hlook & Hreport & Hstate).
  exists taskData. split.
  - intros includeHistory poll_id uuid' now'. apply get_known_task. exact Hlook.
  - destruct Hstate as [[[Hat Harts] (pt & Hpt & Htask)]|Hdone]; [left|right; exact Hdone].
    split; [exact Hat|]. split; [exact Harts|]. split.
    + apply list_elem_of_lookup in Hpt as [n Hn]. exists n, pt. split; assumption.
    + intros n pt' now' Hn Htask'. exact (adding_fire uuid srv n pt' now' Hadding Hwork Hn Htask').
Qed.

Lemma add_five_and_three_witness :
  fresh_run ([] ++ Post (send_request "add" five_and_three (VStr "1")) "t1" 100
                :: [Fire 0 1100]) initial
  /\ let srv := run ([] ++ Post (send_request "add" five_and_three (VStr "1")) "t1" 100
                        :: [Fire 0 1100]) initial in
     let done (t : Task) :=
       state (status t) = "completed"
       /\ artifacts t
          = [VObj [("name", VStr "calculation_result");
                   ("parts", VArr [VObj [("type", VStr "data");
                                         ("data", VObj [("result", VNum 8)])]])]] in
     exists taskData,
       (forall includeHistory poll_id uuid' now',
           post_api (get_request (VStr "t1") includeHistory poll_id) uuid' now' srv
           = (Some {| http_status := 200; jsonrpc := "2.0";
                      payload := Result (task taskData)
                                   (if includeHistory then Some (history taskData) else None);
                      rpc_id := poll_id |}, srv))
       /\ ((state (status (task taskData)) = "working"
            /\ artifacts (task taskData) = []
            /\ (exists n pt, timers srv !! n = Some pt /\ timer_task pt = "t1")
            /\ (forall n pt now', timers srv !! n = Some pt -> timer_task pt = "t1" ->
                  exists after, tasks (fire n now' srv) !! "t1" = Some after
                                /\ done (task after)))
           \/ done (task taskData)).
Proof.
  assert (Hfresh :
    fresh_run ([] ++ Post (send_request "add" five_and_three (VStr "1")) "t1" 100
                  :: [Fire 0 1100]) initial).
  { simpl. repeat split; intros _; vm_compute; reflexivity. }
  split; [exact Hfresh|].
  exact (add_five_and_three [] (VStr "1") "t1" 100 [Fire 0 1100] Hfresh).
Defined.

(** The run of the scenario: the request, a poll, the timer, a poll. *)
Example add_five_and_three_run :
  let s1 := (post_api (send_request "add" five_and_three (VStr "1")) "t1" 100 initial).2 in
  let s2 := fire 0 1100 s1 in
  (state <$> (status <$> (task <$> tasks s1 !! "t1")) = Some "working")
  /\ (task <$> tasks s2 !! "t1")
     = Some {| id := "t1";
               status := {| state := "completed"; timestamp := 1100;
                            message := Some (agent_message "The sum is 8") |};
               artifacts := [VObj [("name", VStr "calculation_result");
                                   ("parts", VArr [VObj [("type", VStr "data");
                                                         ("data", VObj [("result", VNum 8)])]])]] |}.
Proof. split; vm_compute; reflexivity. Qed.

(** ** The answer to tasks/send (lines 167-197) *)

(** An accepted [tasks/send] whose message has its parts and whose skill
    can be printed is answered with the record as the first update of the
    task has left it. *)
Lemma send_answers_after_first_update req uuid now srv dataPart text :
  draws_uuid req = true ->
  nullish (get_prop (body req) "params") = false ->
  find_data_part (get_prop (get_prop (body req) "params") "message") = Normal dataPart ->
  to_string (get_prop (get_prop (body req) "params") "skill") = Normal text ->
  exists t,
    (post_api req uuid now srv).1 = Some (sent t (get_prop (body req) "id"))
    /\ state (status t)
       = if registered (get_prop (get_prop (body req) "params") "skill")
         then "working" else "failed".
Proof.
  intros Hdraw Hparams Hfind Htext.
  pose proof (post_send req uuid now srv Hdraw Hparams) as Hpost. cbv zeta in Hpost.
  rewrite Hfind, Htext in Hpost. rewrite registered_add.
  destruct (is_string "add" _); rewrite Hpost; eexists; split; reflexivity.
Qed.

(** A fault of [handleTask] before its first [await] (a message without
    parts, a skill that cannot be printed) leaves the record [submitted]
    in the answer: the fault is reported when the [await] of
    [executeTask] resumes. *)
Lemma send_answers_submitted_on_fault req uuid now srv e :
  draws_uuid req = true ->
  nullish (get_prop (body req) "params") = false ->
  early_fault (get_prop (get_prop (body req) "params") "skill")
    (get_prop (get_prop (body req) "params") "message") = Some e ->
  exists t,
    (post_api req uuid now srv).1 = Some (sent t (get_prop (body req) "id"))
    /\ state (status t) = "submitted"
    /\ state_of uuid (post_api req uuid now srv).2 = Some "failed".
Proof.
  intros Hdraw Hparams Hfault.
  pose proof (post_send req uuid now srv Hdraw Hparams) as Hpost. cbv zeta in Hpost.
  assert (Hgoal :
    post_api req uuid now srv
    = (Some (sent (task (submitted_data uuid now
                           (get_prop (get_prop (body req) "params") "message")))
               (get_prop (body req) "id")),
       {| tasks := <[uuid := merge_update now (error_update e)
                               (submitted_data uuid now
                                  (get_prop (get_prop (body req) "params") "message"))]>
                     (tasks srv);
          timers := timers srv |})).
  { unfold early_fault in Hfault.
    destruct (find_data_part _) as [dataPart|e']; [|injection Hfault as ->; exact Hpost].
    destruct (is_string "add" _); [discriminate|].
    destruct (to_string _) as [text|e']; [discriminate|]. injection Hfault as ->. exact Hpost. }
  rewrite Hgoal. eexists. split; [reflexivity|].
  split; [reflexivity|]. simpl. rewrite state_of_insert.
  destruct (decide (uuid = uuid)); [reflexivity|contradiction].
Qed.

(** C1 at the request of the simple client ([add] with [{a: 5, b: 3}]):
    the answer to [tasks/send] is made in the turn of the request, with
    the timer of the task still pending, but it shows the record in the
    state [working] with the first agent message, not [submitted]; the
    history of the record has two messages by then. *)
Theorem send_add_answers_working rid uuid now srv :
  exists t srv',
    step (Post (send_request "add" five_and_three rid) uuid now) srv
    = (Some (sent t rid), srv')
    /\ state (status t) = "working"
    /\ state (status t) <> "submitted"
    /\ message (status t) = Some (agent_message "Calculating sum...")
    /\ history <$> tasks srv' !! uuid
       = Some [user_message "add" five_and_three; agent_message "Calculating sum..."]
    /\ {| timer_task := uuid; timer_ms := 1000; timer_rest := after_sleep (VNum 8) |}
       ∈ timers srv'.
Proof.
  simpl. rewrite send_five_three. eexists _, _. split; [reflexivity|]. simpl.
  split; [reflexivity|]. split; [discriminate|]. split; [reflexivity|]. split.
  - rewrite lookup_insert_eq. reflexivity.
  - apply elem_of_app. right. apply list_elem_of_singleton. reflexivity.
Qed.

(** What is left of that coroutine: the update that completes the task,
    with the text and the artifact of the sum. *)
Example after_sleep_eight :
  updates_of (after_sleep (VNum 8))
  = [{| upd_state := Some "completed";
        upd_message := Some (agent_message "The sum is 8");
        upd_artifacts :=
          Some [VObj [("name", VStr "calculation_result");
                      ("parts", VArr [VObj [("type", VStr "data");
                                            ("data", VObj [("result", VNum 8)])]])]] |}].
Proof. reflexivity. Qed.

(** ** Unknown skills (lines 101-109, 147-158) *)

(** The string of an array, element by element. *)
Lemma to_string_cons x rest :
  to_string (VArr (x :: rest))
  = match (if nullish x then Normal EmptyString else to_string x) with
    | Abrupt e => Abrupt e
    | Normal first =>
        match rest with
        | [] => Normal first
        | _ :: _ =>
            match to_string (VArr rest) with
            | Abrupt e => Abrupt e
            | Normal others => Normal (first +:+ "," +:+ others)
            end
        end
    end.
Proof. reflexivity. Qed.

(** The one fault of a template literal. *)
Lemma to_string_fault v e : to_string v = Abrupt e -> e = not_primitive.
Proof.
  revert v e. fix IH 1. intros v.
  destruct v as [| |[|]|n| |s|elems|fields]; try (intros e; simpl; discriminate).
  - revert elems. fix IHelems 1. intros [|x rest] e; [simpl; discriminate|].
    rewrite to_string_cons.
    assert (Hrest : forall first,
              match rest with
              | [] => Normal first
              | _ :: _ =>
                  match to_string (VArr rest) with
                  | Abrupt e => Abrupt e
                  | Normal others => Normal (first +:+ "," +:+ others)
                  end
              end = Abrupt e -> e = not_primitive).
    { intros first. pose proof (IHelems rest e) as Hrest.
      destruct rest as [|y rest']; [discriminate|].
      destruct (to_string (VArr (y :: rest'))) as [others|e']; [discriminate|].
      intros [= <-]. apply Hrest. reflexivity. }
    destruct (nullish x); [apply Hrest|].
    pose proof (IH x e) as Hx. destruct (to_string x) as [first|e']; [apply Hrest|].
    intros [= <-]. apply Hx. reflexivity.
  - intros e. simpl. destruct (assoc "toString" fields); [|discriminate].
    intros [= <-]. reflexivity.
Qed.

(** What cannot be printed is an array or an object. *)
Lemma to_string_fault_truthy v e : to_string v = Abrupt e -> truthy v = true.
Proof. destruct v as [| |[|]| | | | |]; simpl; try discriminate; reflexivity. Qed.

(** C6, as the code has it: an accepted [tasks/send] whose skill is not
    in the agent card makes exactly one update, of state [failed], without
    waiting for a timer: the record goes from [submitted] to [failed] in
    the turn of the request, and is never [working]. When the message of
    the request has its parts and the skill can be printed, the answer
    shows the record [failed], and the message of the update is
    [Unknown skill: <skill>] (the numbers in the skill are taken to be in
    the range that prints digit by digit). When the parts of the message
    cannot be read, or the skill is an object that has no primitive
    value, [handleTask] throws: the answer shows the record [submitted],
    and the message of the update is the text of the fault. *)
Theorem unknown_skill_fails req uuid now srv :
  draws_uuid req = true ->
  nullish (get_prop (body req) "params") = false ->
  registered (get_prop (get_prop (body req) "params") "skill") = false ->
  let skill := get_prop (get_prop (body req) "params") "skill" in
  let message := get_prop (get_prop (body req) "params") "message" in
  exists u t,
    updates_of (executeTask skill message) = [u]
    /\ upd_state u = Some "failed"
    /\ sleeps_of (executeTask skill message) = []
    /\ post_api req uuid now srv
       = (Some (sent t (get_prop (body req) "id")),
          {| tasks := <[uuid := merge_update now u (submitted_data uuid now message)]>
                        (tasks srv);
             timers := timers srv |})
    /\ state_of uuid (post_api req uuid now srv).2 = Some "failed"
    /\ (forall dataPart text,
          find_data_part message = Normal dataPart ->
          to_string skill = Normal text ->
          state (status t) = "failed"
          /\ (safe skill = true ->
              upd_message u = Some (agent_message ("Unknown skill: " +:+ text))))
    /\ (forall dataPart e,
          find_data_part message = Normal dataPart ->
          to_string skill = Abrupt e ->
          state (status t) = "submitted"
          /\ upd_message u
             = Some (agent_message "Error: Cannot convert object to primitive value"))
    /\ (forall e,
          find_data_part message = Abrupt e ->
          state (status t) = "submitted"
          /\ upd_message u = Some (agent_message ("Error: " +:+ err_message e))).
Proof.
  intros Hdraw Hparams Hreg skill message. rewrite registered_add in Hreg.
  pose proof (post_send req uuid now srv Hdraw Hparams) as Hpost. cbv zeta in Hpost.
  fold skill message in Hpost, Hreg.
  assert (Hfailed : forall u, upd_state u = Some "failed" ->
            state_of uuid
              {| tasks := <[uuid := merge_update now u (submitted_data uuid now message)]>
                            (tasks srv);
                 timers := timers srv |} = Some "failed").
  { intros u Hu. rewrite state_of_insert. destruct (decide (uuid = uuid)); [|contradiction].
    rewrite merge_update_state. unfold state_given. rewrite Hu. reflexivity. }
  unfold executeTask, handleTask.
  destruct (find_data_part message) as [dataPart|e] eqn:Hfind.
  - rewrite Hreg in Hpost |- *.
    destruct (to_string skill) as [text|e] eqn:Htext; rewrite Hpost.
    + exists (unknown_skill_update text). eexists. simpl.
      split; [reflexivity|]. split; [reflexivity|]. split; [reflexivity|].
      split; [reflexivity|]. split; [apply Hfailed; reflexivity|].
      split; [intros d text' _ [= <-]; split; [reflexivity|intros _; reflexivity]|].
      split; [intros d e' _ He'; discriminate|intros e' He'; discriminate].
    + exists (error_update e). eexists. simpl.
      split; [reflexivity|]. split; [reflexivity|]. split; [reflexivity|].
      split; [reflexivity|]. split; [apply Hfailed; reflexivity|].
      split; [intros d text' _ Ht; discriminate|].
      split; [|intros e' He'; discriminate].
      intros d e' _ _. rewrite (to_string_fault _ _ Htext). split; reflexivity.
  - rewrite Hpost. exists (error_update e). eexists. simpl.
    split; [reflexivity|]. split; [reflexivity|]. split; [reflexivity|].
    split; [reflexivity|]. split; [apply Hfailed; reflexivity|].
    split; [intros d text' Hd; discriminate|].
    split; [intros d e' Hd; discriminate|].
    intros e' [= <-]. split; reflexivity.
Qed.

Lemma unknown_skill_fails_witness :
  let req := send_request "subtract" five_and_three (VStr "1") in
  draws_uuid req = true
  /\ exists u t,
       updates_of (executeTask (VStr "subtract") (user_message "subtract" five_and_three)) = [u]
       /\ upd_state u = Some "failed"
       /\ upd_message u = Some (agent_message "Unknown skill: subtract")
       /\ (post_api req "t1" 100 initial).1 = Some (sent t (VStr "1"))
       /\ state (status t) = "failed"
       /\ state_of "t1" (post_api req "t1" 100 initial).2 = Some "failed".
Proof.
  assert (Hdraw : draws_uuid (send_request "subtract" five_and_three (VStr "1")) = true).
  { unfold draws_uuid. rewrite send_request_accepted. reflexivity. }
  split; [exact Hdraw|].
  destruct (unknown_skill_fails (send_request "subtract" five_and_three (VStr "1"))
              "t1" 100 initial Hdraw eq_refl eq_refl)
    as (u & t & Hupdates & Hstate & _ & Hpost & Hfailed & Htext & _).
  destruct (Htext (data_part five_and_three) "subtract" eq_refl eq_refl) as [Hanswer Hmessage].
  exists u, t. split; [exact Hupdates|]. split; [exact Hstate|].
  split; [exact (Hmessage eq_refl)|]. split; [rewrite Hpost; reflexivity|].
  split; [exact Hanswer|exact Hfailed].
Defined.

(** C6 as stated fails on a request without a message: the one update is
    the report of the fault, which does not name the skill. *)
Lemma unknown_skill_fault_not_named :
  let req := {| headers := api_key_header "test-api-key";
                body := envelope "tasks/send" (VObj [("skill", VStr "subtract")]) (VStr "1") |} in
  let skill := get_prop (get_prop (body req) "params") "skill" in
  let message := get_prop (get_prop (body req) "params") "message" in
  draws_uuid req = true
  /\ skill = VStr "subtract"
  /\ registered skill = false
  /\ exists text,
       (upd_message <$> updates_of (executeTask skill message))
       = [Some (agent_message text)]
       /\ mentions "subtract" text = false.
Proof.
  simpl. split; [unfold draws_uuid; rewrite (proj2 (accepted_request _)); [reflexivity|]|].
  { apply lookup_singleton_eq. }
  split; [reflexivity|]. split; [reflexivity|].
  eexists. split; [reflexivity|]. vm_compute. reflexivity.
Qed.

(** The same with a message that has its parts and a skill that is an
    object with a property [toString]: the template literal of the
    [default] branch throws, the answer shows the record [submitted], and
    the one update reports the fault. *)
Example unknown_skill_unprintable :
  let skill := VObj [("toString", VNum 1)] in
  let message := user_message "subtract" five_and_three in
  let req := {| headers := api_key_header "test-api-key";
                body := envelope "tasks/send"
                          (VObj [("skill", skill); ("message", message)]) (VStr "1") |} in
  registered skill = false
  /\ updates_of (executeTask skill message) = [error_update not_primitive]
  /\ (exists t, (post_api req "t1" 100 initial).1 = Some (sent t (VStr "1"))
                /\ state (status t) = "submitted")
  /\ (status <$> (task <$> tasks (post_api req "t1" 100 initial).2 !! "t1"))
     = Some {| state := "failed"; timestamp := 100;
               message := Some (agent_message
                                  "Error: Cannot convert object to primitive value") |}.
Proof.
  split; [reflexivity|]. split; [reflexivity|].
  split; [eexists; split; vm_compute; reflexivity|vm_compute; reflexivity].
Qed.

(** ** The polling loop of the clients *)

Lemma a2a_wait_app taskId maxWaitMs startTime before rest :
  A2AClient.waitForCompletion taskId maxWaitMs startTime before = Polling ->
  A2AClient.waitForCompletion taskId maxWaitMs startTime (before ++ rest)
  = A2AClient.waitForCompletion taskId maxWaitMs startTime rest.
Proof.
  induction before as [|[now answer] before IH]; simpl; [reflexivity|].
  repeat (case_match; try discriminate). exact IH.
Qed.

Lemma blog_wait_app taskId maxWaitMs startTime before rest :
  BlogClient.waitForCompletion taskId maxWaitMs startTime before = Polling ->
  BlogClient.waitForCompletion taskId maxWaitMs startTime (before ++ rest)
  = BlogClient.waitForCompletion taskId maxWaitMs startTime rest.
Proof.
  induction before as [|[now answer] before IH]; simpl; [reflexivity|].
  repeat (case_match; try discriminate). exact IH.
Qed.

Lemma status_text_agent t text :
  message (status t) = Some (agent_message text) -> status_text t = Normal (VStr text).
Proof. intros H. unfold status_text. rewrite H. reflexivity. Qed.

Lemma status_text_none t :
  message (status t) = None -> status_text t = Normal VUndef.
Proof. intros H. unfold status_text. rewrite H. reflexivity. Qed.

Lemma within_deadline now startTime maxWaitMs :
  now - startTime <= maxWaitMs -> (now - startTime >? maxWaitMs) = false.
Proof. intros H. rewrite Z.gtb_ltb. apply Z.ltb_ge. exact H. Qed.

(** One turn of the loop of [A2AClient] at a record in a terminal state. *)
Lemma a2a_turn taskId maxWaitMs startTime now answer rest t hist :
  now - startTime <= maxWaitMs ->
  sendRequest answer = Normal (t, hist) ->
  let st := state (status t) in
  let outcome := A2AClient.waitForCompletion taskId maxWaitMs startTime
                   ((now, answer) :: rest) in
  (st = "completed" \/ st = "canceled" -> outcome = Returned t hist)
  /\ (st = "failed" \/ st = "rejected" ->
      outcome = match status_text t with
                | Abrupt e => Thrown e
                | Normal text =>
                    match to_string (js_or text (VStr "Unknown error")) with
                    | Abrupt e => Thrown e
                    | Normal shown => Thrown (JsError ("Task failed: " +:+ shown))
                    end
                end).
Proof.
  intros Hdeadline Hanswer st outcome. apply within_deadline in Hdeadline.
  unfold outcome. simpl. rewrite Hdeadline, Hanswer. fold st.
  split; intros [-> | ->]; reflexivity.
Qed.

(** One turn of the loop of [BlogClient] at a record in a terminal state
    whose status text can be read and printed. *)
Lemma blog_turn taskId maxWaitMs startTime now answer rest t hist text shown :
  now - startTime <= maxWaitMs ->
  sendRequest answer = Normal (t, hist) ->
  status_text t = Normal text ->
  to_string text = Normal shown ->
  let st := state (status t) in
  let outcome := BlogClient.waitForCompletion taskId maxWaitMs startTime
                   ((now, answer) :: rest) in
  (st = "completed" \/ st = "canceled" -> outcome = Returned t hist)
  /\ (st = "failed" -> outcome = Thrown (JsError ("Task failed: " +:+ shown))).
Proof.
  intros Hdeadline Hanswer Htext Hshown st outcome. apply within_deadline in Hdeadline.
  unfold outcome. simpl. rewrite Hdeadline, Hanswer, Htext. fold st.
  assert (Hlog : exists logged, to_string (js_or text (VStr EmptyString)) = Normal logged).
  { unfold js_or. destruct (truthy text); eexists; [exact Hshown|reflexivity]. }
  destruct Hlog as [logged ->]. rewrite Hshown.
  split; [intros [-> | ->]; reflexivity|intros ->; reflexivity].
Qed.

(** C2, as the code has it. When a poll made before the deadline is
    answered with a record in a terminal state, [waitForCompletion] of
    [A2AClient] returns the record on [completed] and on [canceled]; on
    [failed] and on [rejected] it throws [Task failed: <text>] with the
    text of the first part of the status message, [Task failed: Unknown
    error] when there is no such text, and the engine's own [TypeError]
    when the status message has no parts to read or its text is an
    object without a primitive value. [BlogClient] reads and prints that
    text in the log line of every turn, so the [TypeError] comes whatever
    the state is; past the log line it returns the record on [completed]
    and on [canceled], and throws [Task failed: <text>] on [failed]. For
    a status message as the agents of this repository write them, the
    text is the one of the message. Where the text of the error is a
    number, it is taken to be in the range that prints digit by digit. *)
Theorem waitForCompletion_terminal taskId maxWaitMs startTime before now answer rest t hist :
  now - startTime <= maxWaitMs ->
  sendRequest answer = Normal (t, hist) ->
  let polls := before ++ (now, answer) :: rest in
  let st := state (status t) in
  (A2AClient.waitForCompletion taskId maxWaitMs startTime before = Polling ->
     let outcome := A2AClient.waitForCompletion taskId maxWaitMs startTime polls in
     (st = "completed" \/ st = "canceled" -> outcome = Returned t hist)
     /\ (st = "failed" \/ st = "rejected" ->
           (forall text shown,
               status_text t = Normal text -> truthy text = true ->
               to_string text = Normal shown -> safe text = true ->
               outcome = Thrown (JsError ("Task failed: " +:+ shown)))
           /\ (forall text,
                 status_text t = Normal text -> truthy text = false ->
                 outcome = Thrown (JsError "Task failed: Unknown error"))
           /\ (forall text e,
                 status_text t = Normal text -> to_string text = Abrupt e ->
                 outcome = Thrown (TypeError "Cannot convert object to primitive value"))
           /\ (forall e, status_text t = Abrupt e -> outcome = Thrown e)
           /\ (forall text,
                 message (status t) = Some (agent_message text) -> text <> EmptyString ->
                 outcome = Thrown (JsError ("Task failed: " +:+ text)))
           /\ (message (status t) = None ->
               outcome = Thrown (JsError "Task failed: Unknown error"))))
  /\ (BlogClient.waitForCompletion taskId maxWaitMs startTime before = Polling ->
      let outcome := BlogClient.waitForCompletion taskId maxWaitMs startTime polls in
      (forall e, status_text t = Abrupt e -> outcome = Thrown e)
      /\ (forall text e,
            status_text t = Normal text -> to_string text = Abrupt e ->
            outcome = Thrown (TypeError "Cannot convert object to primitive value"))
      /\ (forall text shown,
            status_text t = Normal text -> to_string text = Normal shown ->
            (st = "completed" \/ st = "canceled" -> outcome = Returned t hist)
            /\ (st = "failed" -> safe text = true ->
                outcome = Thrown (JsError ("Task failed: " +:+ shown))))
      /\ (forall text,
            message (status t) = Some (agent_message text) ->
            (st = "completed" \/ st = "canceled" -> outcome = Returned t hist)
            /\ (st = "failed" -> outcome = Thrown (JsError ("Task failed: " +:+ text))))
      /\ (message (status t) = None ->
          (st = "completed" \/ st = "canceled" -> outcome = Returned t hist)
          /\ (st = "failed" -> outcome = Thrown (JsError "Task failed: undefined")))).
Proof.
  intros Hdeadline Hanswer polls st. split.
  - intros Hbefore outcome. unfold outcome, polls.
    rewrite (a2a_wait_app _ _ _ _ _ Hbefore).
    destruct (a2a_turn taskId maxWaitMs startTime now answer rest t hist Hdeadline Hanswer)
      as [Hreturn Hthrow].
    split; [exact Hreturn|]. intros Hst. rewrite (Hthrow Hst). clear Hreturn Hthrow.
    split; [|split; [|split; [|split; [|split]]]].
    + intros text shown -> Htruthy Hshown _. unfold js_or. rewrite Htruthy, Hshown.
      reflexivity.
    + intros text -> Htruthy. unfold js_or. rewrite Htruthy. reflexivity.
    + intros text e -> Hfault. unfold js_or.
      rewrite (to_string_fault_truthy _ _ Hfault), Hfault, (to_string_fault _ _ Hfault).
      reflexivity.
    + intros e ->. reflexivity.
    + intros text Hmsg Htext. rewrite (status_text_agent _ _ Hmsg).
      unfold js_or. simpl. destruct text; [contradiction|reflexivity].
    + intros Hmsg. rewrite (status_text_none _ Hmsg). reflexivity.
  - intros Hbefore outcome. unfold outcome, polls.
    rewrite (blog_wait_app _ _ _ _ _ Hbefore).
    pose proof (within_deadline _ _ _ Hdeadline) as Hnow.
    split; [|split; [|split; [|split]]].
    + intros e He. simpl. rewrite Hnow, Hanswer, He. reflexivity.
    + intros text e Htext Hfault. simpl. rewrite Hnow, Hanswer, Htext. unfold js_or.
      rewrite (to_string_fault_truthy _ _ Hfault), Hfault, (to_string_fault _ _ Hfault).
      reflexivity.
    + intros text shown Htext Hshown.
      destruct (blog_turn taskId maxWaitMs startTime now answer rest t hist text shown
                  Hdeadline Hanswer Htext Hshown) as [Hreturn Hthrow].
      split; [exact Hreturn|]. intros Hst _. exact (Hthrow Hst).
    + intros text Hmsg.
      exact (blog_turn taskId maxWaitMs startTime now answer rest t hist (VStr text) text
               Hdeadline Hanswer (status_text_agent _ _ Hmsg) eq_refl).
    + intros Hmsg.
      exact (blog_turn taskId maxWaitMs startTime now answer rest t hist VUndef "undefined"
               Hdeadline Hanswer (status_text_none _ Hmsg) eq_refl).
Qed.

Lemma waitForCompletion_terminal_witness :
  0 - 0 <= 30000
  /\ A2AClient.waitForCompletion "t1" 30000 0 ([] ++ [(0, sent failed_sum (VStr "1"))])
     = Thrown (JsError "Task failed: Unknown skill: subtract")
  /\ BlogClient.waitForCompletion "t1" 30000 0 ([] ++ [(0, sent failed_sum (VStr "1"))])
     = Thrown (JsError "Task failed: Unknown skill: subtract").
Proof.
  assert (Hdeadline : 0 - 0 <= 30000) by lia.
  destruct (waitForCompletion_terminal "t1" 30000 0 [] 0 (sent failed_sum (VStr "1")) []
              failed_sum None Hdeadline eq_refl) as [Ha2a Hblog].
  split; [exact Hdeadline|]. split.
  - destruct (Ha2a eq_refl) as [_ Hfail].
    destruct (Hfail (or_introl eq_refl)) as (_ & _ & _ & _ & Htext & _).
    apply (Htext "Unknown skill: subtract" eq_refl). discriminate.
  - destruct (Hblog eq_refl) as (_ & _ & _ & Htext & _).
    destruct (Htext "Unknown skill: subtract" eq_refl) as [_ Hfail].
    exact (Hfail eq_refl).
Defined.

(** C2 as stated fails on [canceled]: both clients return the record
    instead of throwing. *)
Lemma waitForCompletion_canceled_returns :
  let polls := [(0, sent canceled_sum (VStr "1"))] in
  state (status canceled_sum) = "canceled"
  /\ A2AClient.waitForCompletion "t1" 30000 0 polls = Returned canceled_sum None
  /\ BlogClient.waitForCompletion "t1" 30000 0 polls = Returned canceled_sum None
  /\ ~ (exists e, A2AClient.waitForCompletion "t1" 30000 0 polls = Thrown e).
Proof.
  simpl. repeat split. intros [e He]. discriminate.
Qed.

(** [BlogClient] does not count [rejected] among the terminal states: it
    polls on. *)
Example blog_polls_on_rejected :
  let rejected := {| id := "t1";
                     status := {| state := "rejected"; timestamp := 100;
                                  message := Some (agent_message "Malformed input") |};
                     artifacts := [] |} in
  BlogClient.waitForCompletion "t1" 30000 0 [(0, sent rejected (VStr "1"))] = Polling
  /\ A2AClient.waitForCompletion "t1" 30000 0 [(0, sent rejected (VStr "1"))]
     = Thrown (JsError "Task failed: Malformed input").
Proof. split; reflexivity. Qed.

(** A status message without parts: [BlogClient] throws the [TypeError]
    of its log line on a completed record, [A2AClient] returns it, and
    throws that [TypeError] on a failed one. *)
Example waitForCompletion_without_parts :
  let record st := {| id := "t1";
                      status := {| state := st; timestamp := 100;
                                   message := Some (VObj [("role", VStr "agent")]) |};
                      artifacts := [] |} in
  let fault := TypeError "Cannot read properties of undefined (reading '0')" in
  BlogClient.waitForCompletion "t1" 30000 0 [(0, sent (record "completed") (VStr "1"))]
  = Thrown fault
  /\ A2AClient.waitForCompletion "t1" 30000 0 [(0, sent (record "completed") (VStr "1"))]
     = Returned (record "completed") None
  /\ A2AClient.waitForCompletion "t1" 30000 0 [(0, sent (record "failed") (VStr "1"))]
     = Thrown fault.
Proof. repeat split. Qed.

(** The deadline is checked before every poll. *)
Example a2a_timeout :
  A2AClient.waitForCompletion "t1" 500 0
    [(0, sent (initial_task "t1" 0) (VStr "1")); (1000, sent (initial_task "t1" 0) (VStr "2"))]
  = Thrown (JsError "Task t1 did not complete within 500ms").
Proof. vm_compute. reflexivity. Qed.

(** * Further properties of the server *)

(** ** Error answers (lines 44-60, 203-212, 227-247) *)

(** X1: a request that is answered with an error envelope leaves the
    server as it was, and the envelope has one of the four pairs of error
    code and HTTP status. *)
Theorem error_answer_no_effect req uuid now srv r code msg data :
  (post_api req uuid now srv).1 = Some r ->
  payload r = RpcError code msg data ->
  (post_api req uuid now srv).2 = srv
  /\ (code, http_status r) ∈ error_statuses
  /\ jsonrpc r = "2.0".
Proof.
  unfold post_api, authenticateApiKey, error_statuses.
  destruct (key_refused _).
  { simpl. intros [= <-] [= <- _ _]. repeat split. set_solver. }
  destruct (nullish (body req)); [discriminate|].
  destruct (is_string "tasks/send" _).
  - destruct (nullish (get_prop (body req) "params")).
    + simpl. intros [= <-] [= <- _ _]. repeat split. set_solver.
    + destruct (run_sync _ _ _ _) as [tasks2 susp]. simpl. intros [= <-]. discriminate.
  - destruct (is_string "tasks/get" _).
    + destruct (nullish (get_prop (body req) "params")).
      * simpl. intros [= <-] [= <- _ _]. repeat split. set_solver.
      * destruct (tasks_get _ _); simpl; intros [= <-]; [discriminate|].
        intros [= <- _ _]. repeat split. set_solver.
    + simpl. intros [= <-] [= <- _ _]. repeat split. set_solver.
Qed.

Lemma error_answer_no_effect_witness :
  let req := {| headers := api_key_header "test-api-key";
                body := envelope "tasks/cancel" (VObj [("taskId", VStr "t1")]) (VStr "5") |} in
  let r := {| http_status := 404; jsonrpc := "2.0";
              payload := RpcError (-32601) "Method not found" None; rpc_id := VStr "5" |} in
  (post_api req "t2" 0 initial).1 = Some r
  /\ (post_api req "t2" 0 initial).2 = initial
  /\ (-32601, http_status r) ∈ error_statuses
  /\ jsonrpc r = "2.0".
Proof.
  assert (H : (post_api {| headers := api_key_header "test-api-key";
                           body := envelope "tasks/cancel" (VObj [("taskId", VStr "t1")])
                                     (VStr "5") |} "t2" 0 initial).1
              = Some {| http_status := 404; jsonrpc := "2.0";
                        payload := RpcError (-32601) "Method not found" None;
                        rpc_id := VStr "5" |}).
  { vm_compute. reflexivity. }
  split; [exact H|].
  exact (error_answer_no_effect _ "t2" 0 initial _ (-32601) "Method not found" None H eq_refl).
Defined.

(** ** What an update does to a record (lines 125-145) *)

Lemma merge_update_id now u taskData :
  id (task (merge_update now u taskData)) = id (task taskData).
Proof.
  unfold merge_update. destruct (state_given u), (message_given u); reflexivity.
Qed.

Lemma merge_update_history now u taskData :
  history (merge_update now u taskData)
  = history taskData ++ match message_given u with Some m => [m] | None => [] end.
Proof.
  unfold merge_update. destruct (state_given u), (message_given u); simpl;
    try reflexivity; symmetry; apply app_nil_r.
Qed.

Lemma merge_update_message now u taskData :
  message (status (task (merge_update now u taskData)))
  = match message_given u with
    | Some m => Some m
    | None => message (status (task taskData))
    end.
Proof.
  unfold merge_update. destruct (state_given u), (message_given u); reflexivity.
Qed.

Lemma agent_update_message u :
  agent_update u -> exists m, message_given u = Some m.
Proof.
  intros (st & text & _ & _ & Hm). unfold message_given. rewrite Hm. simpl. eauto.
Qed.

Lemma agent_update_error e : agent_update (error_update e).
Proof. exists "failed", ("Error: " +:+ err_message e). repeat split. discriminate. Qed.

Lemma agent_update_unknown text : agent_update (unknown_skill_update text).
Proof. exists "failed", ("Unknown skill: " +:+ text). repeat split. discriminate. Qed.

Lemma agent_update_working : agent_update working_update.
Proof. exists "working", "Calculating sum...". repeat split. discriminate. Qed.

Lemma agent_update_completed result text : agent_update (completed_update result text).
Proof. exists "completed", ("The sum is " +:+ text). repeat split. discriminate. Qed.

Lemma reports_agent_update rest u : Reports rest u -> agent_update u.
Proof. intros [result text|e]; [apply agent_update_completed|apply agent_update_error]. Qed.

Lemma step_change e srv :
  timers_report srv -> Change srv (step e srv).2.
Proof.
  intros Hreports. destruct e as [req uuid now|n now]; simpl.
  - destruct (draws_uuid req) eqn:Hdraw.
    2:{ rewrite post_without_send by (left; exact Hdraw). constructor. }
    destruct (nullish (get_prop (body req) "params")) eqn:Hparams.
    1:{ rewrite post_without_send by (right; exact Hparams). constructor. }
    pose proof (post_send req uuid now srv Hdraw Hparams) as Hpost. cbv zeta in Hpost.
    destruct (find_data_part _) as [dataPart|err].
    + destruct (is_string "add" _).
      * rewrite Hpost. simpl. apply change_create. apply agent_update_working.
      * destruct (to_string _) as [text|err]; rewrite Hpost; simpl; apply change_create;
          [apply agent_update_unknown|apply agent_update_error].
    + rewrite Hpost. simpl. apply change_create. apply agent_update_error.
  - destruct (timers srv !! n) as [t|] eqn:Hn.
    2:{ rewrite fire_nothing by exact Hn. constructor. }
    destruct (Hreports t) as [u Hrest].
    { apply list_elem_of_lookup. exists n. exact Hn. }
    rewrite (fire_reports n now srv t u Hn Hrest).
    apply change_update. exact (reports_agent_update _ _ Hrest).
Qed.

(** ** The records of the task map *)

Lemma merge_update_well_kept key now u taskData :
  agent_update u ->
  id (task taskData) = key ->
  (1 <= length (history taskData))%nat ->
  well_kept key (merge_update now u taskData).
Proof.
  intros [m Hm]%agent_update_message Hid Hlen. unfold well_kept.
  rewrite merge_update_id, merge_update_message, merge_update_history, Hm.
  split; [exact Hid|]. split.
  - exists m. split; [reflexivity|apply last_snoc].
  - rewrite length_app. simpl. lia.
Qed.

Lemma change_well_kept srv srv' :
  Change srv srv' ->
  (forall key taskData, tasks srv !! key = Some taskData -> well_kept key taskData) ->
  forall key taskData, tasks srv' !! key = Some taskData -> well_kept key taskData.
Proof.
  intros Hchange Hkept key taskData.
  destruct Hchange as [|uuid now message u timers' Hu|taskId now u timers' Hu]; simpl.
  - apply Hkept.
  - rewrite lookup_insert. destruct (decide (uuid = key)) as [<-|_]; [|apply Hkept].
    intros [= <-]. apply merge_update_well_kept; [exact Hu|reflexivity|simpl; lia].
  - destruct (decide (key = taskId)) as [->|Hne].
    + unfold updateCallback. destruct (tasks srv !! taskId) as [old|] eqn:Hold; simpl.
      * rewrite lookup_insert_eq. intros [= <-].
        destruct (Hkept taskId old Hold) as (Hid & _ & Hlen).
        apply merge_update_well_kept; [exact Hu|exact Hid|lia].
      * rewrite Hold. discriminate.
    + rewrite updateCallback_other by exact Hne. apply Hkept.
Qed.

(** X2: in every run of the server, a stored record has its key as its
    [id], its status message is the last entry of its history, and its
    history has at least two entries (the message of the request and an
    answer of the agent). *)
Theorem stored_record_well_kept events key taskData :
  tasks (run events initial) !! key = Some taskData ->
  id (task taskData) = key
  /\ (exists m, message (status (task taskData)) = Some m
                /\ last (history taskData) = Some m)
  /\ (2 <= length (history taskData))%nat.
Proof.
  change (tasks (run events initial) !! key = Some taskData -> well_kept key taskData).
  revert key taskData. induction events as [|e events IH] using rev_ind.
  - intros key taskData. simpl. rewrite lookup_empty. discriminate.
  - rewrite run_snoc.
    exact (change_well_kept _ _ (step_change e _ (run_timers_report events)) IH).
Qed.

Lemma stored_record_well_kept_witness :
  let events := [Post (send_request "add" five_and_three (VStr "1")) "t1" 100; Fire 0 1100] in
  exists taskData,
    tasks (run events initial) !! "t1" = Some taskData
    /\ id (task taskData) = "t1"
    /\ (exists m, message (status (task taskData)) = Some m
                  /\ last (history taskData) = Some m)
    /\ (2 <= length (history taskData))%nat.
Proof.
  eexists. split; [vm_compute; reflexivity|].
  apply (stored_record_well_kept
           [Post (send_request "add" five_and_three (VStr "1")) "t1" 100; Fire 0 1100]).
  vm_compute. reflexivity.
Defined.

(** ** tasks/send followed by tasks/get (lines 167-225) *)

(** X3: after an accepted [tasks/send] with [params], [tasks/get] of the
    id the answer carries finds the record: it is answered 200 with the
    stored task, whose [id] is that id, and, when [includeHistory] is
    set, with the history, which begins with the message of the request;
    the poll leaves the server as it is. *)
Theorem send_then_get req uuid now srv poll_id uuid' now' :
  draws_uuid req = true ->
  nullish (get_prop (body req) "params") = false ->
  let srv' := (post_api req uuid now srv).2 in
  exists answered taskData,
    (post_api req uuid now srv).1 = Some (sent answered (get_prop (body req) "id"))
    /\ id answered = uuid
    /\ tasks srv' !! uuid = Some taskData
    /\ id (task taskData) = uuid
    /\ head (history taskData) = Some (get_prop (get_prop (body req) "params") "message")
    /\ post_api (get_request (VStr uuid) true poll_id) uuid' now' srv'
       = (Some {| http_status := 200; jsonrpc := "2.0";
                  payload := Result (task taskData) (Some (history taskData));
                  rpc_id := poll_id |}, srv')
    /\ post_api (get_request (VStr uuid) false poll_id) uuid' now' srv'
       = (Some {| http_status := 200; jsonrpc := "2.0";
                  payload := Result (task taskData) None;
                  rpc_id := poll_id |}, srv').
Proof.
  intros Hdraw Hparams srv'. subst srv'.
  pose proof (post_send req uuid now srv Hdraw Hparams) as Hpost. cbv zeta in Hpost.
  assert (Hstored : forall u timers',
    let taskData := merge_update now u
                      (submitted_data uuid now
                         (get_prop (get_prop (body req) "params") "message")) in
    let srv' := {| tasks := <[uuid := taskData]> (tasks srv); timers := timers' |} in
    tasks srv' !! uuid = Some taskData
    /\ id (task taskData) = uuid
    /\ head (history taskData) = Some (get_prop (get_prop (body req) "params") "message")
    /\ post_api (get_request (VStr uuid) true poll_id) uuid' now' srv'
       = (Some {| http_status := 200; jsonrpc := "2.0";
                  payload := Result (task taskData) (Some (history taskData));
                  rpc_id := poll_id |}, srv')
    /\ post_api (get_request (VStr uuid) false poll_id) uuid' now' srv'
       = (Some {| http_status := 200; jsonrpc := "2.0";
                  payload := Result (task taskData) None;
                  rpc_id := poll_id |}, srv')).
  { intros u timers' taskData srv'.
    assert (Hlook : tasks srv' !! uuid = Some taskData) by apply lookup_insert_eq.
    split; [exact Hlook|]. split; [apply merge_update_id|]. split.
    - unfold taskData. rewrite merge_update_history. reflexivity.
    - split.
      + exact (get_known_task uuid true poll_id uuid' now' srv' taskData Hlook).
      + exact (get_known_task uuid false poll_id uuid' now' srv' taskData Hlook). }
  destruct (find_data_part _) as [dataPart|err].
  - destruct (is_string "add" _).
    + rewrite Hpost. eexists _, _.
      split; [reflexivity|]. split; [apply merge_update_id|]. apply Hstored.
    + destruct (to_string _) as [text|err]; rewrite Hpost; eexists _, _.
      * split; [reflexivity|]. split; [apply merge_update_id|]. apply Hstored.
      * split; [reflexivity|]. split; [reflexivity|]. apply Hstored.
  - rewrite Hpost. eexists _, _. split; [reflexivity|]. split; [reflexivity|].
    apply Hstored.
Qed.

Lemma send_then_get_witness :
  let req := send_request "subtract" five_and_three (VStr "1") in
  draws_uuid req = true
  /\ exists taskData,
       tasks (post_api req "t1" 100 initial).2 !! "t1" = Some taskData
       /\ head (history taskData) = Some (user_message "subtract" five_and_three)
       /\ (post_api (get_request (VStr "t1") true (VStr "2")) "t2" 200
             (post_api req "t1" 100 initial).2).1
          = Some {| http_status := 200; jsonrpc := "2.0";
                    payload := Result (task taskData) (Some (history taskData));
                    rpc_id := VStr "2" |}.
Proof.
  assert (Hdraw : draws_uuid (send_request "subtract" five_and_three (VStr "1")) = true).
  { unfold draws_uuid. rewrite send_request_accepted. reflexivity. }
  split; [exact Hdraw|].
  destruct (send_then_get (send_request "subtract" five_and_three (VStr "1")) "t1" 100 initial
              (VStr "2") "t2" 200 Hdraw eq_refl)
    as (answered & taskData & _ & _ & Hlook & _ & Hhead & Hget & _).
  exists taskData. split; [exact Hlook|]. split; [exact Hhead|].
  rewrite Hget. reflexivity.
Defined.

(** ** History and artifacts only grow *)

Lemma merge_update_grows now u taskData :
  history taskData `prefix_of` history (merge_update now u taskData)
  /\ artifacts (task taskData) `prefix_of` artifacts (task (merge_update now u taskData)).
Proof.
  rewrite merge_update_history, merge_update_artifacts.
  split; apply prefix_app_r; reflexivity.
Qed.

Lemma effect_grows f srv srv' key taskData :
  Effect f srv srv' -> f ->
  tasks srv !! key = Some taskData ->
  exists taskData',
    tasks srv' !! key = Some taskData'
    /\ history taskData `prefix_of` history taskData'
    /\ artifacts (task taskData) `prefix_of` artifacts (task taskData').
Proof.
  intros Heff Hf Hlook.
  destruct Heff as [|uuid now message u Hnew _|uuid now message rest u Hnew _
                    |before t after now u _ _]; simpl.
  - exists taskData. split; [exact Hlook|]. split; reflexivity.
  - assert (uuid <> key) by (intros ->; rewrite (Hnew Hf) in Hlook; discriminate).
    exists taskData. rewrite lookup_insert_ne by assumption.
    split; [exact Hlook|]. split; reflexivity.
  - assert (uuid <> key) by (intros ->; rewrite (Hnew Hf) in Hlook; discriminate).
    exists taskData. rewrite lookup_insert_ne by assumption.
    split; [exact Hlook|]. split; reflexivity.
  - destruct (decide (key = timer_task t)) as [->|Hne].
    + rewrite (updateCallback_found _ _ _ _ _ Hlook). simpl. eexists.
      split; [apply lookup_insert_eq|]. apply merge_update_grows.
    + exists taskData. rewrite updateCallback_other by exact Hne.
      split; [exact Hlook|]. split; reflexivity.
Qed.

(** X4: in a run in which [uuidv4()] draws fresh ids, a record that is
    in the task map stays there, and its history and its artifacts only
    grow: what was read earlier is a prefix of what is read later. *)
Theorem history_and_artifacts_grow events more key taskData :
  fresh_run (events ++ more) initial ->
  tasks (run events initial) !! key = Some taskData ->
  exists taskData',
    tasks (run (events ++ more) initial) !! key = Some taskData'
    /\ history taskData `prefix_of` history taskData'
    /\ artifacts (task taskData) `prefix_of` artifacts (task taskData').
Proof.
  induction more as [|e more IH] using rev_ind; intros Hfresh Hlook.
  - rewrite app_nil_r. exists taskData. split; [exact Hlook|]. split; reflexivity.
  - rewrite app_assoc in Hfresh |- *.
    pose proof Hfresh as [Hbefore [He _]]%fresh_run_app.
    destruct (IH Hbefore Hlook) as (mid & Hmid & Hhist & Harts).
    rewrite run_snoc.
    destruct (effect_grows _ _ _ key mid
                (step_effect e _ (run_timers_report (events ++ more))) He Hmid)
      as (taskData' & Hlook' & Hhist' & Harts').
    exists taskData'. split; [exact Hlook'|].
    split; etransitivity; eassumption.
Qed.

Lemma history_and_artifacts_grow_witness :
  let events := [Post (send_request "add" five_and_three (VStr "1")) "t1" 100] in
  let more := [Post (send_request "subtract" five_and_three (VStr "2")) "t2" 200;
               Fire 0 1100] in
  let taskData := merge_update 100 working_update
                    (submitted_data "t1" 100 (user_message "add" five_and_three)) in
  fresh_run (events ++ more) initial
  /\ tasks (run events initial) !! "t1" = Some taskData
  /\ exists taskData',
       tasks (run (events ++ more) initial) !! "t1" = Some taskData'
       /\ history taskData `prefix_of` history taskData'
       /\ artifacts (task taskData) `prefix_of` artifacts (task taskData').
Proof.
  assert (Hfresh :
    fresh_run ([Post (send_request "add" five_and_three (VStr "1")) "t1" 100]
               ++ [Post (send_request "subtract" five_and_three (VStr "2")) "t2" 200;
                   Fire 0 1100]) initial).
  { simpl. repeat split; intros _; vm_compute; reflexivity. }
  assert (Hlook : tasks (run [Post (send_request "add" five_and_three (VStr "1")) "t1" 100]
                           initial) !! "t1"
                  = Some (merge_update 100 working_update
                            (submitted_data "t1" 100 (user_message "add" five_and_three)))).
  { vm_compute. reflexivity. }
  split; [exact Hfresh|]. split; [exact Hlook|].
  exact (history_and_artifacts_grow _ _ "t1" _ Hfresh Hlook).
Defined.

(** ** No record is left behind (lines 63-159) *)

Lemma effect_never_stuck f srv srv' :
  Effect f srv srv' ->
  (forall key st, state_of key srv = Some st ->
     (st = "working" /\ exists pt, pt ∈ timers srv /\ timer_task pt = key)
     \/ st = "completed" \/ st = "failed") ->
  forall key st, state_of key srv' = Some st ->
    (st = "working" /\ exists pt, pt ∈ timers srv' /\ timer_task pt = key)
    \/ st = "completed" \/ st = "failed".
Proof.
  intros Heff Hinv key st.
  destruct Heff as [|uuid now message u _ Hfailed|uuid now message rest u _ _
                    |before t after now u Htimers Hrest].
  - apply Hinv.
  - rewrite state_of_insert, merge_update_state. unfold state_given. rewrite Hfailed. simpl.
    destruct (decide (uuid = key)); [intros [= <-]; right; right; reflexivity|].
    rewrite <- state_of_eta. apply Hinv.
  - rewrite state_of_insert, merge_update_state. simpl.
    destruct (decide (uuid = key)) as [<-|_].
    + intros [= <-]. left. split; [reflexivity|].
      exists {| timer_task := uuid; timer_ms := 1000; timer_rest := rest |}.
      split; [|reflexivity].
      apply elem_of_app. right. apply list_elem_of_singleton. reflexivity.
    + rewrite (state_of_timers _ _ _ (timers srv)), <- state_of_eta. intros Hst.
      destruct (Hinv key st Hst) as [[-> (pt & Hpt & Htask)]|Hdone]; [left|right; exact Hdone].
      split; [reflexivity|]. exists pt. split; [|exact Htask].
      apply elem_of_app. left. exact Hpt.
  - rewrite (state_of_update _ _ _ _ _ (timers srv)), <- state_of_eta. simpl.
    destruct (decide (timer_task t = key)) as [Heq|Hne].
    + destruct (state_of key srv); simpl; [|discriminate].
      destruct (reports_state_given _ _ Hrest) as [-> | ->]; intros [= <-];
        [right; left; reflexivity|right; right; reflexivity].
    + intros Hst.
      destruct (Hinv key st Hst) as [[-> (pt & Hpt & Htask)]|Hdone]; [left|right; exact Hdone].
      split; [reflexivity|]. exists pt. split; [|exact Htask].
      rewrite Htimers in Hpt.
      apply elem_of_app in Hpt as [Hpt|Hpt]; apply elem_of_app; [left; exact Hpt|].
      apply elem_of_cons in Hpt as [->|Hpt]; [contradiction|right; exact Hpt].
Qed.

Lemma run_never_stuck events key st :
  state_of key (run events initial) = Some st ->
  (st = "working"
   /\ exists pt, pt ∈ timers (run events initial) /\ timer_task pt = key)
  \/ st = "completed" \/ st = "failed".
Proof.
  revert key st. induction events as [|e events IH] using rev_ind.
  - intros key st. unfold state_of. simpl. rewrite lookup_empty. discriminate.
  - rewrite run_snoc.
    exact (effect_never_stuck _ _ _
             (step_effect e _ (run_timers_report events)) IH).
Qed.

(** X5: in every run of the server, a stored record is [completed],
    [failed], or [working] with a timer of its task pending, and when
    such a timer fires the record becomes [completed], or [failed] if the
    sum throws: between two turns of the event loop no record is
    [submitted], and none is left without something that will end it. *)
Theorem no_record_stuck events key st :
  let srv := run events initial in
  state_of key srv = Some st ->
  (st = "working"
   /\ (exists n pt, timers srv !! n = Some pt /\ timer_task pt = key)
   /\ (forall n pt now, timers srv !! n = Some pt -> timer_task pt = key ->
         state_of key (fire n now srv) = Some "completed"
         \/ state_of key (fire n now srv) = Some "failed"))
  \/ st = "completed" \/ st = "failed".
Proof.
  intros srv Hst.
  destruct (run_never_stuck events key st Hst) as [[-> (pt & Hpt & Htask)]|Hdone];
    [left|right; exact Hdone].
  split; [reflexivity|]. split.
  - apply list_elem_of_lookup in Hpt as [n Hn]. exists n, pt. split; assumption.
  - intros n pt' now Hn Htask'.
    destruct (run_timers_report events pt') as [u Hrest].
    { apply list_elem_of_lookup. exists n. exact Hn. }
    fold srv in Hn. rewrite (fire_reports n now srv pt' u Hn Hrest).
    rewrite (state_of_update _ _ _ _ _ (timers srv)), <- state_of_eta.
    destruct (decide (timer_task pt' = key)); [|contradiction].
    rewrite Hst. simpl.
    destruct (reports_state_given _ _ Hrest) as [-> | ->]; [left|right]; reflexivity.
Qed.

Lemma no_record_stuck_witness :
  let srv := run [Post (send_request "add" five_and_three (VStr "1")) "t1" 100] initial in
  state_of "t1" srv = Some "working"
  /\ (exists n pt, timers srv !! n = Some pt /\ timer_task pt = "t1")
  /\ (forall n pt now, timers srv !! n = Some pt -> timer_task pt = "t1" ->
        state_of "t1" (fire n now srv) = Some "completed"
        \/ state_of "t1" (fire n now srv) = Some "failed").
Proof.
  assert (Hst : state_of "t1"
                  (run [Post (send_request "add" five_and_three (VStr "1")) "t1" 100] initial)
                = Some "working").
  { vm_compute. reflexivity. }
  split; [exact Hst|].
  destruct (no_record_stuck
              [Post (send_request "add" five_and_three (VStr "1")) "t1" 100] "t1" "working" Hst)
    as [[_ H]|[H|H]]; [exact H|discriminate|discriminate].
Defined.

(** ** The wrapper of executeTask (lines 147-158) *)


(** * The blog assistant (blog example, lines 69-113) *)

Example outline_of_two_points :
  (fun outline => word_count_of <$> sections_of outline)
    <$> (match BlogAssistant.generateOutline (VStr "Rust") [VStr "Ownership"; VStr "Traits"]
                 1000 with
         | Normal outline => Some outline
         | Abrupt _ => None
         end)
  = Some [250; 250; 250; 250].
Proof. reflexivity. Qed.

(** The outline is made unless the title cannot be printed. *)
Lemma outline_made topic keyPoints wordCount :
  BlogAssistant.generateOutline topic keyPoints wordCount
  = match to_string topic with
    | Abrupt e => Abrupt e
    | Normal text =>
        Normal
          (VObj [("title", VStr ("The Complete Guide to " +:+ text));
                 ("target_word_count", VNum wordCount);
                 ("sections",
                  VArr (BlogAssistant.outline_section (VStr "Introduction")
                          (wordCount / (Z.of_nat (length keyPoints) + 2))
                          "Hook the reader, introduce the topic, preview main points"
                        :: map (fun point =>
                                  BlogAssistant.outline_section point
                                    (wordCount / (Z.of_nat (length keyPoints) + 2))
                                    "Expand on this key point with examples and explanations")
                             keyPoints
                        ++ [BlogAssistant.outline_section (VStr "Conclusion")
                              (wordCount / (Z.of_nat (length keyPoints) + 2))
                              "Summarize key points, call to action"]))])
    end.
Proof. reflexivity. Qed.

Lemma outline_sections topic keyPoints wordCount outline :
  BlogAssistant.generateOutline topic keyPoints wordCount = Normal outline ->
  sections_of outline
  = BlogAssistant.outline_section (VStr "Introduction")
      (wordCount / (Z.of_nat (length keyPoints) + 2))
      "Hook the reader, introduce the topic, preview main points"
    :: map (fun point =>
              BlogAssistant.outline_section point
                (wordCount / (Z.of_nat (length keyPoints) + 2))
                "Expand on this key point with examples and explanations") keyPoints
    ++ [BlogAssistant.outline_section (VStr "Conclusion")
          (wordCount / (Z.of_nat (length keyPoints) + 2))
          "Summarize key points, call to action"].
Proof.
  rewrite outline_made. destruct (to_string topic); [|discriminate].
  intros [= <-]. reflexivity.
Qed.

Lemma outline_headings (w : Z) (notes : string) (points : list value) :
  heading_of <$> map (fun point => BlogAssistant.outline_section point w notes) points
  = points.
Proof.
  induction points as [|p l IH]; simpl; [reflexivity|]. f_equal. exact IH.
Qed.

Lemma outline_length topic keyPoints wordCount outline :
  BlogAssistant.generateOutline topic keyPoints wordCount = Normal outline ->
  length (sections_of outline) = S (S (length keyPoints)).
Proof.
  intros H. rewrite (outline_sections _ _ _ _ H). cbn [length].
  rewrite length_app, length_map. simpl. lia.
Qed.

Lemma outline_uniform topic keyPoints wordCount outline :
  BlogAssistant.generateOutline topic keyPoints wordCount = Normal outline ->
  Forall (fun s => word_count_of s = wordCount / (Z.of_nat (length keyPoints) + 2))
         (sections_of outline).
Proof.
  intros H. rewrite (outline_sections _ _ _ _ H).
  apply Forall_cons. split; [reflexivity|].
  apply Forall_app. split; [|apply Forall_cons; split; [reflexivity|apply Forall_nil_2]].
  apply Forall_forall. intros s Hs. apply list_elem_of_In, in_map_iff in Hs as (p & <- & _).
  reflexivity.
Qed.

(** X7: for a target of magnitude below 2^53, [generateOutline] returns
    an outline unless the topic cannot be printed in the title, and then
    it throws. The outline has one section for the introduction, one for
    each key point, in their order and with the key point as heading,
    and one for the conclusion; every section is given the same number
    of words, the target divided by the number of sections, rounded
    down. *)
Theorem outline_structure topic keyPoints wordCount :
  - 2 ^ 53 < wordCount < 2 ^ 53 ->
  match to_string topic with
  | Abrupt e => BlogAssistant.generateOutline topic keyPoints wordCount = Abrupt e
  | Normal _ =>
      exists outline,
        BlogAssistant.generateOutline topic keyPoints wordCount = Normal outline
        /\ get_prop outline "target_word_count" = VNum wordCount
        /\ let sections := sections_of outline in
           length sections = S (S (length keyPoints))
           /\ heading_of <$> sections = VStr "Introduction" :: keyPoints ++ [VStr "Conclusion"]
           /\ Forall (fun s => word_count_of s = wordCount / Z.of_nat (length sections))
                     sections
  end.
Proof.
  intros _. pose proof (outline_made topic keyPoints wordCount) as Hmade.
  destruct (to_string topic) as [text|e]; [|exact Hmade].
  eexists. split; [exact Hmade|]. split; [reflexivity|]. cbv zeta.
  split; [exact (outline_length _ _ _ _ Hmade)|]. split.
  - rewrite (outline_sections _ _ _ _ Hmade). simpl. f_equal.
    rewrite fmap_app, outline_headings. reflexivity.
  - rewrite (outline_length _ _ _ _ Hmade).
    replace (Z.of_nat (S (S (length keyPoints)))) with (Z.of_nat (length keyPoints) + 2)
      by lia.
    exact (outline_uniform _ _ _ _ Hmade).
Qed.

Lemma outline_structure_witness :
  - 2 ^ 53 < 1500 < 2 ^ 53
  /\ exists outline,
       BlogAssistant.generateOutline (VStr "Microservices Architecture")
         [VStr "a"; VStr "b"; VStr "c"; VStr "d"; VStr "e"] 1500 = Normal outline
       /\ get_prop outline "target_word_count" = VNum 1500
       /\ let sections := sections_of outline in
          length sections = 7%nat
          /\ heading_of <$> sections
             = [VStr "Introduction"; VStr "a"; VStr "b"; VStr "c"; VStr "d"; VStr "e";
                VStr "Conclusion"]
          /\ Forall (fun s => word_count_of s = 1500 / Z.of_nat (length sections)) sections.
Proof.
  assert (H : - 2 ^ 53 < 1500 < 2 ^ 53) by lia.
  split; [exact H|].
  exact (outline_structure (VStr "Microservices Architecture")
           [VStr "a"; VStr "b"; VStr "c"; VStr "d"; VStr "e"] 1500 H).
Defined.

(** A topic that cannot be printed: no outline is made. *)
Example outline_of_unprintable_topic :
  BlogAssistant.generateOutline (VObj [("toString", VNum 1)]) [VStr "a"] 1000
  = Abrupt not_primitive.
Proof. reflexivity. Qed.

Lemma total_words_uniform (sections : list value) (w : Z) :
  Forall (fun s => word_count_of s = w) sections ->
  foldr Z.add 0 (word_count_of <$> sections) = Z.of_nat (length sections) * w.
Proof.
  induction 1 as [|s l Hs _ IH]; [simpl; lia|].
  rewrite fmap_cons. cbn [foldr length]. rewrite IH, Hs. lia.
Qed.

(** X8: for a target that is not negative and is below 2^53, the words
    given to the sections of an outline add up to at most the target,
    and fall short of it by less than the number of sections. *)
Theorem outline_words_within_target topic keyPoints wordCount outline :
  0 <= wordCount < 2 ^ 53 ->
  BlogAssistant.generateOutline topic keyPoints wordCount = Normal outline ->
  total_words outline <= wordCount
  /\ wordCount < total_words outline + Z.of_nat (length (sections_of outline)).
Proof.
  intros [Hpos _] Hmade.
  pose proof (outline_length topic keyPoints wordCount outline Hmade) as Hlen.
  pose proof (outline_uniform topic keyPoints wordCount outline Hmade) as Hwords.
  unfold total_words.
  rewrite (total_words_uniform _ _ Hwords), Hlen.
  replace (Z.of_nat (length keyPoints) + 2) with (Z.of_nat (S (S (length keyPoints))))
    by lia.
  set (n := Z.of_nat (S (S (length keyPoints)))).
  assert (Hn : 0 < n) by (unfold n; lia).
  pose proof (Z.mul_div_le wordCount n Hn).
  pose proof (Z.mul_succ_div_gt wordCount n Hn). lia.
Qed.

Lemma outline_words_within_target_witness :
  0 <= 1500 < 2 ^ 53
  /\ exists outline,
       BlogAssistant.generateOutline (VStr "Microservices Architecture")
         [VStr "a"; VStr "b"; VStr "c"; VStr "d"; VStr "e"] 1500 = Normal outline
       /\ total_words outline <= 1500
       /\ 1500 < total_words outline + Z.of_nat (length (sections_of outline)).
Proof.
  assert (H : 0 <= 1500 < 2 ^ 53) by lia.
  split; [exact H|]. eexists. split; [reflexivity|].
  exact (outline_words_within_target (VStr "Microservices Architecture")
           [VStr "a"; VStr "b"; VStr "c"; VStr "d"; VStr "e"] 1500 _ H eq_refl).
Defined.

(** X9: the workflow of [createBlogPost], for a topic that can be
    printed (its numbers in the range that prints digit by digit) and a
    target of magnitude below 2^53: the research resolves to an object
    with five key points, each a phrase that ends with the topic, and
    with the audience given or [general readers]; the outline made from
    these key points has seven sections, headed by the introduction, the
    five key points and the conclusion, of the target divided by seven,
    rounded down (214 words for the 1500 of the example). *)
Theorem research_then_outline topic audience wordCount text :
  to_string topic = Normal text ->
  safe topic = true ->
  - 2 ^ 53 < wordCount < 2 ^ 53 ->
  exists research outline,
    BlogAssistant.researchTopic topic audience = Normal research
    /\ get_prop research "keyPoints"
       = VArr (VStr <$> ["Definition and importance of " +:+ text;
                         "Current trends in " +:+ text;
                         "Best practices for " +:+ text;
                         "Common challenges with " +:+ text;
                         "Future of " +:+ text])
    /\ get_prop research "audience"
       = (if truthy audience then audience else VStr "general readers")
    /\ (forall keyPoints,
          get_prop research "keyPoints" = VArr keyPoints ->
          BlogAssistant.generateOutline topic keyPoints wordCount = Normal outline
          /\ length (sections_of outline) = 7%nat
          /\ heading_of <$> sections_of outline
             = VStr "Introduction" :: keyPoints ++ [VStr "Conclusion"]
          /\ Forall (fun s => word_count_of s = wordCount / 7) (sections_of outline)).
Proof.
  intros Htext _ _. unfold BlogAssistant.researchTopic. rewrite Htext.
  eexists _, _. split; [reflexivity|]. split; [reflexivity|]. split; [reflexivity|].
  intros keyPoints [= <-].
  assert (Hmade : BlogAssistant.generateOutline topic
                    (VStr <$> ["Definition and importance of " +:+ text;
                               "Current trends in " +:+ text;
                               "Best practices for " +:+ text;
                               "Common challenges with " +:+ text;
                               "Future of " +:+ text]) wordCount
                  = Normal
                      (VObj [("title", VStr ("The Complete Guide to " +:+ text));
                             ("target_word_count", VNum wordCount);
                             ("sections",
                              VArr (BlogAssistant.outline_section (VStr "Introduction")
                                      (wordCount / 7)
                                      "Hook the reader, introduce the topic, preview main points"
                                    :: map (fun point =>
                                              BlogAssistant.outline_section point
                                                (wordCount / 7)
                                                "Expand on this key point with examples and explanations")
                                         (VStr <$> ["Definition and importance of " +:+ text;
                                                    "Current trends in " +:+ text;
                                                    "Best practices for " +:+ text;
                                                    "Common challenges with " +:+ text;
                                                    "Future of " +:+ text])
                                    ++ [BlogAssistant.outline_section (VStr "Conclusion")
                                          (wordCount / 7)
                                          "Summarize key points, call to action"]))])).
  { rewrite outline_made, Htext. reflexivity. }
  split; [exact Hmade|]. split; [reflexivity|]. split; [reflexivity|].
  repeat (apply Forall_cons; split; [reflexivity|]). apply Forall_nil_2.
Qed.

Lemma research_then_outline_witness :
  to_string (VStr "Microservices Architecture") = Normal "Microservices Architecture"
  /\ exists research outline,
       BlogAssistant.researchTopic (VStr "Microservices Architecture")
         (VStr "Software developers and architects") = Normal research
       /\ get_prop research "audience" = VStr "Software developers and architects"
       /\ (forall keyPoints,
             get_prop research "keyPoints" = VArr keyPoints ->
             BlogAssistant.generateOutline (VStr "Microservices Architecture") keyPoints 1500
             = Normal outline
             /\ length (sections_of outline) = 7%nat
             /\ Forall (fun s => word_count_of s = 214) (sections_of outline)).
Proof.
  split; [reflexivity|].
  assert (Hrange : - 2 ^ 53 < 1500 < 2 ^ 53) by lia.
  destruct (research_then_outline (VStr "Microservices Architecture")
              (VStr "Software developers and architects") 1500 "Microservices Architecture"
              eq_refl eq_refl Hrange)
    as (research & outline & Hresearch & _ & Haudience & Houtline).
  exists research, outline. split; [exact Hresearch|]. split; [exact Haudience|].
  intros keyPoints Hpoints. destruct (Houtline keyPoints Hpoints) as (Hmade & Hlen & _ & Hwords).
  split; [exact Hmade|]. split; [exact Hlen|exact Hwords].
Defined.

(** The research of a topic that cannot be printed is rejected. *)
Example research_of_unprintable_topic :
  BlogAssistant.researchTopic (VArr [VObj [("toString", VStr "x")]]) VUndef
  = Abrupt not_primitive.
Proof. reflexivity. Qed.

(** * The client (simple client, lines 5-117) *)

(** ** The constructor (lines 6-10) *)

Lemma strip_slash_snoc url : strip_slash (url +:+ "/") = url.
Proof.
  induction url as [|c rest IH]; [reflexivity|].
  destruct rest as [|c' rest']; [reflexivity|].
  change (String c (strip_slash (String c' rest' +:+ "/")) = String c (String c' rest')).
  rewrite IH. reflexivity.
Qed.

Lemma strip_slash_cases url :
  strip_slash url = url \/ url = strip_slash url +:+ "/".
Proof.
  induction url as [|c rest IH]; [left; reflexivity|].
  destruct rest as [|c' rest'].
  - cbn [strip_slash]. destruct (Ascii.eqb_spec c slash) as [->|_]; [right|left]; reflexivity.
  - change (strip_slash (String c (String c' rest')))
      with (String c (strip_slash (String c' rest'))).
    destruct IH as [IH|IH]; [left|right].
    + rewrite IH. reflexivity.
    + change (String c (String c' rest')
              = String c (strip_slash (String c' rest') +:+ "/")).
      rewrite <- IH. reflexivity.
Qed.

(** X10: the client made for a URL that ends with a slash keeps the URL
    without that slash, so the paths it appends begin with one slash;
    any other URL is kept as it is, and only one slash is ever removed. *)
Theorem new_strips_one_slash url key :
  A2A.agentUrl (A2A.new (url +:+ "/") key) = url
  /\ (A2A.agentUrl (A2A.new url key) = url
      \/ url = A2A.agentUrl (A2A.new url key) +:+ "/")
  /\ A2A.apiKey (A2A.new url key) = key
  /\ A2A.agentCard (A2A.new url key) = VNull.
Proof.
  simpl. split; [apply strip_slash_snoc|]. split; [apply strip_slash_cases|].
  split; reflexivity.
Qed.

Example new_localhost :
  A2A.agentUrl (A2A.new "http://localhost:3000/" "test-api-key") = "http://localhost:3000"
  /\ A2A.agentUrl (A2A.new "http://localhost:3000" "test-api-key") = "http://localhost:3000"
  /\ A2A.agentUrl (A2A.new "http://localhost:3000//" "test-api-key")
     = "http://localhost:3000/".
Proof. repeat split. Qed.

(** ** The polling loop (lines 91-117; blog example, lines 370-391) *)

Lemma a2a_returned taskId maxWaitMs startTime polls t hist :
  A2AClient.waitForCompletion taskId maxWaitMs startTime polls = Returned t hist ->
  (state (status t) = "completed" \/ state (status t) = "canceled")
  /\ exists now answer,
       (now, answer) ∈ polls
       /\ sendRequest answer = Normal (t, hist)
       /\ now - startTime <= maxWaitMs.
Proof.
  induction polls as [|[now answer] polls IH]; [discriminate|].
  cbn [A2AClient.waitForCompletion].
  destruct (now - startTime >? maxWaitMs) eqn:Hlate; [discriminate|].
  destruct (sendRequest answer) as [[t' hist']|e] eqn:Hanswer; [|discriminate].
  destruct (existsb _ _) eqn:Hterminal.
  - destruct (_ || _) eqn:Hfailed.
    + destruct (status_text t'); [destruct (to_string _)|]; discriminate.
    + intros [= <- <-]. split.
      * simpl in Hterminal. apply orb_false_iff in Hfailed as [Hf Hr].
        rewrite Hf, Hr in Hterminal. simpl in Hterminal. rewrite orb_false_r in Hterminal.
        apply orb_true_iff in Hterminal as [H|H]; apply String.eqb_eq in H; auto.
      * exists now, answer. split; [apply elem_of_cons; left; reflexivity|].
        split; [exact Hanswer|]. rewrite Z.gtb_ltb in Hlate. apply Z.ltb_ge. exact Hlate.
  - intros H. destruct (IH H) as (Hst & now' & answer' & Hin & Hrest).
    split; [exact Hst|]. exists now', answer'.
    split; [apply elem_of_cons; right; exact Hin|exact Hrest].
Qed.

Lemma blog_returned taskId maxWaitMs startTime polls t hist :
  BlogClient.waitForCompletion taskId maxWaitMs startTime polls = Returned t hist ->
  (state (status t) = "completed" \/ state (status t) = "canceled")
  /\ exists now answer,
       (now, answer) ∈ polls
       /\ sendRequest answer = Normal (t, hist)
       /\ now - startTime <= maxWaitMs.
Proof.
  induction polls as [|[now answer] polls IH]; [discriminate|].
  cbn [BlogClient.waitForCompletion].
  destruct (now - startTime >? maxWaitMs) eqn:Hlate; [discriminate|].
  destruct (sendRequest answer) as [[t' hist']|e] eqn:Hanswer; [|discriminate].
  destruct (status_text t') as [text|]; [|discriminate].
  destruct (to_string (js_or text (VStr EmptyString))); [|discriminate].
  destruct (existsb _ _) eqn:Hterminal.
  - destruct (String.eqb _ "failed") eqn:Hfailed; [destruct (to_string text); discriminate|].
    intros [= <- <-]. split.
    + simpl in Hterminal. rewrite Hfailed in Hterminal. simpl in Hterminal.
      rewrite orb_false_r in Hterminal.
      apply orb_true_iff in Hterminal as [H|H]; apply String.eqb_eq in H; auto.
    + exists now, answer. split; [apply elem_of_cons; left; reflexivity|].
      split; [exact Hanswer|]. rewrite Z.gtb_ltb in Hlate. apply Z.ltb_ge. exact Hlate.
  - intros H. destruct (IH H) as (Hst & now' & answer' & Hin & Hrest).
    split; [exact Hst|]. exists now', answer'.
    split; [apply elem_of_cons; right; exact Hin|exact Hrest].
Qed.

(** X11: whatever the polls are, a record that [waitForCompletion] of
    either client returns is [completed] or [canceled], and it is the
    result of a poll made before the deadline: the loop never returns a
    record that is failed, rejected or still at work. *)
Theorem returned_record_is_final taskId maxWaitMs startTime polls t hist :
  A2AClient.waitForCompletion taskId maxWaitMs startTime polls = Returned t hist
  \/ BlogClient.waitForCompletion taskId maxWaitMs startTime polls = Returned t hist ->
  (state (status t) = "completed" \/ state (status t) = "canceled")
  /\ exists now answer,
       (now, answer) ∈ polls
       /\ sendRequest answer = Normal (t, hist)
       /\ now - startTime <= maxWaitMs.
Proof.
  intros [H|H]; [exact (a2a_returned _ _ _ _ _ _ H)|exact (blog_returned _ _ _ _ _ _ H)].
Qed.

Lemma returned_record_is_final_witness :
  let done := {| id := "t1";
                 status := {| state := "completed"; timestamp := 1100;
                              message := Some (agent_message "The sum is 8") |};
                 artifacts := [sum_artifact (VNum 8)] |} in
  let polls := [(0, sent (initial_task "t1" 100) (VStr "1")); (1000, sent done (VStr "2"))] in
  A2AClient.waitForCompletion "t1" 30000 0 polls = Returned done None
  /\ (state (status done) = "completed" \/ state (status done) = "canceled").
Proof.
  assert (H : A2AClient.waitForCompletion "t1" 30000 0
                [(0, sent (initial_task "t1" 100) (VStr "1"));
                 (1000, sent {| id := "t1";
                                status := {| state := "completed"; timestamp := 1100;
                                             message := Some (agent_message "The sum is 8") |};
                                artifacts := [sum_artifact (VNum 8)] |} (VStr "2"))]
              = Returned {| id := "t1";
                            status := {| state := "completed"; timestamp := 1100;
                                         message := Some (agent_message "The sum is 8") |};
                            artifacts := [sum_artifact (VNum 8)] |} None).
  { reflexivity. }
  split; [exact H|].
  exact (proj1 (returned_record_is_final "t1" 30000 0 _ _ None (or_introl H))).
Defined.



(** * The client and the simple server together *)

Lemma wire_agentCard : wire agentCard = agentCard.
Proof. reflexivity. Qed.

(** The card the server publishes lists the skills its handler knows. *)
Lemma agentCard_lists_skills :
  A2A.log_card agentCard = Normal (VStr <$> agentCard_skills).
Proof. reflexivity. Qed.

Lemma strict_eq_string s v : strict_eq (VStr s) v = is_string s v.
Proof. destruct v; try reflexivity. simpl. apply String.eqb_sym. Qed.

Lemma find_skill_agentCard skillId :
  A2A.find_skill agentCard skillId
  = Normal (if is_string "add" skillId
            then default VUndef (head (match get_prop agentCard "skills" with
                                       | VArr skills => skills
                                       | _ => []
                                       end))
            else VUndef).
Proof.
  rewrite <- strict_eq_string.
  change (A2A.find_skill agentCard skillId)
    with (if strict_eq (VStr "add") skillId
          then Normal (default VUndef (head (match get_prop agentCard "skills" with
                                             | VArr skills => skills
                                             | _ => []
                                             end)))
          else Normal VUndef).
  destruct (strict_eq (VStr "add") skillId); reflexivity.
Qed.

Lemma rpc_request_accepted this method params now :
  A2A.apiKey this = "test-api-key" ->
  authenticateApiKey (A2A.rpc_request this method params now) = None.
Proof.
  intros Hkey. apply accepted_request. unfold A2A.rpc_request. cbn [headers].
  rewrite lookup_insert_ne by discriminate. rewrite lookup_singleton_eq, Hkey. reflexivity.
Qed.

(** The first lines of [sendTask]: the card is there, or is fetched. *)
Lemma card_ready uuid snow this srv :
  knows_simple_server this ->
  (if truthy (A2A.agentCard this) then (Normal VUndef, this, srv)
   else A2A.discover (simple_server uuid snow) this srv)
  = (if truthy (A2A.agentCard this) then Normal VUndef else Normal agentCard,
     with_card this, srv).
Proof.
  intros [Hcard|Hcard]; rewrite Hcard.
  - reflexivity.
  - cbn [truthy agentCard]. unfold with_card. rewrite <- Hcard. destruct this; reflexivity.
Qed.

(** What [sendTask] comes to against the simple server. *)
Lemma sendTask_server uuid snow skillId data now this srv :
  knows_simple_server this ->
  A2A.sendTask (simple_server uuid snow) skillId data now this srv
  = match to_string skillId with
    | Abrupt e => (Some (Abrupt e), with_card this, srv)
    | Normal text =>
        if is_string "add" skillId then
          let '(answer, srv') :=
            post_api (A2A.rpc_request (with_card this) "tasks/send"
                        (VObj [("skill", skillId); ("message", A2A.task_message text data)])
                        now) uuid snow srv in
          (sendRequest <$> (on_wire <$> answer), with_card this, srv')
        else
          (Some (Abrupt (JsError ("Unknown skill: " +:+ text))), with_card this, srv)
    end.
Proof.
  intros Hknows. unfold A2A.sendTask. rewrite (card_ready uuid snow this srv Hknows).
  assert (Hcard : A2A.agentCard (with_card this) = agentCard) by reflexivity.
  destruct (truthy (A2A.agentCard this)); rewrite Hcard, find_skill_agentCard;
    destruct (is_string "add" skillId); destruct (to_string skillId) as [text|e];
    try reflexivity;
    unfold A2A.sendRequest, simple_server; cbn [post_api_json];
    destruct (post_api _ _ _ _) as [answer srv']; reflexivity.
Qed.

(** X13: a skill that the card of the simple server does not list is
    refused by [sendTask] itself: no request reaches [/api], and the
    server stays as it is; the card fetched on the way is kept. The
    error is [Unknown skill: <id>] for an id that can be printed (its
    numbers in the range that prints digit by digit), and the
    [TypeError] of the template literal for an id that is an object
    without a primitive value. *)
Theorem sendTask_refuses_unlisted_skill uuid snow skillId data now this srv :
  knows_simple_server this ->
  is_string "add" skillId = false ->
  (exists fault,
     A2A.sendTask (simple_server uuid snow) skillId data now this srv
     = (Some (Abrupt fault), with_card this, srv))
  /\ (forall text,
        to_string skillId = Normal text -> safe skillId = true ->
        A2A.sendTask (simple_server uuid snow) skillId data now this srv
        = (Some (Abrupt (JsError ("Unknown skill: " +:+ text))), with_card this, srv))
  /\ (forall e,
        to_string skillId = Abrupt e ->
        A2A.sendTask (simple_server uuid snow) skillId data now this srv
        = (Some (Abrupt (TypeError "Cannot convert object to primitive value")),
           with_card this, srv)).
Proof.
  intros Hknows Hskill. rewrite (sendTask_server _ _ _ _ _ _ _ Hknows), Hskill.
  destruct (to_string skillId) as [text|e] eqn:Htext.
  - split; [eexists; reflexivity|]. split; [|discriminate].
    intros text' [= <-] _. reflexivity.
  - split; [eexists; reflexivity|]. split; [discriminate|].
    intros e' _. rewrite (to_string_fault _ _ Htext). reflexivity.
Qed.

Lemma sendTask_refuses_unlisted_skill_witness :
  let this := A2A.new "http://localhost:3000/" "test-api-key" in
  knows_simple_server this
  /\ A2A.sendTask (simple_server "t1" 100) (VStr "subtract") five_and_three 90 this initial
     = (Some (Abrupt (JsError "Unknown skill: subtract")), with_card this, initial)
  /\ A2A.sendTask (simple_server "t1" 100) (VObj [("toString", VNum 1)]) five_and_three 90
       this initial
     = (Some (Abrupt (TypeError "Cannot convert object to primitive value")),
        with_card this, initial).
Proof.
  assert (H : knows_simple_server (A2A.new "http://localhost:3000/" "test-api-key")).
  { left. reflexivity. }
  split; [exact H|]. split.
  - exact (proj1 (proj2 (sendTask_refuses_unlisted_skill "t1" 100 (VStr "subtract")
                           five_and_three 90
                           (A2A.new "http://localhost:3000/" "test-api-key") initial H eq_refl))
             "subtract" eq_refl eq_refl).
  - exact (proj2 (proj2 (sendTask_refuses_unlisted_skill "t1" 100
                           (VObj [("toString", VNum 1)]) five_and_three 90
                           (A2A.new "http://localhost:3000/" "test-api-key") initial H eq_refl))
             not_primitive eq_refl).
Defined.

Lemma is_string_eq lit v : is_string lit v = true -> v = VStr lit.
Proof.
  destruct v; try discriminate. simpl. intros H%String.eqb_eq. subst. reflexivity.
Qed.

Lemma send_body this data now :
  body (A2A.rpc_request this "tasks/send"
          (VObj [("skill", VStr "add"); ("message", A2A.task_message "add" data)]) now)
  = envelope "tasks/send"
      (VObj [("skill", VStr "add"); ("message", wire (A2A.task_message "add" data))])
      (VStr (pretty now)).
Proof. reflexivity. Qed.

Lemma find_received_part text data :
  find_data_part (wire (A2A.task_message text data)) = Normal (received_part data).
Proof. destruct data; reflexivity. Qed.

(** The server on the request of [sendTask] for the skill [add]. *)
Lemma post_add_request uuid snow data now this srv :
  A2A.apiKey this = "test-api-key" ->
  let req := A2A.rpc_request this "tasks/send"
               (VObj [("skill", VStr "add"); ("message", A2A.task_message "add" data)])
               now in
  let working := merge_update snow working_update
                   (submitted_data uuid snow (wire (A2A.task_message "add" data))) in
  draws_uuid req = true
  /\ post_api req uuid snow srv
     = (Some (sent (task working) (VStr (pretty now))),
        {| tasks := <[uuid := working]> (tasks srv);
           timers := timers srv
                     ++ [{| timer_task := uuid; timer_ms := 1000;
                            timer_rest :=
                              try_await (report_sum (params_of (received_part data))) |}]
        |}).
Proof.
  intros Hkey req working.
  assert (Hauth : authenticateApiKey req = None) by (apply rpc_request_accepted; exact Hkey).
  assert (Hbody : body req
                  = envelope "tasks/send"
                      (VObj [("skill", VStr "add");
                             ("message", wire (A2A.task_message "add" data))])
                      (VStr (pretty now))) by apply send_body.
  assert (Hdraw : draws_uuid req = true).
  { unfold draws_uuid. rewrite Hauth, Hbody. reflexivity. }
  assert (Hparams : nullish (get_prop (body req) "params") = false).
  { rewrite Hbody. reflexivity. }
  split; [exact Hdraw|].
  pose proof (post_send req uuid snow srv Hdraw Hparams) as Hpost. cbv zeta in Hpost.
  rewrite Hbody in Hpost.
  change (get_prop (get_prop (envelope "tasks/send"
            (VObj [("skill", VStr "add");
                   ("message", wire (A2A.task_message "add" data))])
            (VStr (pretty now))) "params") "message")
    with (wire (A2A.task_message "add" data)) in Hpost.
  rewrite find_received_part in Hpost.
  change (get_prop (get_prop (envelope "tasks/send"
            (VObj [("skill", VStr "add");
                   ("message", wire (A2A.task_message "add" data))])
            (VStr (pretty now))) "params") "skill")
    with (VStr "add") in Hpost.
  change (is_string "add" (VStr "add")) with true in Hpost. cbv iota in Hpost.
  exact Hpost.
Qed.

(** The answer and the server after [sendTask] of the skill [add]. *)
Lemma sendTask_add_server uuid snow data now this srv :
  knows_simple_server this ->
  A2A.apiKey this = "test-api-key" ->
  let working := merge_update snow working_update
                   (submitted_data uuid snow (wire (A2A.task_message "add" data))) in
  A2A.sendTask (simple_server uuid snow) (VStr "add") data now this srv
  = (Some (Normal (wire_task (task working), None)), with_card this,
     {| tasks := <[uuid := working]> (tasks srv);
        timers := timers srv
                  ++ [{| timer_task := uuid; timer_ms := 1000;
                         timer_rest :=
                           try_await (report_sum (params_of (received_part data))) |}] |}).
Proof.
  intros Hknows Hkey working.
  rewrite (sendTask_server _ _ _ _ _ _ _ Hknows).
  cbn [to_string is_string String.eqb Ascii.eqb Bool.eqb].
  destruct (post_add_request uuid snow data now (with_card this) srv Hkey) as [_ Hpost].
  rewrite Hpost. reflexivity.
Qed.





(** The same request with an [a] that has no primitive value: the work
    starts all the same, and the timer will report the fault. *)
Example sendTask_add_unprintable :
  let this := A2A.new "http://localhost:3000/" "test-api-key" in
  let data := VObj [("a", VObj [("toString", VNum 1)]); ("b", VNum 3)] in
  exists t srv',
    A2A.sendTask (simple_server "t1" 100) (VStr "add") data 90 this initial
    = (Some (Normal (t, None)), with_card this, srv')
    /\ state (status t) = "working"
    /\ timers srv'
       = [{| timer_task := "t1"; timer_ms := 1000;
             timer_rest := Await (CallUpdate (error_update not_primitive) (Await Done)) |}].
Proof. eexists _, _. split; [vm_compute; reflexivity|]. split; reflexivity. Qed.

(** ** The run of the example: send, then poll (lines 121-141) *)

Lemma started_adding uuid snow message srv :
  tasks srv !! uuid = None ->
  timers_at_work srv ->
  adding uuid
    {| tasks := <[uuid := merge_update snow working_update (submitted_data uuid snow message)]>
                  (tasks srv);
       timers := timers srv ++ [{| timer_task := uuid; timer_ms := 1000;
                                   timer_rest := after_sleep (VNum 8) |}] |}.
Proof.
  intros Hnew [_ Hwork]. eexists. cbn [tasks timers].
  split; [apply lookup_insert_eq|]. split.
  - intros pt [Hpt|Hpt]%elem_of_app Htask.
    + specialize (Hwork pt Hpt). unfold state_of in Hwork. rewrite Htask, Hnew in Hwork.
      discriminate.
    + apply list_elem_of_singleton in Hpt. subst pt. reflexivity.
  - left. split; [split; reflexivity|].
    eexists. split; [apply elem_of_app; right; apply list_elem_of_singleton; reflexivity|].
    reflexivity.
Qed.

Lemma run_adding pre events uuid :
  fresh_run (pre ++ events) initial ->
  adding uuid (run pre initial) ->
  adding uuid (run (pre ++ events) initial).
Proof.
  induction events as [|e events IH] using rev_ind; intros Hfresh Hadding.
  - rewrite app_nil_r. exact Hadding.
  - rewrite app_assoc in Hfresh |- *.
    pose proof Hfresh as [Hbefore [He _]]%fresh_run_app.
    rewrite run_snoc.
    exact (effect_adding _ _ _ uuid
             (step_effect e _ (run_timers_report _)) He
             (run_timers_at_work _ Hbefore) (IH Hbefore Hadding)).
Qed.

Lemma poll_known_task this uuid url rc uuid' sc srv taskData :
  A2A.apiKey this = "test-api-key" ->
  tasks srv !! uuid = Some taskData ->
  post_api_json (simple_server uuid' sc) url
    (A2A.rpc_request this "tasks/get"
       (VObj [("taskId", VStr uuid); ("includeHistory", VBool false)]) rc) srv
  = (Some (on_wire {| http_status := 200; jsonrpc := "2.0";
                      payload := Result (task taskData) None;
                      rpc_id := VStr (pretty rc) |}), srv).
Proof.
  intros Hkey Hlook. cbn [simple_server post_api_json]. unfold post_api.
  rewrite (rpc_request_accepted _ _ _ _ Hkey).
  change (body (A2A.rpc_request this "tasks/get"
                  (VObj [("taskId", VStr uuid); ("includeHistory", VBool false)]) rc))
    with (envelope "tasks/get"
            (VObj [("taskId", VStr uuid); ("includeHistory", VBool false)]) (VStr (pretty rc))).
  cbn. rewrite Hlook. reflexivity.
Qed.

Lemma change_keeps_ids srv srv' :
  Change srv srv' ->
  (forall key taskData, tasks srv !! key = Some taskData -> id (task taskData) = key) ->
  forall key taskData, tasks srv' !! key = Some taskData -> id (task taskData) = key.
Proof.
  intros Hchange Hids key taskData.
  destruct Hchange as [|uuid now message u timers' _|taskId now u timers' _]; simpl.
  - apply Hids.
  - rewrite lookup_insert. destruct (decide (uuid = key)) as [<-|_]; [|apply Hids].
    intros [= <-]. apply merge_update_id.
  - destruct (decide (key = taskId)) as [->|Hne].
    + unfold updateCallback. destruct (tasks srv !! taskId) as [old|] eqn:Hold; simpl.
      * rewrite lookup_insert_eq. intros [= <-]. rewrite merge_update_id.
        exact (Hids taskId old Hold).
      * rewrite Hold. discriminate.
    + rewrite updateCallback_other by exact Hne. apply Hids.
Qed.

Lemma run_keeps_ids events key taskData :
  tasks (run events initial) !! key = Some taskData -> id (task taskData) = key.
Proof.
  revert key taskData. induction events as [|e events IH] using rev_ind.
  - intros key taskData. simpl. rewrite lookup_empty. discriminate.
  - rewrite run_snoc.
    exact (change_keeps_ids _ _ (step_change e _ (run_timers_report events)) IH).
Qed.

Lemma polls_see_sum this uuid maxWaitMs startTime turns :
  A2A.apiKey this = "test-api-key" ->
  forall pre,
    fresh_run (pre ++ concat (turn_events <$> turns)) initial ->
    adding uuid (run pre initial) ->
    match A2AClient.waitForCompletion uuid maxWaitMs startTime
            (polls_of this (VStr uuid) turns (run pre initial)) with
    | Returned result hist => sum_done result /\ hist = None /\ id result = uuid
    | Thrown e =>
        e = JsError ("Task " +:+ uuid +:+ " did not complete within "
                     +:+ pretty maxWaitMs +:+ "ms")
    | Polling => True
    end.
Proof.
  intros Hkey. induction turns as [|turn rest IH]; intros pre Hfresh Hadding; [exact I|].
  rewrite fmap_cons in Hfresh. cbn [concat] in Hfresh. rewrite app_assoc in Hfresh.
  pose proof Hfresh as [Hhere _]%fresh_run_app.
  pose proof (run_adding pre (turn_events turn) uuid Hhere Hadding) as Hnow.
  cbn [polls_of]. rewrite <- run_app.
  destruct Hnow as (taskData & Hlook & Hreport & Hstate).
  rewrite (poll_known_task this uuid _ _ _ _ _ taskData Hkey Hlook).
  cbn [A2AClient.waitForCompletion].
  destruct (turn_clock turn - startTime >? maxWaitMs); [reflexivity|].
  cbn [sendRequest on_wire payload fmap option_fmap option_map].
  change (state (status (wire_task (task taskData)))) with (state (status (task taskData))).
  destruct Hstate as [[[Hworking _] _]|[Hcompleted Harts]].
  - rewrite Hworking. cbn [A2AClient.terminalStates existsb String.eqb Ascii.eqb Bool.eqb orb].
    apply IH; [exact Hfresh|].
    exists taskData. split; [exact Hlook|]. split; [exact Hreport|].
    left. destruct (run_adding pre (turn_events turn) uuid Hhere Hadding)
      as (taskData' & Hlook' & _ & Hstate').
    rewrite Hlook in Hlook'. injection Hlook' as <-.
    destruct Hstate' as [Hat|[Hdone _]]; [exact Hat|congruence].
  - rewrite Hcompleted.
    cbn [A2AClient.terminalStates existsb String.eqb Ascii.eqb Bool.eqb orb].
    split; [|split; [reflexivity|]].
    + split; [exact Hcompleted|]. cbn [wire_task artifacts]. rewrite Harts. reflexivity.
    + exact (run_keeps_ids _ uuid taskData Hlook).
Qed.

(** X15: the run of the example client against the simple server.
    [sendTask('add', {a: 5, b: 3})] returns the new record, and
    [waitForCompletion] of its id, whatever else the server runs
    meanwhile with fresh ids and whenever the timers fire, either returns
    the record of that id in the state [completed], with exactly one
    artifact, [calculation_result], whose single part is the data part
    [{result: 8}], or throws its own timeout error, or is still polling:
    it never reports a failed task. The time to wait is a number of
    magnitude below 2^53, which the timeout error prints digit by digit. *)
Theorem client_reads_the_sum this events uuid snow cnow turns maxWaitMs startTime :
  knows_simple_server this ->
  A2A.apiKey this = "test-api-key" ->
  - 2 ^ 53 < maxWaitMs < 2 ^ 53 ->
  fresh_run
    (events
     ++ Post (A2A.rpc_request (with_card this) "tasks/send"
                (VObj [("skill", VStr "add");
                       ("message", A2A.task_message "add" five_and_three)]) cnow)
          uuid snow
     :: concat (turn_events <$> turns)) initial ->
  exists t srv1,
    A2A.sendTask (simple_server uuid snow) (VStr "add") five_and_three cnow this
      (run events initial)
    = (Some (Normal (t, None)), with_card this, srv1)
    /\ id t = uuid
    /\ match A2AClient.waitForCompletion (id t) maxWaitMs startTime
               (polls_of (with_card this) (VStr (id t)) turns srv1) with
       | Returned result hist =>
           state (status result) = "completed"
           /\ artifacts result
              = [VObj [("name", VStr "calculation_result");
                       ("parts", VArr [VObj [("type", VStr "data");
                                             ("data", VObj [("result", VNum 8)])]])]]
           /\ hist = None
           /\ id result = uuid
       | Thrown e =>
           e = JsError ("Task " +:+ uuid +:+ " did not complete within "
                        +:+ pretty maxWaitMs +:+ "ms")
       | Polling => True
       end.
Proof.
  intros Hknows Hkey _ Hfresh.
  rewrite (sendTask_add_server _ _ _ _ _ _ Hknows Hkey).
  eexists _, _. split; [reflexivity|]. split; [reflexivity|].
  cbn [wire_task id task merge_update submitted_data initial_task].
  replace (id (task (merge_update snow working_update
                       (submitted_data uuid snow
                          (wire (A2A.task_message "add" five_and_three))))))
    with uuid by reflexivity.
  destruct (post_add_request uuid snow five_and_three cnow (with_card this)
              (run events initial) Hkey) as [Hdraw Hpost].
  rewrite cons_middle, app_assoc in Hfresh.
  pose proof Hfresh as [[Hevents [Hsend _]]%fresh_run_app _]%fresh_run_app.
  assert (Hsrv1 :
    {| tasks := <[uuid := merge_update snow working_update
                            (submitted_data uuid snow
                               (wire (A2A.task_message "add" five_and_three)))]>
                  (tasks (run events initial));
       timers := timers (run events initial)
                 ++ [{| timer_task := uuid; timer_ms := 1000;
                        timer_rest :=
                          try_await (report_sum (params_of (received_part five_and_three)))
                     |}] |}
    = run (events
           ++ [Post (A2A.rpc_request (with_card this) "tasks/send"
                       (VObj [("skill", VStr "add");
                              ("message", A2A.task_message "add" five_and_three)]) cnow)
                 uuid snow]) initial).
  { rewrite run_snoc. cbn [step]. rewrite Hpost. reflexivity. }
  rewrite Hsrv1.
  pose proof (polls_see_sum (with_card this) uuid maxWaitMs startTime turns Hkey
                (events
                 ++ [Post (A2A.rpc_request (with_card this) "tasks/send"
                             (VObj [("skill", VStr "add");
                                    ("message", A2A.task_message "add" five_and_three)]) cnow)
                       uuid snow]) Hfresh) as Hpolls.
  destruct (A2AClient.waitForCompletion uuid maxWaitMs startTime _) as [result hist|e|].
  - destruct Hpolls as [[Hstate Harts] [Hhist Hid]].
    + rewrite <- Hsrv1.
      apply (started_adding uuid snow _ (run events initial)).
      * apply Hsend. exact Hdraw.
      * exact (run_timers_at_work _ Hevents).
    + split; [exact Hstate|]. split; [exact Harts|]. split; [exact Hhist|exact Hid].
  - apply Hpolls. rewrite <- Hsrv1.
    apply (started_adding uuid snow _ (run events initial)).
    + apply Hsend. exact Hdraw.
    + exact (run_timers_at_work _ Hevents).
  - exact I.
Qed.

Lemma client_reads_the_sum_witness :
  let this := A2A.new "http://localhost:3000/" "test-api-key" in
  knows_simple_server this
  /\ - 2 ^ 53 < 30000 < 2 ^ 53
  /\ fresh_run
       ([] ++ Post (A2A.rpc_request (with_card this) "tasks/send"
                      (VObj [("skill", VStr "add");
                             ("message", A2A.task_message "add" five_and_three)]) 90)
               "t1" 95
           :: concat (turn_events <$> example_turns)) initial
  /\ exists t srv1,
       A2A.sendTask (simple_server "t1" 95) (VStr "add") five_and_three 90 this
         (run [] initial)
       = (Some (Normal (t, None)), with_card this, srv1)
       /\ id t = "t1"
       /\ match A2AClient.waitForCompletion (id t) 30000 90
                  (polls_of (with_card this) (VStr (id t)) example_turns srv1) with
          | Returned result hist =>
              state (status result) = "completed"
              /\ artifacts result
                 = [VObj [("name", VStr "calculation_result");
                          ("parts", VArr [VObj [("type", VStr "data");
                                                ("data", VObj [("result", VNum 8)])]])]]
              /\ hist = None
              /\ id result = "t1"
          | Thrown e =>
              e = JsError ("Task " +:+ "t1" +:+ " did not complete within "
                           +:+ pretty 30000 +:+ "ms")
          | Polling => True
          end.
Proof.
  assert (Hknows : knows_simple_server (A2A.new "http://localhost:3000/" "test-api-key")).
  { left. reflexivity. }
  assert (Hfresh :
    fresh_run
      ([] ++ Post (A2A.rpc_request
                     (with_card (A2A.new "http://localhost:3000/" "test-api-key")) "tasks/send"
                     (VObj [("skill", VStr "add");
                            ("message", A2A.task_message "add" five_and_three)]) 90)
              "t1" 95
          :: concat (turn_events <$> example_turns)) initial).
  { simpl. repeat split; intros _; vm_compute; reflexivity. }
  assert (Hwait : - 2 ^ 53 < 30000 < 2 ^ 53) by lia.
  split; [exact Hknows|]. split; [exact Hwait|]. split; [exact Hfresh|].
  exact (client_reads_the_sum (A2A.new "http://localhost:3000/" "test-api-key") [] "t1" 95 90
           example_turns 30000 90 Hknows eq_refl Hwait Hfresh).
Defined.

(** The short run ends with the record of the sum. *)
Example client_run_returns_eight :
  let this := with_card (A2A.new "http://localhost:3000/" "test-api-key") in
  let srv1 := (post_api (A2A.rpc_request this "tasks/send"
                           (VObj [("skill", VStr "add");
                                  ("message", A2A.task_message "add" five_and_three)])
                           90) "t1" 95 initial).2 in
  match A2AClient.waitForCompletion "t1" 30000 90
          (polls_of this (VStr "t1") example_turns srv1) with
  | Returned result _ =>
      state (status result) = "completed"
      /\ message (status result) = Some (agent_message "The sum is 8")
      /\ artifacts result
         = [VObj [("name", VStr "calculation_result");
                  ("parts", VArr [VObj [("type", VStr "data");
                                        ("data", VObj [("result", VNum 8)])]])]]
  | _ => False
  end.
Proof. vm_compute. repeat split. Qed.

(** ** A client with another key; polls for a task (lines 27-49, 83-88) *)

Lemma rpc_request_refused this method params now :
  A2A.apiKey this <> "test-api-key" ->
  headers (A2A.rpc_request this method params now) !! "x-api-key" <> Some "test-api-key".
Proof.
  intros Hkey. unfold A2A.rpc_request. cbn [headers].
  rewrite lookup_insert_ne by discriminate. rewrite lookup_singleton_eq. congruence.
Qed.

(** X16: a client whose key is not the key of the server gets nothing
    done: [getTask] and [sendTask] of a listed skill throw
    [RPC Error: Authentication failed], and the server stays as it is. *)
Theorem client_with_wrong_key uuid snow this srv :
  A2A.apiKey this <> "test-api-key" ->
  (forall taskId includeHistory now,
      A2A.getTask (simple_server uuid snow) taskId includeHistory now this srv
      = (Some (Abrupt (JsError "RPC Error: Authentication failed")), srv))
  /\ (forall data now,
        knows_simple_server this ->
        A2A.sendTask (simple_server uuid snow) (VStr "add") data now this srv
        = (Some (Abrupt (JsError "RPC Error: Authentication failed")), with_card this, srv)).
Proof.
  intros Hkey.
  assert (Hrefused : forall that method params now,
    A2A.apiKey that = A2A.apiKey this ->
    post_api (A2A.rpc_request that method params now) uuid snow srv
    = (authenticateApiKey (A2A.rpc_request that method params now), srv)
    /\ sendRequest <$> (on_wire <$> authenticateApiKey (A2A.rpc_request that method params now))
       = Some (Abrupt (JsError "RPC Error: Authentication failed"))).
  { intros that method params now Hsame.
    assert (Hthat : A2A.apiKey that <> "test-api-key") by congruence.
    pose proof (rpc_request_refused that method params now Hthat) as Hheader.
    apply key_refused_iff in Hheader.
    unfold post_api, authenticateApiKey. rewrite Hheader. split; reflexivity. }
  split.
  - intros taskId includeHistory now. unfold A2A.getTask, A2A.sendRequest.
    cbn [simple_server post_api_json].
    destruct (Hrefused this "tasks/get"
                (VObj [("taskId", taskId);
                       ("includeHistory",
                        match includeHistory with VUndef => VBool false | v => v end)])
                now eq_refl) as [Hpost Hanswer].
    rewrite Hpost, Hanswer. reflexivity.
  - intros data now Hknows. rewrite (sendTask_server _ _ _ _ _ _ _ Hknows).
    cbn [to_string is_string String.eqb Ascii.eqb Bool.eqb].
    destruct (Hrefused (with_card this) "tasks/send"
                (VObj [("skill", VStr "add"); ("message", A2A.task_message "add" data)])
                now eq_refl) as [Hpost Hanswer].
    rewrite Hpost, Hanswer. reflexivity.
Qed.

Lemma client_with_wrong_key_witness :
  let this := A2A.new "http://localhost:3000" "guess" in
  A2A.apiKey this <> "test-api-key"
  /\ A2A.getTask (simple_server "u1" 100) (VStr "t1") VUndef 90 this initial
     = (Some (Abrupt (JsError "RPC Error: Authentication failed")), initial).
Proof.
  assert (H : A2A.apiKey (A2A.new "http://localhost:3000" "guess") <> "test-api-key")
    by discriminate.
  split; [exact H|].
  exact (proj1 (client_with_wrong_key "u1" 100 (A2A.new "http://localhost:3000" "guess")
                  initial H) (VStr "t1") VUndef 90).
Defined.

(** X17: [getTask] of a client with the right key reads the record of
    the id from the simple server: it returns the task as stored, with
    the history only when [includeHistory] is truthy (it is [false] when
    left out), and throws [RPC Error: Task not found] for an id the
    server does not have; the server stays as it is. *)
Theorem getTask_reads_the_record uuid snow this srv key includeHistory now :
  A2A.apiKey this = "test-api-key" ->
  A2A.getTask (simple_server uuid snow) (VStr key) includeHistory now this srv
  = (Some match tasks srv !! key with
          | None => Abrupt (JsError "RPC Error: Task not found")
          | Some taskData =>
              Normal (wire_task (task taskData),
                      if truthy includeHistory then Some (wire_array (history taskData))
                      else None)
          end, srv).
Proof.
  intros Hkey. unfold A2A.getTask, A2A.sendRequest. cbn [simple_server post_api_json].
  unfold post_api. rewrite (rpc_request_accepted _ _ _ _ Hkey).
  destruct includeHistory as [| |b|n| |s|elems|fields]; cbn;
    destruct (tasks srv !! key) as [taskData|]; try reflexivity.
  - destruct b; reflexivity.
  - destruct (n =? 0); reflexivity.
  - destruct s; reflexivity.
Qed.

Lemma getTask_reads_the_record_witness :
  let this := A2A.new "http://localhost:3000" "test-api-key" in
  A2A.apiKey this = "test-api-key"
  /\ A2A.getTask (simple_server "u1" 100) (VStr "t9") VUndef 90 this initial
     = (Some (Abrupt (JsError "RPC Error: Task not found")), initial).
Proof.
  split; [reflexivity|].
  exact (getTask_reads_the_record "u1" 100 (A2A.new "http://localhost:3000" "test-api-key")
           initial "t9" VUndef 90 eq_refl).
Defined.
